(** * tabula-backend: movement recording, notification fan-out and
      warehouse deactivation

    A shallow embedding of the request handlers of [app/routers] and of the
    helpers they call.  Integers are [Z]; a [date] is a day ordinal and a
    [datetime] a number of seconds, both in [Z]; Python's [None] is [option].
    A handler runs in a small state-and-exception monad over the SQLAlchemy
    session (the committed store, the transaction's working copy and the
    objects added but not flushed yet), the connection manager of
    [app/routers/websocket.py] and the standard output. *)

From Stdlib Require Import ZArith List String Ascii Bool Lia DecimalString.
Import ListNotations.
Open Scope string_scope.
Open Scope list_scope.
Open Scope Z_scope.

Set Implicit Arguments.

(** ** Python values *)

Module Py.

(** [str.lower] on the ASCII letters; the other bytes of the (UTF-8) string
    are kept.  No character outside ASCII lowers to a letter of ["admin"],
    so the comparison of [is_admin_user] is the one of the source. *)
Definition lower_ascii (c : ascii) : ascii :=
  let n := nat_of_ascii c in
  if (Nat.leb 65 n && Nat.leb n 90)%bool then ascii_of_nat (n + 32) else c.

Fixpoint lower (s : string) : string :=
  match s with
  | EmptyString => EmptyString
  | String c s' => String (lower_ascii c) (lower s')
  end.

(** [len(s)]: the number of characters of a string.  Strings are held as
    UTF-8, where every character has one byte that is not a continuation
    byte ([10xxxxxx]). *)
Definition continuation (c : ascii) : bool :=
  let n := nat_of_ascii c in
  (Nat.leb 128 n && Nat.ltb n 192)%bool.

Fixpoint len (s : string) : nat :=
  match s with
  | EmptyString => 0%nat
  | String c s' => if continuation c then len s' else S (len s')
  end.

(** Truth value of an [Optional[str]]: [None] and [""] are false. *)
Definition truthy_str (s : option string) : bool :=
  match s with
  | None | Some EmptyString => false
  | Some _ => true
  end.

(** [s or default] on an [Optional[str]]. *)
Definition or_str (s : option string) (default : string) : string :=
  match s with
  | None | Some EmptyString => default
  | Some v => v
  end.

(** [s.split("\n")[0]] *)
Fixpoint first_line (s : string) : string :=
  match s with
  | EmptyString => EmptyString
  | String c s' =>
      if Ascii.eqb c "010"%char then EmptyString else String c (first_line s')
  end.

(** [str(n)] for an [int]. *)
Definition str_of_int (n : Z) : string :=
  DecimalString.NilZero.string_of_int (Z.to_int n).

(** [enumerate(l, start)] *)
Fixpoint enumerate {A} (l : list A) (start : Z) : list (Z * A) :=
  match l with
  | [] => []
  | x :: l' => (start, x) :: enumerate l' (start + 1)
  end.

(** [x in l] on integers. *)
Definition mem (x : Z) (l : list Z) : bool := existsb (Z.eqb x) l.

(** [set(a) - set(b)]: the values of [a] that are not in [b], each one once
(Python leaves the order of a set open; the test made on the result is
whether it is empty). *)
Fixpoint set_diff (a b : list Z) : list Z :=
  match a with
  | [] => []
  | x :: a' =>
      let d := set_diff a' b in
      if (mem x b || mem x d)%bool then d else x :: d
  end.

End Py.

(** ** Tables ([app/models]) *)

Definition date := Z.
Definition datetime := Z.

(** A [date] compared with a [datetime] column is taken at midnight. *)
Definition datetime_of_date (d : date) : datetime := d * 86400.

Module User.
Record t := mk
  { id : Z; nombre : string; email : string; passwd : string;
    rol : string; activo : bool }.
End User.

Module Warehouse.
Record t := mk { codigo : Z; descripcion : string; activo : bool }.
End Warehouse.

Module Product.
Record t := mk
  { codigo : Z; sku : string; nombre_corto : string;
    descripcion : option string; id_categoria : Z; activo : bool }.
End Product.

Module Stock.
Record t := mk
  { codigo_almacen : Z; codigo_producto : Z; lote : string;
    fecha_cad : option date; cantidad : Z }.
End Stock.

Module Movement.
Record t := mk
  { id_mov : Z; fecha : datetime; tipo : string; id_usuario : Z }.
End Movement.

Module MovementLine.
Record t := mk
  { id_mov : Z; id_linea : Z; codigo_almacen : Z; codigo_producto : Z;
    lote : string; fecha_cad : option date; cantidad : Z }.
End MovementLine.

(** The rows of the database, table by table. *)
Record Db := mkDb
  { usuario : list User.t;
    almacen : list Warehouse.t;
    producto : list Product.t;
    stock : list Stock.t;
    movimientos : list Movement.t;
    movimientos_lineas : list MovementLine.t }.

(** ** Request schemas ([app/schemas]) *)

(** [Literal["entrada", "salida"]] *)
Inductive Tipo := entrada | salida.

Definition tipo_str (t : Tipo) : string :=
  match t with entrada => "entrada" | salida => "salida" end.

Definition tipo_eqb (a b : Tipo) : bool :=
  match a, b with
  | entrada, entrada | salida, salida => true
  | _, _ => false
  end.

(** A field of the JSON body: left out, [null], or given. *)
Inductive field (A : Type) := Omitted | Null | Given (a : A).
Arguments Omitted {A}.
Arguments Null {A}.
Arguments Given {A} a.

Definition SIN_LOTE : string := "SIN_LOTE".

Module MovementLineCreate.
Record t := mk
  { codigo_almacen : Z; codigo_producto : Z; lote : option string;
    fecha_cad : option date; cantidad : Z }.

(** The line as it comes in the body. *)
Record body := mkBody
  { b_codigo_almacen : Z; b_codigo_producto : Z; b_lote : field string;
    b_fecha_cad : field date; b_cantidad : Z }.

(** [lote: Optional[str] = Field(default="SIN_LOTE", max_length=50)] *)
Definition lote_of_field (f : field string) : option string :=
  match f with
  | Omitted => Some SIN_LOTE
  | Null => None
  | Given s => Some s
  end.

Definition fecha_of_field (f : field date) : option date :=
  match f with
  | Given d => Some d
  | _ => None
  end.

(** Pydantic validation of one line: [None] stands for the 422 answer
    ([lote] longer than 50 characters, [cantidad] below 1). *)
Definition validate (b : body) : option t :=
  let l := lote_of_field (b_lote b) in
  let too_long :=
    match l with
    | Some s => Nat.ltb 50 (Py.len s)
    | None => false
    end in
  if (too_long || (b_cantidad b <? 1))%bool then None
  else Some (mk (b_codigo_almacen b) (b_codigo_producto b) l
                (fecha_of_field (b_fecha_cad b)) (b_cantidad b)).
End MovementLineCreate.

Module MovementCreate.
Record t := mk
  { tipo : Tipo; id_usuario : Z; lineas : list MovementLineCreate.t }.
End MovementCreate.

Module MovementLineResponse.
Record t := mk
  { id_mov : Z; id_linea : Z; codigo_almacen : Z; codigo_producto : Z;
    lote : option string; fecha_cad : option date; cantidad : Z }.

(** [MovementLineResponse.model_validate(line)] *)
Definition model_validate (l : MovementLine.t) : t :=
  mk (MovementLine.id_mov l) (MovementLine.id_linea l)
     (MovementLine.codigo_almacen l) (MovementLine.codigo_producto l)
     (Some (MovementLine.lote l)) (MovementLine.fecha_cad l)
     (MovementLine.cantidad l).
End MovementLineResponse.

Module MovementResponse.
Record t := mk
  { id_mov : Z; fecha : datetime; tipo : string; id_usuario : Z;
    nombre_usuario : string; lineas : list MovementLineResponse.t }.
End MovementResponse.

(** ** Exceptions *)

(** The [detail] of an [HTTPException]: one constructor per message of the
    handlers, carrying the values the message is formatted with. *)
Inductive Detail :=
  (* "No puedes registrar un movimiento para otro usuario." *)
  | NoOtroUsuario
  (* "El movimiento debe contener al menos una linea." *)
  | AlMenosUnaLinea
  (* "La linea con producto {codigo_producto}, lote '{lote}', tiene una
     fecha de caducidad vencida o del dia actual: {fecha_cad}." *)
  | FechaCaducidadVencida (codigo_producto : Z) (lote : option string)
                          (fecha_cad : date)
  (* "El numero maximo de lineas permitidas es 100." *)
  | MaximoLineas
  (* "Los siguientes almacenes: {diff} no existen" *)
  | AlmacenesNoExisten (diff : list Z)
  (* "Los siguientes productos: {diff} no existen" *)
  | ProductosNoExisten (diff : list Z)
  (* "Error de integridad: {msg_error}" *)
  | ErrorDeIntegridad (msg_error : string)
  (* "Error en la base de datos." *)
  | ErrorEnLaBaseDeDatos
  (* "Error al obtener el usuario asociado al movimiento" *)
  | ErrorUsuarioAsociado
  (* "Error al obtener las lineas del movimiento" *)
  | ErrorLineasMovimiento
  (* "Error de conexion con la base de datos" *)
  | ErrorDeConexion
  (* "Movimiento no encontrado" *)
  | MovimientoNoEncontrado
  (* "No tienes permisos para ver este movimiento" *)
  | SinPermisosMovimiento
  (* "Almacen no encontrado" *)
  | AlmacenNoEncontrado
  (* "El almacen {codigo}, no esta vacio y por tanto no se puede inactivar." *)
  | AlmacenNoVacio (codigo : Z)
  (* "Error al actualizar almacenes" *)
  | ErrorActualizarAlmacenes.

Definition HTTP_400_BAD_REQUEST : Z := 400.
Definition HTTP_403_FORBIDDEN : Z := 403.
Definition HTTP_404_NOT_FOUND : Z := 404.
Definition HTTP_500_INTERNAL_SERVER_ERROR : Z := 500.

(** The classes of [sqlalchemy.exc] a database call raises; all of them
    derive from [SQLAlchemyError]. *)
Inductive SAClass := IntegrityError | OperationalError | OtherSQLAlchemyError.

(** What a library call can raise: a [SQLAlchemyError] of some class with the
    driver's message ([e.orig]), or an [Exception] of another family. *)
Inductive fault :=
  | SQLAlchemyError (cls : SAClass) (orig : string)
  | OtherError (msg : string).

Inductive exn :=
  | HTTPException (status_code : Z) (detail : Detail)
  | Raised (f : fault).

(** ** The environment of a request *)

(** The places where a handler talks to the database. *)
Inductive db_call :=
  | Flush
  | Commit
  | Refresh
  | GetWarehouse
  | SelectAlmacenesActivos
  | SelectProductosActivos
  | SelectNombreUsuario
  | SelectLineas (id_mov : Z)
  | SelectMovements
  | CountMovements
  | SelectMovement
  | SelectHistory
  | CountHistory
  | SelectStock
  | SelectWarehouses
  | SumStock (codigo : Z).

(** What the handler does not decide: the clock, the identifier the database
    gives to a new header, and which database calls fail, and how. *)
Record Env := mkEnv
  { today : date;
    now : datetime;
    generated_id : Z;
    fault_at : db_call -> option fault }.

Definition no_fault : db_call -> option fault := fun _ => None.

(** ** WebSocket connections ([app/routers/websocket.py]) *)

Module WebSocket.
Record t := mk { client : Z; connected : bool; received : list string }.

(** [send_text]: delivers to an open connection, raises on a closed one.
    [connected] is what the first send after the client went away finds;
    what a second send on the same closed connection raises is left out. *)
Definition send_text (ws : t) (message : string) : fault + t :=
  if connected ws
  then inr (mk (client ws) true (received ws ++ [message]))
  else inl (OtherError "WebSocketDisconnect").
End WebSocket.

(** ** The state a handler works on *)

Record World := mkWorld
  { committed : Db;                          (* what other sessions see *)
    working : Db;                            (* the open transaction *)
    session_new : list MovementLine.t;       (* added, not flushed yet *)
    active_connections : list WebSocket.t;   (* [manager.active_connections] *)
    broadcast_calls : list string;           (* messages given to [broadcast] *)
    stdout : list string }.

Definition set_working (w : World) (d : Db) : World :=
  mkWorld (committed w) d (session_new w) (active_connections w)
          (broadcast_calls w) (stdout w).

Definition set_session_new (w : World) (l : list MovementLine.t) : World :=
  mkWorld (committed w) (working w) l (active_connections w)
          (broadcast_calls w) (stdout w).

Definition set_connections (w : World) (c : list WebSocket.t) : World :=
  mkWorld (committed w) (working w) (session_new w) c
          (broadcast_calls w) (stdout w).

(** A request opens a session on the store: nothing pending. *)
Definition open_session (db : Db) (conns : list WebSocket.t) : World :=
  mkWorld db db [] conns [] [].

(** ** The monad of handlers: state and exceptions *)

Inductive Result (A : Type) := Return (a : A) | Raise (e : exn).
Arguments Return {A} a.
Arguments Raise {A} e.

Definition M (A : Type) : Type := World -> Result A * World.

Definition ret {A} (a : A) : M A := fun w => (Return a, w).

Definition bind {A B} (c : M A) (k : A -> M B) : M B :=
  fun w =>
    match c w with
    | (Return a, w') => k a w'
    | (Raise e, w') => (Raise e, w')
    end.

Definition raise {A} (e : exn) : M A := fun w => (Raise e, w).

(** [try: body except Exception as e: handler(e)] *)
Definition try_except {A} (body : M A) (handler : exn -> M A) : M A :=
  fun w =>
    match body w with
    | (Return a, w') => (Return a, w')
    | (Raise e, w') => handler e w'
    end.

Definition get_world : M World := fun w => (Return w, w).
Definition put_world (w : World) : M unit := fun _ => (Return tt, w).

Declare Scope handler_scope.
Delimit Scope handler_scope with handler.
Notation "x <- c ;; k" := (bind c (fun x => k))
  (at level 61, c at next level, right associativity) : handler_scope.
Notation "c ;; k" := (bind c (fun _ => k))
  (at level 61, right associativity) : handler_scope.
Open Scope handler_scope.

(** [for x in l: body(x)] *)
Fixpoint for_each {A} (l : list A) (body : A -> M unit) : M unit :=
  match l with
  | [] => ret tt
  | x :: l' => body x ;; for_each l' body
  end.

(** ** The session ([db]) *)

Section Session.

Variable env : Env.

(** Every database call starts by asking the environment whether it fails. *)
Definition db_call_point (c : db_call) : M unit :=
  match fault_at env c with
  | Some f => raise (Raised f)
  | None => ret tt
  end.

(** [db.exec(select ...)]: the query reads the open transaction. *)
Definition db_exec {A} (c : db_call) (query : Db -> A) : M A :=
  db_call_point c ;;
  w <- get_world ;;
  ret (query (working w)).

Definition insert_movement (d : Db) (m : Movement.t) : Db :=
  mkDb (usuario d) (almacen d) (producto d) (stock d)
       (movimientos d ++ [m]) (movimientos_lineas d).

Definition insert_line (d : Db) (l : MovementLine.t) : Db :=
  mkDb (usuario d) (almacen d) (producto d) (stock d)
       (movimientos d) (movimientos_lineas d ++ [l]).

(** [db.add(new_movement); db.flush()]: the header is written to the open
    transaction and gets its identifier.  The table's primary key
    ([id_mov]) and foreign key ([id_usuario] to [usuario.id]) are checked. *)
Definition db_add_flush_movement (tipo : string) (id_usuario : Z)
  : M Movement.t :=
  db_call_point Flush ;;
  w <- get_world ;;
  let m := Movement.mk (generated_id env) (now env) tipo id_usuario in
  if existsb (fun x => Movement.id_mov x =? generated_id env)
             (movimientos (working w))
  then raise (Raised (SQLAlchemyError IntegrityError
                        "duplicate key value violates unique constraint"))
  else if negb (existsb (fun u => User.id u =? id_usuario)
                        (usuario (working w)))
  then raise (Raised (SQLAlchemyError IntegrityError
                        "insert or update violates foreign key constraint"))
  else put_world (set_working w (insert_movement (working w) m)) ;; ret m.

(** [db.add(new_line)] *)
Definition db_add_line (l : MovementLine.t) : M unit :=
  w <- get_world ;;
  put_world (set_session_new w (session_new w ++ [l])).

(** The constraints of [movimientos_lineas] on one new row: primary key
    ([id_mov], [id_linea]) and the three foreign keys. *)
Definition line_insertable (d : Db) (l : MovementLine.t) : bool :=
  negb (existsb (fun x => (MovementLine.id_mov x =? MovementLine.id_mov l)
                          && (MovementLine.id_linea x =? MovementLine.id_linea l))
                (movimientos_lineas d))
  && existsb (fun m => Movement.id_mov m =? MovementLine.id_mov l)
             (movimientos d)
  && existsb (fun a => Warehouse.codigo a =? MovementLine.codigo_almacen l)
             (almacen d)
  && existsb (fun p => Product.codigo p =? MovementLine.codigo_producto l)
             (producto d).

(** The flush of the pending lines, row by row. *)
Fixpoint flush_lines (d : Db) (ls : list MovementLine.t) : option Db :=
  match ls with
  | [] => Some d
  | l :: ls' =>
      if line_insertable d l then flush_lines (insert_line d l) ls' else None
  end.

(** [db.commit()]: flushes what is pending and publishes the transaction;
    a failure publishes nothing. *)
Definition db_commit : M unit :=
  db_call_point Commit ;;
  w <- get_world ;;
  match flush_lines (working w) (session_new w) with
  | Some d =>
      put_world (mkWorld d d [] (active_connections w)
                         (broadcast_calls w) (stdout w))
  | None =>
      raise (Raised (SQLAlchemyError IntegrityError
                       "insert or update violates a constraint"))
  end.

(** [db.rollback()] *)
Definition db_rollback : M unit :=
  w <- get_world ;;
  put_world (mkWorld (committed w) (committed w) [] (active_connections w)
                     (broadcast_calls w) (stdout w)).

End Session.

(** ** The connection manager *)

Module ConnectionManager.

(** The loop of [broadcast] from a given connection on: the connections
    after the sends, and the exception that ended the loop, if any. *)
Fixpoint send_all (conns : list WebSocket.t) (message : string)
  : list WebSocket.t * option fault :=
  match conns with
  | [] => ([], None)
  | c :: rest =>
      match WebSocket.send_text c message with
      | inl f => (c :: rest, Some f)
      | inr c' =>
          let (rest', r) := send_all rest message in (c' :: rest', r)
      end
  end.

(** [async def broadcast(self, message)] *)
Definition broadcast (message : string) : M unit :=
  fun w =>
    let (conns, r) := send_all (active_connections w) message in
    let w' := mkWorld (committed w) (working w) (session_new w) conns
                      (broadcast_calls w ++ [message]) (stdout w) in
    match r with
    | Some f => (Raise (Raised f), w')
    | None => (Return tt, w')
    end.

(** [async def connect(self, websocket)] *)
Definition connect (ws : WebSocket.t) : M unit :=
  w <- get_world ;;
  put_world (set_connections w (active_connections w ++ [ws])).

Fixpoint remove (c : Z) (conns : list WebSocket.t) : option (list WebSocket.t) :=
  match conns with
  | [] => None
  | x :: rest =>
      if WebSocket.client x =? c then Some rest
      else option_map (cons x) (remove c rest)
  end.

(** [def disconnect(self, websocket)]: [list.remove] raises [ValueError]
    on a connection that is not in the list. *)
Definition disconnect (ws : WebSocket.t) : M unit :=
  w <- get_world ;;
  match remove (WebSocket.client ws) (active_connections w) with
  | Some conns => put_world (set_connections w conns)
  | None => raise (Raised (OtherError "ValueError"))
  end.

End ConnectionManager.

(** ** [app/utils/validation.py] *)

(** [user.rol.lower() == "admin"] *)
Definition is_admin_user (user : User.t) : bool :=
  String.eqb (Py.lower (User.rol user)) "admin".

(** ** [app/routers/movements.py]: [create_movement] *)

Definition is_empty {A} (l : list A) : bool :=
  match l with [] => true | _ => false end.

(** [print(a, b)] *)
Definition print (a b : string) : M unit :=
  fun w =>
    (Return tt,
     mkWorld (committed w) (working w) (session_new w) (active_connections w)
             (broadcast_calls w) (stdout w ++ [(a ++ " " ++ b)%string])).

(** [str(e)].  [OtherError] keeps the class of the exception; the ones the
    handlers meet ([WebSocketDisconnect(code=1006)] of a send on a closed
    connection) are raised with no positional argument, and their text is
    empty. *)
Definition str_of_exn (e : exn) : string :=
  match e with
  | Raised (SQLAlchemyError _ orig) => orig
  | Raised (OtherError _) => EmptyString
  | HTTPException _ _ => EmptyString
  end.

(** [f"Nuevo movimiento registrado: {id_mov} ({tipo})"] *)
Definition mensaje (id_mov : Z) (tipo : string) : string :=
  ("Nuevo movimiento registrado: " ++ Py.str_of_int id_mov
     ++ " (" ++ tipo ++ ")")%string.

Section CreateMovement.

Variable env : Env.

(** The test of the expiration loop on one line. *)
Definition vencida (tipo : Tipo) (linea : MovementLineCreate.t) : bool :=
  match MovementLineCreate.fecha_cad linea with
  | Some fecha_cad => (fecha_cad <=? today env) && tipo_eqb tipo entrada
  | None => false
  end.

(** Lines 239-271: the checks made before the session is touched. *)
Definition validar (movement_data : MovementCreate.t) (current_user : User.t)
  : M unit :=
  (if negb (is_admin_user current_user)
      && negb (MovementCreate.id_usuario movement_data =? User.id current_user)
   then raise (HTTPException HTTP_403_FORBIDDEN NoOtroUsuario)
   else ret tt) ;;
  (if is_empty (MovementCreate.lineas movement_data)
   then raise (HTTPException HTTP_400_BAD_REQUEST AlMenosUnaLinea)
   else ret tt) ;;
  for_each (MovementCreate.lineas movement_data)
    (fun linea =>
       if vencida (MovementCreate.tipo movement_data) linea
       then raise (HTTPException HTTP_400_BAD_REQUEST
                     (FechaCaducidadVencida
                        (MovementLineCreate.codigo_producto linea)
                        (MovementLineCreate.lote linea)
                        (match MovementLineCreate.fecha_cad linea with
                         | Some d => d
                         | None => 0
                         end)))
       else ret tt) ;;
  (if 100 <? Z.of_nat (List.length (MovementCreate.lineas movement_data))
   then raise (HTTPException HTTP_400_BAD_REQUEST MaximoLineas)
   else ret tt).

(** [select(Warehouse.codigo).where(Warehouse.codigo.in_(almacenes),
    Warehouse.activo == True)] *)
Definition select_almacenes_activos (almacenes : list Z) (d : Db) : list Z :=
  map Warehouse.codigo
      (filter (fun a => Py.mem (Warehouse.codigo a) almacenes
                        && Warehouse.activo a)
              (almacen d)).

(** [select(Product.codigo).where(Product.codigo.in_(productos),
    Product.activo == True)] *)
Definition select_productos_activos (productos : list Z) (d : Db) : list Z :=
  map Product.codigo
      (filter (fun p => Py.mem (Product.codigo p) productos
                        && Product.activo p)
              (producto d)).

(** The [MovementLine] built for the [i]-th submitted line. *)
Definition new_line (id_mov : Z) (i : Z) (line_data : MovementLineCreate.t)
  : MovementLine.t :=
  MovementLine.mk id_mov i
    (MovementLineCreate.codigo_almacen line_data)
    (MovementLineCreate.codigo_producto line_data)
    (Py.or_str (MovementLineCreate.lote line_data) SIN_LOTE)
    (MovementLineCreate.fecha_cad line_data)
    (MovementLineCreate.cantidad line_data).

(** Lines 280-327: the body of the [try]. *)
Definition registrar (movement_data : MovementCreate.t) : M Movement.t :=
  new_movement <-
    db_add_flush_movement env (tipo_str (MovementCreate.tipo movement_data))
                          (MovementCreate.id_usuario movement_data) ;;
  let almacenes :=
    map MovementLineCreate.codigo_almacen (MovementCreate.lineas movement_data) in
  let productos :=
    map MovementLineCreate.codigo_producto (MovementCreate.lineas movement_data) in
  almacenes_activos <-
    db_exec env SelectAlmacenesActivos (select_almacenes_activos almacenes) ;;
  (let diff := Py.set_diff almacenes almacenes_activos in
   if negb (is_empty diff)
   then raise (HTTPException HTTP_400_BAD_REQUEST (AlmacenesNoExisten diff))
   else ret tt) ;;
  productos_activos <-
    db_exec env SelectProductosActivos (select_productos_activos productos) ;;
  (let diff := Py.set_diff productos productos_activos in
   if negb (is_empty diff)
   then raise (HTTPException HTTP_400_BAD_REQUEST (ProductosNoExisten diff))
   else ret tt) ;;
  for_each (Py.enumerate (MovementCreate.lineas movement_data) 1)
    (fun il => db_add_line (new_line (Movement.id_mov new_movement)
                                     (fst il) (snd il))) ;;
  db_commit env ;;
  ret new_movement.

(** Lines 328-343: the three [except] arms, tried in this order. *)
Definition al_fallar (e : exn) : M Movement.t :=
  match e with
  | Raised (SQLAlchemyError _ orig) =>
      db_rollback ;;
      raise (HTTPException HTTP_400_BAD_REQUEST
               (ErrorDeIntegridad (Py.first_line orig)))
  | HTTPException _ _ =>
      db_rollback ;;
      raise e
  | Raised (OtherError _) =>
      db_rollback ;;
      raise (HTTPException HTTP_500_INTERNAL_SERVER_ERROR ErrorEnLaBaseDeDatos)
  end.

(** [except SQLAlchemyError: raise HTTPException(500, detail)]; any other
    exception goes on. *)
Definition except_sqlalchemy {A} (detail : Detail) (e : exn) : M A :=
  match e with
  | Raised (SQLAlchemyError _ _) =>
      raise (HTTPException HTTP_500_INTERNAL_SERVER_ERROR detail)
  | _ => raise e
  end.

(** [select(User.nombre).where(User.id == id_usuario)], [.first()] *)
Definition select_nombre_usuario (id_usuario : Z) (d : Db) : option string :=
  option_map User.nombre
    (find (fun u => User.id u =? id_usuario) (usuario d)).

(** [select(MovementLine).where(MovementLine.id_mov == id_mov)] *)
Definition select_lineas (id_mov : Z) (d : Db) : list MovementLine.t :=
  filter (fun l => MovementLine.id_mov l =? id_mov) (movimientos_lineas d).

Definition create_movement (movement_data : MovementCreate.t)
                           (current_user : User.t)
  : M MovementResponse.t :=
  validar movement_data current_user ;;
  new_movement <- try_except (registrar movement_data) al_fallar ;;
  nombre_usuario <-
    try_except
      (db_exec env SelectNombreUsuario
         (select_nombre_usuario (MovementCreate.id_usuario movement_data)))
      (except_sqlalchemy ErrorUsuarioAsociado) ;;
  movement_lines <-
    try_except
      (db_exec env (SelectLineas (Movement.id_mov new_movement))
         (select_lineas (Movement.id_mov new_movement)))
      (except_sqlalchemy ErrorDeConexion) ;;
  try_except
    (ConnectionManager.broadcast
       (mensaje (Movement.id_mov new_movement) (Movement.tipo new_movement)))
    (fun e => print "Error al emitir WebSocket:" (str_of_exn e)) ;;
  ret (MovementResponse.mk
         (Movement.id_mov new_movement)
         (Movement.fecha new_movement)
         (Movement.tipo new_movement)
         (Movement.id_usuario new_movement)
         (Py.or_str nombre_usuario "Desconocido")
         (map MovementLineResponse.model_validate movement_lines)).

End CreateMovement.

(** The store after a request: what the session has committed. *)
Definition store_after {A} (out : Result A * World) : Db := committed (snd out).

(** ** Queries: ordering and paging *)

(** Insertion of [x] into a list ordered by [before]. *)
Fixpoint insert_by {A} (before : A -> A -> bool) (x : A) (l : list A) : list A :=
  match l with
  | [] => [x]
  | y :: l' => if before x y then x :: y :: l' else y :: insert_by before x l'
  end.

(** [ORDER BY]: a stable sort; rows that compare equal keep the order of the
    table (SQL leaves their order open). *)
Fixpoint order_by {A} (before : A -> A -> bool) (l : list A) : list A :=
  match l with
  | [] => []
  | x :: l' => insert_by before x (order_by before l')
  end.

(** [.limit(limit).offset(offset)] *)
Definition limit_offset {A} (limit offset : Z) (l : list A) : list A :=
  firstn (Z.to_nat limit) (skipn (Z.to_nat offset) l).

(** ** [app/routers/movements.py]: the read side *)

Record Paginated (A : Type) := mkPaginated
  { data : list A; total : Z; p_limit : Z; p_offset : Z }.

Record MovementsQuery := mkMovementsQuery
  { q_limit : Z; q_offset : Z; q_search : option string;
    q_tipo : option string; q_fecha_desde : option date;
    q_fecha_hasta : option date; q_usuario_id : option Z }.

(** [sku: str = Field(..., min_length=3, max_length=20, pattern="^[A-Z0-9]+$")];
    the letters of the pattern are one byte each. *)
Definition sku_char (c : ascii) : bool :=
  let n := nat_of_ascii c in
  (Nat.leb 65 n && Nat.leb n 90) || (Nat.leb 48 n && Nat.leb n 57).

Definition sku_valido (s : string) : bool :=
  Nat.leb 3 (String.length s) && Nat.leb (String.length s) 20
  && forallb sku_char (list_ascii_of_string s).

Section Reads.

Variable env : Env.

(** [value ILIKE pattern], as the database decides it. *)
Variable ilike : string -> string -> bool.

(** [select(Movement, User.nombre).join(User, Movement.id_usuario == User.id)] *)
Definition movements_join_users (d : Db) : list (Movement.t * User.t) :=
  flat_map (fun m =>
              map (fun u => (m, u))
                  (filter (fun u => Movement.id_usuario m =? User.id u)
                          (usuario d)))
           (movimientos d).

(** The [where] clauses of [get_movements], in the order they are added. *)
Definition movements_where (q : MovementsQuery) (current_user : User.t)
                           (r : Movement.t * User.t) : bool :=
  let m := fst r in
  let u := snd r in
  (if Py.truthy_str (q_search q)
   then ilike (Py.lower (User.nombre u))
              ("%" ++ Py.lower (Py.or_str (q_search q) "") ++ "%")%string
   else true)
  && (match q_tipo q with
      | Some t =>
          if (String.eqb t "entrada" || String.eqb t "salida")%bool
          then String.eqb (Movement.tipo m) t else true
      | None => true
      end)
  && (match q_fecha_desde q with
      | Some f => datetime_of_date f <=? Movement.fecha m
      | None => true
      end)
  && (match q_fecha_hasta q with
      | Some f => Movement.fecha m <=? datetime_of_date f
      | None => true
      end)
  && (match q_usuario_id q with
      | Some i =>
          if (negb (i =? 0) && is_admin_user current_user)%bool
          then Movement.id_usuario m =? i else true
      | None => true
      end)
  && (if negb (is_admin_user current_user)
      then Movement.id_usuario m =? User.id current_user else true).

Definition fecha_desc (a b : Movement.t * User.t) : bool :=
  Movement.fecha (fst b) <=? Movement.fecha (fst a).

Definition movements_statement (q : MovementsQuery) (current_user : User.t)
                               (d : Db) : list (Movement.t * User.t) :=
  filter (movements_where q current_user) (movements_join_users d).

(** [select(MovementLine).where(MovementLine.id_mov == id_mov)
      .order_by(MovementLine.id_linea)] *)
Definition select_lineas_ordered (id_mov : Z) (d : Db) : list MovementLine.t :=
  order_by (fun a b => MovementLine.id_linea a <=? MovementLine.id_linea b)
           (select_lineas id_mov d).

Definition movement_response (m : Movement.t) (nombre_usuario : string)
                             (ls : list MovementLine.t) : MovementResponse.t :=
  MovementResponse.mk (Movement.id_mov m) (Movement.fecha m) (Movement.tipo m)
    (Movement.id_usuario m) nombre_usuario
    (map MovementLineResponse.model_validate ls).

(** The loop of [get_movements] over the page: one query per movement. *)
Fixpoint movements_response (results : list (Movement.t * User.t))
  : M (list MovementResponse.t) :=
  match results with
  | [] => ret []
  | (movement, u) :: rest =>
      movement_lines <-
        try_except
          (db_exec env (SelectLineas (Movement.id_mov movement))
             (select_lineas_ordered (Movement.id_mov movement)))
          (except_sqlalchemy ErrorDeConexion) ;;
      others <- movements_response rest ;;
      ret (movement_response movement (User.nombre u) movement_lines :: others)
  end.

Definition get_movements (q : MovementsQuery) (current_user : User.t)
  : M (Paginated MovementResponse.t) :=
  rt <- try_except
          (results <-
             db_exec env SelectMovements
               (fun d => limit_offset (q_limit q) (q_offset q)
                           (order_by fecha_desc
                              (movements_statement q current_user d))) ;;
           total_records <-
             db_exec env CountMovements
               (fun d => Z.of_nat (List.length
                                     (movements_statement q current_user d))) ;;
           ret (results, total_records))
          (except_sqlalchemy ErrorDeConexion) ;;
  movements <- movements_response (fst rt) ;;
  ret (mkPaginated movements (snd rt) (q_limit q) (q_offset q)).

(** [select(Movement).where(Movement.id_mov == id_mov)], [.first()] *)
Definition select_movement (id_mov : Z) (d : Db) : option Movement.t :=
  find (fun m => Movement.id_mov m =? id_mov) (movimientos d).

Definition get_movement (id_mov : Z) (current_user : User.t)
  : M MovementResponse.t :=
  found <- try_except (db_exec env SelectMovement (select_movement id_mov))
                      (except_sqlalchemy ErrorDeConexion) ;;
  match found with
  | None => raise (HTTPException HTTP_404_NOT_FOUND MovimientoNoEncontrado)
  | Some movement =>
      (if negb (is_admin_user current_user)
          && negb (Movement.id_usuario movement =? User.id current_user)
       then raise (HTTPException HTTP_403_FORBIDDEN SinPermisosMovimiento)
       else ret tt) ;;
      usuario <-
        try_except
          (db_exec env SelectNombreUsuario
             (select_nombre_usuario (Movement.id_usuario movement)))
          (except_sqlalchemy ErrorUsuarioAsociado) ;;
      movement_lines <-
        try_except
          (db_exec env (SelectLineas (Movement.id_mov movement))
             (select_lineas (Movement.id_mov movement)))
          (except_sqlalchemy ErrorLineasMovimiento) ;;
      ret (movement_response movement (Py.or_str usuario "Desconocido")
                             movement_lines)
  end.

(** ** [app/routers/stock.py]: [get_stock_history] *)






End Reads.


(** ** [app/routers/warehouses.py] *)

Record WarehouseUpdate := mkWarehouseUpdate
  { u_descripcion : option string; u_activo : option bool }.

Record BulkEstadoUpdate := mkBulkEstadoUpdate
  { codigos : list Z; b_activo : bool }.

Section Warehouses.

Variable env : Env.

(** [db.get(Warehouse, codigo)] *)
Definition get_warehouse_row (codigo : Z) (d : Db) : option Warehouse.t :=
  find (fun a => Warehouse.codigo a =? codigo) (almacen d).

(** [select(Stock).where(Stock.codigo_almacen == codigo)], [.first()] *)
Definition select_stock_first (codigo : Z) (d : Db) : option Stock.t :=
  find (fun s => Stock.codigo_almacen s =? codigo) (stock d).

(** The row of a loaded warehouse written back. *)
Definition write_warehouse (d : Db) (a : Warehouse.t) : Db :=
  mkDb (usuario d)
       (map (fun x => if Warehouse.codigo x =? Warehouse.codigo a then a else x)
            (almacen d))
       (producto d) (stock d) (movimientos d) (movimientos_lineas d).

(** [db.add(warehouse)] on a loaded and modified row. *)
Definition db_add_warehouse (a : Warehouse.t) : M unit :=
  w <- get_world ;;
  put_world (set_working w (write_warehouse (working w) a)).

Definition update_warehouse (codigo : Z) (warehouse_update : WarehouseUpdate)
  : M Warehouse.t :=
  found <- try_except (db_exec env GetWarehouse (get_warehouse_row codigo))
                      (except_sqlalchemy ErrorDeConexion) ;;
  match found with
  | None => raise (HTTPException HTTP_404_NOT_FOUND AlmacenNoEncontrado)
  | Some warehouse =>
      (match u_activo warehouse_update with
       | Some false =>
           try_except
             (stock <- db_exec env SelectStock (select_stock_first codigo) ;;
              match stock with
              | Some _ =>
                  raise (HTTPException HTTP_403_FORBIDDEN (AlmacenNoVacio codigo))
              | None => ret tt
              end)
             (except_sqlalchemy ErrorDeConexion)
       | _ => ret tt
       end) ;;
      let warehouse :=
        if Py.truthy_str (u_descripcion warehouse_update)
        then Warehouse.mk (Warehouse.codigo warehouse)
                          (Py.or_str (u_descripcion warehouse_update) "")
                          (Warehouse.activo warehouse)
        else warehouse in
      let warehouse :=
        match u_activo warehouse_update with
        | Some b => Warehouse.mk (Warehouse.codigo warehouse)
                                 (Warehouse.descripcion warehouse) b
        | None => warehouse
        end in
      db_add_warehouse warehouse ;;
      db_commit env ;;
      db_call_point env Refresh ;;
      ret warehouse
  end.

(** [select(func.sum(Stock.cantidad)).where(Stock.codigo_almacen == codigo)],
    [.first() or 0] *)
Definition sum_stock (codigo : Z) (d : Db) : Z :=
  fold_right Z.add 0
    (map Stock.cantidad
         (filter (fun s => Stock.codigo_almacen s =? codigo) (stock d))).

(** The loop of the bulk change; the result is [actualizados]. *)
Fixpoint cambiar_estados (almacenes : list Warehouse.t) (activo : bool)
  : M (list Warehouse.t) :=
  match almacenes with
  | [] => ret []
  | almacen :: rest =>
      if Bool.eqb (Warehouse.activo almacen) activo
      then cambiar_estados rest activo
      else
        skip <-
          (if negb activo
           then stock_total <-
                  db_exec env (SumStock (Warehouse.codigo almacen))
                          (sum_stock (Warehouse.codigo almacen)) ;;
                ret (0 <? stock_total)
           else ret false) ;;
        if (skip : bool) then cambiar_estados rest activo
        else
          let almacen' := Warehouse.mk (Warehouse.codigo almacen)
                                       (Warehouse.descripcion almacen) activo in
          db_add_warehouse almacen' ;;
          actualizados <- cambiar_estados rest activo ;;
          ret (almacen' :: actualizados)
  end.

(** The answer: the number of updated warehouses and of skipped codes. *)
Definition cambiar_estado_masivo_almacenes (data : BulkEstadoUpdate)
  : M (Z * Z) :=
  actualizados <-
    try_except
      (almacenes <-
         db_exec env SelectWarehouses
           (fun d => filter (fun a => Py.mem (Warehouse.codigo a) (codigos data))
                            (almacen d)) ;;
       cambiar_estados almacenes (b_activo data))
      (fun e =>
         match e with
         | Raised (SQLAlchemyError _ _) =>
             db_rollback ;;
             raise (HTTPException HTTP_500_INTERNAL_SERVER_ERROR
                      ErrorActualizarAlmacenes)
         | _ => raise e
         end) ;;
  db_commit env ;;
  ret (Z.of_nat (List.length actualizados),
       Z.of_nat (List.length (codigos data))
       - Z.of_nat (List.length actualizados)).

End Warehouses.

(** ** Vocabulary of the statements *)

(** The submission passes the authorization check. *)
Definition autorizado (movement_data : MovementCreate.t) (current_user : User.t)
  : bool :=
  is_admin_user current_user
  || (MovementCreate.id_usuario movement_data =? User.id current_user).

(** The header and the lines a submission asks to record. *)
Definition nuevo_movimiento (env : Env) (movement_data : MovementCreate.t)
  : Movement.t :=
  Movement.mk (generated_id env) (now env)
              (tipo_str (MovementCreate.tipo movement_data))
              (MovementCreate.id_usuario movement_data).

Definition nuevas_lineas (env : Env) (movement_data : MovementCreate.t)
  : list MovementLine.t :=
  map (fun il => new_line (generated_id env) (fst il) (snd il))
      (Py.enumerate (MovementCreate.lineas movement_data) 1).

(** The store with one more movement. *)
Definition store_with (d : Db) (m : Movement.t) (ls : list MovementLine.t) : Db :=
  mkDb (usuario d) (almacen d) (producto d) (stock d)
       (movimientos d ++ [m]) (movimientos_lineas d ++ ls).

(** The status code of the answer when the handler ends in an
    [HTTPException]. *)
Definition status_of {A} (r : Result A) : option Z :=
  match r with
  | Raise (HTTPException status_code _) => Some status_code
  | _ => None
  end.

(** Every line of the journal belongs to a recorded header (the foreign key
    of [movimientos_lineas.id_mov]). *)
Definition lineas_con_cabecera (d : Db) : bool :=
  forallb (fun l =>
             existsb (fun m => Movement.id_mov m =? MovementLine.id_mov l)
                     (movimientos d))
          (movimientos_lineas d).

(** The lot a recorded line is expected to carry, from the [lote] field of
    the body: the given lot, or the sentinel when the field is left out,
    [null] or empty. *)
Definition lote_esperado (f : field string) : string :=
  match f with
  | Omitted | Null | Given EmptyString => "SIN_LOTE"
  | Given s => s
  end.

(** The answer of a successful [create_movement]. *)
Definition respuesta (env : Env) (db : Db) (movement_data : MovementCreate.t)
  : MovementResponse.t :=
  let m := nuevo_movimiento env movement_data in
  let d := store_with db m (nuevas_lineas env movement_data) in
  MovementResponse.mk (Movement.id_mov m) (Movement.fecha m) (Movement.tipo m)
    (Movement.id_usuario m)
    (Py.or_str (select_nombre_usuario (Movement.id_usuario m) d) "Desconocido")
    (map MovementLineResponse.model_validate (select_lineas (Movement.id_mov m) d)).

(** The verdict of the checks made before the session is touched: the
    exception they raise, if any. *)
Definition veredicto (env : Env) (movement_data : MovementCreate.t)
                     (current_user : User.t) : option exn :=
  if negb (autorizado movement_data current_user)
  then Some (HTTPException HTTP_403_FORBIDDEN NoOtroUsuario)
  else if is_empty (MovementCreate.lineas movement_data)
  then Some (HTTPException HTTP_400_BAD_REQUEST AlMenosUnaLinea)
  else match find (vencida env (MovementCreate.tipo movement_data))
                  (MovementCreate.lineas movement_data) with
       | Some linea =>
           Some (HTTPException HTTP_400_BAD_REQUEST
                   (FechaCaducidadVencida
                      (MovementLineCreate.codigo_producto linea)
                      (MovementLineCreate.lote linea)
                      (match MovementLineCreate.fecha_cad linea with
                       | Some d => d
                       | None => 0
                       end)))
       | None =>
           if 100 <? Z.of_nat (List.length (MovementCreate.lineas movement_data))
           then Some (HTTPException HTTP_400_BAD_REQUEST MaximoLineas)
           else None
       end.

(** What the exception of the [try] body can be. *)
Inductive error_en_try : exn -> Prop :=
  | TryAlmacenes diff :
      error_en_try (HTTPException HTTP_400_BAD_REQUEST (AlmacenesNoExisten diff))
  | TryProductos diff :
      error_en_try (HTTPException HTTP_400_BAD_REQUEST (ProductosNoExisten diff))
  | TryFault f : error_en_try (Raised f).

(** What the [except] arms of the transaction answer. *)
Inductive error_de_registro : exn -> Prop :=
  | ErrAlmacenes diff :
      error_de_registro (HTTPException HTTP_400_BAD_REQUEST (AlmacenesNoExisten diff))
  | ErrProductos diff :
      error_de_registro (HTTPException HTTP_400_BAD_REQUEST (ProductosNoExisten diff))
  | ErrIntegridad msg :
      error_de_registro (HTTPException HTTP_400_BAD_REQUEST (ErrorDeIntegridad msg))
  | ErrBase :
      error_de_registro (HTTPException HTTP_500_INTERNAL_SERVER_ERROR ErrorEnLaBaseDeDatos).

(** What a failed query after the commit answers. *)
Inductive error_de_lectura : exn -> Prop :=
  | ErrUsuario :
      error_de_lectura (HTTPException HTTP_500_INTERNAL_SERVER_ERROR ErrorUsuarioAsociado)
  | ErrConexion :
      error_de_lectura (HTTPException HTTP_500_INTERNAL_SERVER_ERROR ErrorDeConexion)
  | ErrOtro msg :
      error_de_lectura (Raised (OtherError msg)).

(** The three ways a [create_movement] request ends: rejected with nothing
    written, written but answered with an error because a query made after
    the commit failed, or written and answered. *)
Inductive resultado (env : Env) (db : Db) (movement_data : MovementCreate.t)
                    (current_user : User.t)
  : Result MovementResponse.t * World -> Prop :=
  | Rechazado e w :
      committed w = db ->
      broadcast_calls w = [] ->
      veredicto env movement_data current_user = Some e
      \/ (veredicto env movement_data current_user = None
          /\ error_de_registro e) ->
      resultado env db movement_data current_user (Raise e, w)
  | RegistradoSinRespuesta e w :
      committed w = store_with db (nuevo_movimiento env movement_data)
                               (nuevas_lineas env movement_data) ->
      broadcast_calls w = [] ->
      veredicto env movement_data current_user = None ->
      error_de_lectura e ->
      fault_at env SelectNombreUsuario <> None
      \/ fault_at env (SelectLineas (generated_id env)) <> None ->
      resultado env db movement_data current_user (Raise e, w)
  | Registrado w :
      committed w = store_with db (nuevo_movimiento env movement_data)
                               (nuevas_lineas env movement_data) ->
      broadcast_calls w
      = [mensaje (generated_id env)
                 (tipo_str (MovementCreate.tipo movement_data))] ->
      veredicto env movement_data current_user = None ->
      existsb (fun x => Movement.id_mov x =? generated_id env) (movimientos db)
      = false ->
      resultado env db movement_data current_user
                (Return (respuesta env db movement_data), w).

(** Delivery to a connected observer. *)
Definition entregado (message : string) (c : WebSocket.t) : WebSocket.t :=
  WebSocket.mk (WebSocket.client c) true (WebSocket.received c ++ [message]).

(** *** A small store to run the handlers on *)

Module Demo.
Definition ana : User.t := User.mk 1 "Ana" "ana@x.es" "h" "usuario" true.
Definition luis : User.t := User.mk 2 "Luis" "luis@x.es" "h" "Admin" true.
Definition eva : User.t := User.mk 7 "Eva" "eva@x.es" "h" "usuario" true.

Definition db0 : Db :=
  mkDb [ana; luis; eva]
       [Warehouse.mk 1 "Central" true; Warehouse.mk 2 "Norte" false;
        Warehouse.mk 3 "Sur" true]
       [Product.mk 100 "A100" "Tornillo" None 1 true;
        Product.mk 200 "A200" "Tuerca" None 1 true;
        Product.mk 300 "A300" "Arandela" None 1 false]
       [Stock.mk 3 100 "SIN_LOTE" None 0]
       [] [].

Definition env0 : Env := mkEnv 20000 1728000000 1 no_fault.

Definition linea (almacen producto : Z) (lote : option string)
                 (fecha_cad : option date) (cantidad : Z) :=
  MovementLineCreate.mk almacen producto lote fecha_cad cantidad.

(** The scenario of the admin writing for user 7. *)
Definition salida7 : MovementCreate.t :=
  MovementCreate.mk salida 7 [linea 1 100 None None 5; linea 1 200 (Some "L1") None 3].

(** The same by a plain user, for another user, and without lines. *)
Definition ajena_vacia : MovementCreate.t := MovementCreate.mk salida 7 [].

(** An inbound movement with a lot that expires today. *)
Definition entrada_vencida : MovementCreate.t :=
  MovementCreate.mk entrada 7 [linea 1 100 (Some "L9") (Some 20000) 4].

(** A line on the inactive product 300. *)
Definition salida_inactivo : MovementCreate.t :=
  MovementCreate.mk salida 7 [linea 1 100 None None 5; linea 1 300 None None 3].

Definition fault_only (c : db_call) (f : fault) : db_call -> option fault :=
  fun c' =>
    match c, c' with
    | Flush, Flush | Commit, Commit
    | SelectNombreUsuario, SelectNombreUsuario => Some f
    | _, _ => None
    end.

(** The connection is lost right after the commit. *)
Definition env_sin_lectura : Env :=
  mkEnv 20000 1728000000 1
        (fault_only SelectNombreUsuario
                    (SQLAlchemyError OperationalError "server closed the connection")).

(** The database is unreachable when the header is flushed. *)
Definition env_sin_conexion : Env :=
  mkEnv 20000 1728000000 1
        (fault_only Flush
                    (SQLAlchemyError OperationalError "could not connect to server")).

(** The flush of the header violates a constraint. *)
Definition env_conflicto : Env :=
  mkEnv 20000 1728000000 1
        (fault_only Flush
                    (SQLAlchemyError IntegrityError "could not connect to server")).

(** The body of the admin's scenario, before validation. *)
Definition cuerpo7 : list MovementLineCreate.body :=
  [MovementLineCreate.mkBody 1 100 Null Omitted 5;
   MovementLineCreate.mkBody 1 200 (Given "L1") Null 3].

(** Two observers; the first one has gone away. *)
Definition observadores : list WebSocket.t :=
  [WebSocket.mk 1 false []; WebSocket.mk 2 true []].

(** The store once the admin's scenario is recorded: movement 1 of user 7. *)
Definition db1 : Db :=
  store_with db0 (nuevo_movimiento env0 salida7) (nuevas_lineas env0 salida7).

(** [ILIKE] with a pattern ["%...%"] that contains no other wildcard:
    every row passes when the pattern is ["%%"]. *)
Definition ilike_any (value pattern : string) : bool := String.eqb pattern "%%".

Definition todos : MovementsQuery := mkMovementsQuery 10 0 None None None None None.

(** Emptying warehouse 3, which holds one stock row of quantity 0. *)
Definition inactivar : WarehouseUpdate := mkWarehouseUpdate None (Some false).
End Demo.

(** ** Other handlers of the routers *)

(** The places where the handlers below talk to the database. *)
Inductive consulta :=
  | QContarPorTipo
  | QUltimoAno
  | QCaducaYa
  | QCaducaProximamente
  | QNoCaduca
  | QStockAlmacen
  | QContarStockAlmacen.

(** [db.exec(select ...)] at a place that fails with [flt], if any. *)
Definition db_exec_or {A} (flt : option fault) (query : Db -> A) : M A :=
  match flt with
  | Some f => raise (Raised f)
  | None => w <- get_world ;; ret (query (working w))
  end.

(** [GROUP BY key] with [count()]: one row per distinct key (SQL leaves the
    order of the groups open). *)
Definition group_by_count (keys : list string) : list (string * Z) :=
  map (fun k => (k, Z.of_nat (count_occ string_dec keys k)))
      (nodup string_dec keys).

(** [MovementLastyearGraph] *)
Record MovementLastyearGraph := mkMovementLastyearGraph
  { g_id_mov : Z; g_id_usuario : Z; g_fecha : datetime; g_tipo : string }.

(** The answer of [get_stock_status_semaforo]. *)
Record Semaforo := mkSemaforo
  { caduca_ya : Z; caduca_proximamente : Z; no_caduca : Z }.

(** [StockResponse] *)
Record StockResponse := mkStockResponse
  { r_codigo_almacen : Z; r_nombre_almacen : string; r_codigo_producto : Z;
    r_nombre_producto : string; r_sku : string; r_lote : string;
    r_fecha_cad : option date; r_cantidad : Z }.

(** The validation made when a [StockResponse] is built: the [sku] field
    and [cantidad: int = Field(..., ge=0)]. *)
Definition stock_response_valido (r : StockResponse) : bool :=
  sku_valido (r_sku r) && (0 <=? r_cantidad r).

Section OtrasLecturas.

Variable env : Env.
Variable fallo : consulta -> option fault.

(** [datetime.combine(d, time.max)] *)
Variable fin_del_dia : date -> datetime.

(** [t - relativedelta(years=1)] *)
Variable menos_un_ano : datetime -> datetime.

(** [d + relativedelta(months=n)] *)
Variable mas_meses : date -> Z -> date.

(** The order of the database on the [lote] column. *)
Variable lote_le : string -> string -> bool.

(** [if not is_admin_user(current_user):
      statement = statement.where(Movement.id_usuario == current_user.id)] *)
Definition visible (current_user : User.t) (m : Movement.t) : bool :=
  if negb (is_admin_user current_user)
  then Movement.id_usuario m =? User.id current_user
  else true.

(** [select(Movement.tipo, func.count()).join(User, ...)], the owner filter,
    [.group_by(Movement.tipo)] *)
Definition tipos_visibles (current_user : User.t) (d : Db) : list string :=
  map (fun r => Movement.tipo (fst r))
      (filter (fun r => visible current_user (fst r)) (movements_join_users d)).

(** [if tipo in conteo: conteo[tipo] = cantidad] on the dictionary
    [{"entrada": ..., "salida": ...}], kept as a pair. *)
Definition conteo_set (conteo : Z * Z) (r : string * Z) : Z * Z :=
  if String.eqb (fst r) "entrada" then (snd r, snd conteo)
  else if String.eqb (fst r) "salida" then (fst conteo, snd r)
  else conteo.

Definition contar_movimientos_por_tipo (current_user : User.t)
  : M (list (string * Z)) :=
  try_except
    (resultados <-
       db_exec_or (fallo QContarPorTipo)
         (fun d => group_by_count (tipos_visibles current_user d)) ;;
     let conteo := fold_left conteo_set resultados (0, 0) in
     ret [("Entrada", fst conteo); ("Salida", snd conteo)])
    (except_sqlalchemy ErrorDeConexion).

Definition get_movements_last_year (current_user : User.t)
  : M (list MovementLastyearGraph) :=
  let fecha_hasta := fin_del_dia (today env) in
  let fecha_desde := menos_un_ano fecha_hasta in
  results <-
    try_except
      (db_exec_or (fallo QUltimoAno)
         (fun d =>
            order_by (fun a b => Movement.fecha b <=? Movement.fecha a)
              (filter (fun m => (fecha_desde <=? Movement.fecha m)
                                && (Movement.fecha m <=? fecha_hasta)
                                && visible current_user m)
                      (movimientos d))))
      (except_sqlalchemy ErrorDeConexion) ;;
  ret (map (fun row => mkMovementLastyearGraph (Movement.id_mov row)
                         (Movement.id_usuario row) (Movement.fecha row)
                         (Movement.tipo row))
           results).

(** [select(func.sum(Stock.cantidad)).where(...)], [.first() or 0] *)
Definition suma_stock (donde : Stock.t -> bool) (d : Db) : Z :=
  fold_right Z.add 0 (map Stock.cantidad (filter donde (stock d))).

Definition get_stock_status_semaforo : M Semaforo :=
  try_except
    (let hoy := today env in
     let en_1_mes := mas_meses hoy 1 in
     let en_6_meses := mas_meses hoy 6 in
     ya <-
       db_exec_or (fallo QCaducaYa)
         (suma_stock (fun s => match Stock.fecha_cad s with
                               | Some f => (hoy <? f) && (f <=? en_1_mes)
                               | None => false
                               end)) ;;
     proximamente <-
       db_exec_or (fallo QCaducaProximamente)
         (suma_stock (fun s => match Stock.fecha_cad s with
                               | Some f => (en_1_mes <? f) && (f <=? en_6_meses)
                               | None => false
                               end)) ;;
     no <-
       db_exec_or (fallo QNoCaduca)
         (suma_stock (fun s => match Stock.fecha_cad s with
                               | Some f => en_6_meses <? f
                               | None => true
                               end)) ;;
     ret (mkSemaforo ya proximamente no))
    (except_sqlalchemy ErrorDeConexion).

(** The joins of the stock listings: [Stock] with its [Warehouse] and its
    [Product]. *)
Definition stock_join (d : Db) : list StockResponse :=
  flat_map (fun s =>
    flat_map (fun a =>
      map (fun p =>
             mkStockResponse (Stock.codigo_almacen s) (Warehouse.descripcion a)
               (Stock.codigo_producto s) (Product.nombre_corto p)
               (Product.sku p) (Stock.lote s) (Stock.fecha_cad s)
               (Stock.cantidad s))
          (filter (fun p => Product.codigo p =? Stock.codigo_producto s)
                  (producto d)))
      (filter (fun a => Warehouse.codigo a =? Stock.codigo_almacen s)
              (almacen d)))
    (stock d).

(** [.order_by(Stock.codigo_almacen, Stock.codigo_producto, Stock.lote)] *)
Definition stock_orden (a b : StockResponse) : bool :=
  (r_codigo_almacen a <? r_codigo_almacen b)
  || ((r_codigo_almacen a =? r_codigo_almacen b)
      && ((r_codigo_producto a <? r_codigo_producto b)
          || ((r_codigo_producto a =? r_codigo_producto b)
              && lote_le (r_lote a) (r_lote b)))).

(** The statement of [get_stock_by_warehouse]; [.limit(limit).offset(offset)]
    is part of it. *)
Definition stock_almacen_statement (codigo_almacen limit offset : Z) (d : Db)
  : list StockResponse :=
  limit_offset limit offset
    (order_by stock_orden
       (filter (fun r => r_codigo_almacen r =? codigo_almacen) (stock_join d))).

Definition get_stock_by_warehouse (codigo_almacen limit offset : Z)
  : M (Paginated StockResponse) :=
  st <- try_except
          (stock <-
             db_exec_or (fallo QStockAlmacen)
               (stock_almacen_statement codigo_almacen limit offset) ;;
           total_records <-
             db_exec_or (fallo QContarStockAlmacen)
               (fun d => Z.of_nat (List.length
                                     (stock_almacen_statement codigo_almacen
                                        limit offset d))) ;;
           ret (stock, total_records))
          (except_sqlalchemy ErrorDeConexion) ;;
  (if forallb stock_response_valido (fst st) then ret tt
   else raise (Raised (OtherError "ValidationError"))) ;;
  ret (mkPaginated (fst st) (snd st) limit offset).

End OtrasLecturas.

(** ** Handlers whose messages are kept as text *)

(** How such a handler ends: with its answer, with an [HTTPException] of a
    status code and a message, or with an exception nobody catches. *)
Inductive Outcome (A : Type) :=
  | Answer (a : A)
  | HTTPError (status_code : Z) (detail : string)
  | Uncaught (f : fault).
Arguments Answer {A} a.
Arguments HTTPError {A} status_code detail.
Arguments Uncaught {A} f.

Definition Handler (A : Type) : Type := World -> Outcome A * World.

Definition answer {A} (a : A) : Handler A := fun w => (Answer a, w).

Definition http_error {A} (status_code : Z) (detail : string) : Handler A :=
  fun w => (HTTPError status_code detail, w).

Definition and_then {A B} (c : Handler A) (k : A -> Handler B) : Handler B :=
  fun w =>
    match c w with
    | (Answer a, w') => k a w'
    | (HTTPError s d, w') => (HTTPError s d, w')
    | (Uncaught f, w') => (Uncaught f, w')
    end.

(** [try: x = db.exec(...) except SQLAlchemyError: raise
    HTTPException(status_code, detail)] at a place that fails with [flt],
    if any. *)
Definition query_or {A} (flt : option fault) (status_code : Z) (detail : string)
                    (query : Db -> A) : Handler A :=
  fun w =>
    match flt with
    | None => (Answer (query (working w)), w)
    | Some (SQLAlchemyError _ _) => (HTTPError status_code detail, w)
    | Some (OtherError msg) => (Uncaught (OtherError msg), w)
    end.

Definition error_de_conexion : string := "Error de conexión con la base de datos".

(** The places where these handlers talk to the database. *)
Inductive consulta_texto :=
  | TGetWarehouse
  | TSelectMovementLine
  | TCommit
  | TSelectMovement
  | TSelectLineas
  | TCountLineas
  | TSelectWarehouses
  | TCountWarehouses.

(** A line of a movement with the names of its product and warehouse. *)
Record MovementLineWithNames := mkMovementLineWithNames
  { n_id_linea : Z; n_id_mov : Z; n_codigo_almacen : Z; n_codigo_producto : Z;
    nombre_producto : string; nombre_almacen : string; n_lote : string;
    n_fecha_cad : option date; n_cantidad : Z }.

Section Texto.

Variable fallo : consulta_texto -> option fault.

(** The order of the database on the [descripcion] column, [ILIKE], the
    database's [lower()] and Python's [str.lower]. *)
Variable descripcion_le : string -> string -> bool.
Variable ilike : string -> string -> bool.
Variable sql_lower : string -> string.
Variable str_lower : string -> string.

(** [app/routers/warehouses.py]: [get_warehouse] *)
Definition get_warehouse (codigo : Z) (current_user : User.t) : Handler Warehouse.t :=
  and_then
    (query_or (fallo TGetWarehouse) HTTP_500_INTERNAL_SERVER_ERROR error_de_conexion
              (get_warehouse_row codigo))
    (fun warehouse =>
       match warehouse with
       | None => http_error HTTP_404_NOT_FOUND "Almacén no encontrado."
       | Some warehouse =>
           if negb (is_admin_user current_user) && negb (Warehouse.activo warehouse)
           then http_error 403 "Este almacén está inactivo."
           else answer warehouse
       end).

(** [select(MovementLine).where(MovementLine.codigo_almacen == codigo)],
    [.first()] *)
Definition select_movement_line (codigo : Z) (d : Db) : option MovementLine.t :=
  find (fun l => MovementLine.codigo_almacen l =? codigo) (movimientos_lineas d).

Definition delete_warehouse (d : Db) (codigo : Z) : Db :=
  mkDb (usuario d)
       (filter (fun a => negb (Warehouse.codigo a =? codigo)) (almacen d))
       (producto d) (stock d) (movimientos d) (movimientos_lineas d).

(** [db.delete(warehouse); db.commit()]: the row is deleted when the commit
    flushes; the foreign keys of [stock] and [movimientos_lineas] on
    [almacen.codigo] are checked then, and nothing catches the exception of
    the commit. *)
Definition delete_commit (codigo : Z) : Handler unit :=
  fun w =>
    match fallo TCommit with
    | Some f => (Uncaught f, w)
    | None =>
        if existsb (fun s => Stock.codigo_almacen s =? codigo) (stock (working w))
           || existsb (fun l => MovementLine.codigo_almacen l =? codigo)
                      (movimientos_lineas (working w))
        then (Uncaught (SQLAlchemyError IntegrityError
                          "update or delete violates foreign key constraint"), w)
        else
          let d := delete_warehouse (working w) codigo in
          (Answer tt,
           mkWorld d d (session_new w) (active_connections w)
                   (broadcast_calls w) (stdout w))
    end.

(** [app/routers/warehouses.py]: [deactivate_warehouse] *)
Definition deactivate_warehouse (codigo : Z) : Handler Warehouse.t :=
  and_then
    (query_or (fallo TGetWarehouse) HTTP_500_INTERNAL_SERVER_ERROR error_de_conexion
              (get_warehouse_row codigo))
    (fun warehouse =>
       match warehouse with
       | None => http_error HTTP_404_NOT_FOUND "Almacén no encontrado"
       | Some warehouse =>
           and_then
             (query_or (fallo TSelectMovementLine) HTTP_500_INTERNAL_SERVER_ERROR
                       error_de_conexion (select_movement_line codigo))
             (fun movement_exists =>
                match movement_exists with
                | Some _ =>
                    http_error HTTP_400_BAD_REQUEST
                      "No se puede eliminar este almacén ya que tiene movimientos registrados."
                | None =>
                    and_then (delete_commit codigo) (fun _ => answer warehouse)
                end)
       end).

(** The statement of [get_warehouses]: the [search] and [estado] filters. *)
Definition warehouses_statement (search : option string) (estado : option bool)
                                (d : Db) : list Warehouse.t :=
  filter (fun a =>
            (if Py.truthy_str search
             then ilike (sql_lower (Warehouse.descripcion a))
                        ("%" ++ str_lower (Py.or_str search "") ++ "%")%string
             else true)
            && (match estado with
                | Some e => Bool.eqb (Warehouse.activo a) e
                | None => true
                end))
         (almacen d).

(** [app/routers/warehouses.py]: [get_warehouses]; both queries are under
    one [except SQLAlchemyError]. *)
Definition get_warehouses (limit offset : Z) (search : option string)
                          (estado : option bool) : Handler (Paginated Warehouse.t) :=
  and_then
    (query_or (fallo TSelectWarehouses) HTTP_500_INTERNAL_SERVER_ERROR error_de_conexion
       (fun d => limit_offset limit offset
                   (order_by (fun a b => descripcion_le (Warehouse.descripcion a)
                                                        (Warehouse.descripcion b))
                             (warehouses_statement search estado d))))
    (fun warehouses =>
       and_then
         (query_or (fallo TCountWarehouses) HTTP_500_INTERNAL_SERVER_ERROR
            error_de_conexion
            (fun d => Z.of_nat (List.length (warehouses_statement search estado d))))
         (fun total_records =>
            answer (mkPaginated warehouses total_records limit offset))).

(** The statement of [get_movement_lines]: the lines of the movement joined
    with their product and their warehouse, by [id_linea]. *)
Definition lineas_statement (id_mov : Z) (d : Db) : list MovementLineWithNames :=
  order_by (fun a b => n_id_linea a <=? n_id_linea b)
    (flat_map (fun l =>
       flat_map (fun p =>
         map (fun a =>
                mkMovementLineWithNames (MovementLine.id_linea l)
                  (MovementLine.id_mov l) (MovementLine.codigo_almacen l)
                  (MovementLine.codigo_producto l) (Product.nombre_corto p)
                  (Warehouse.descripcion a) (MovementLine.lote l)
                  (MovementLine.fecha_cad l) (MovementLine.cantidad l))
             (filter (fun a => Warehouse.codigo a =? MovementLine.codigo_almacen l)
                     (almacen d)))
         (filter (fun p => Product.codigo p =? MovementLine.codigo_producto l)
                 (producto d)))
       (filter (fun l => MovementLine.id_mov l =? id_mov) (movimientos_lineas d))).

(** [app/routers/movements.py]: [get_movement_lines] *)
Definition get_movement_lines (id_mov limit offset : Z) (current_user : User.t)
  : Handler (Paginated MovementLineWithNames) :=
  and_then
    (query_or (fallo TSelectMovement) HTTP_500_INTERNAL_SERVER_ERROR error_de_conexion
              (select_movement id_mov))
    (fun movement =>
       match movement with
       | None => http_error HTTP_404_NOT_FOUND "Movimiento no encontrado"
       | Some movement =>
           if negb (is_admin_user current_user)
              && negb (Movement.id_usuario movement =? User.id current_user)
           then http_error HTTP_403_FORBIDDEN
                           "No tienes permisos para ver este movimiento"
           else
             and_then
               (query_or (fallo TSelectLineas) HTTP_500_INTERNAL_SERVER_ERROR
                  "Error al cargar las líneas del movimiento"
                  (fun d => limit_offset limit offset (lineas_statement id_mov d)))
               (fun results =>
                  and_then
                    (query_or (fallo TCountLineas) HTTP_500_INTERNAL_SERVER_ERROR
                       "Error al cargar las líneas del movimiento"
                       (fun d => Z.of_nat (List.length (lineas_statement id_mov d))))
                    (fun total_records =>
                       answer (mkPaginated results total_records limit offset)))
       end).

End Texto.

(** *** Vocabulary of the properties below *)

(** The lines of every recorded movement are numbered 1, 2, ... in the
    order of the table. *)
Definition lineas_numeradas (d : Db) : Prop :=
  forall m, In m (movimientos d) ->
    map MovementLine.id_linea (select_lineas (Movement.id_mov m) d)
    = map Z.of_nat
          (seq 1 (List.length (select_lineas (Movement.id_mov m) d))).

(** Some active warehouse, or product, of the store has this code. *)
Definition almacen_activo (d : Db) (codigo : Z) : Prop :=
  exists a, In a (almacen d) /\ Warehouse.codigo a = codigo
            /\ Warehouse.activo a = true.

Definition producto_activo (d : Db) (codigo : Z) : Prop :=
  exists p, In p (producto d) /\ Product.codigo p = codigo
            /\ Product.activo p = true.

(** The sum of the quantities of the stock rows that pass a test. *)
Definition unidades (donde : Stock.t -> bool) (d : Db) : Z :=
  fold_right Z.add 0 (map Stock.cantidad (filter donde (stock d))).

(** Every movement has its user, and only one (the foreign key of
    [movimientos.id_usuario] and the primary key of [usuario]). *)
Definition cada_movimiento_un_usuario (d : Db) : bool :=
  forallb (fun m =>
             Nat.eqb (List.length
                        (filter (fun u => Movement.id_usuario m =? User.id u)
                                (usuario d)))
                     1)
          (movimientos d).

(** The number of movements of a type that a user may see. *)
Definition movimientos_visibles (current_user : User.t) (tipo : string) (d : Db)
  : Z :=
  Z.of_nat (List.length
              (filter (fun m => visible current_user m
                                && String.eqb (Movement.tipo m) tipo)
                      (movimientos d))).

(** The stock row is not past its date on that day: undated, or dated
    after it. *)
Definition no_caducado (hoy : date) (s : Stock.t) : bool :=
  match Stock.fecha_cad s with
  | Some f => hoy <? f
  | None => true
  end.

(** *** More inputs to run the handlers on *)

Module Ejemplos.

Definition sin_fallos : consulta -> option fault := fun _ => None.

(** Stock of three lots: one expired, one due within the month, one undated. *)
Definition db_lotes : Db :=
  mkDb [Demo.ana]
       [Warehouse.mk 1 "Central" true]
       [Product.mk 100 "A100" "Tornillo" None 1 true]
       [Stock.mk 1 100 "L1" (Some 19990) 4;
        Stock.mk 1 100 "L2" (Some 20010) 6;
        Stock.mk 1 100 "SIN_LOTE" None 9]
       [] [].

(** Thirty days a month, for the runs. *)
Definition mas_meses (d : date) (n : Z) : date := d + 30 * n.

Definition fin_del_dia (d : date) : datetime := d * 86400 + 86399.

Definition menos_un_ano (t : datetime) : datetime := t - 365 * 86400.

Definition lote_le (a b : string) : bool := String.leb a b.

(** A lot of fifty characters of two bytes each, and a submission of one
    line with that lot. *)
Definition lote_50 : string := String.concat EmptyString (repeat "ñ" 50).

Definition cuerpo_lote_50 : list MovementLineCreate.body :=
  [MovementLineCreate.mkBody 1 100 (Given lote_50) Omitted 2].

Definition salida_lote_50 : MovementCreate.t :=
  MovementCreate.mk salida 7 [Demo.linea 1 100 (Some lote_50) None 2].

(** An inbound submission of two lines that expire on or before the day of
    [Demo.env0], after one that does not expire. *)
Definition entrada_dos_vencidas : MovementCreate.t :=
  MovementCreate.mk entrada 7
    [Demo.linea 1 100 None None 1;
     Demo.linea 1 100 (Some "L1") (Some 19990) 4;
     Demo.linea 1 200 (Some "L2") (Some 20000) 6].

(** Warehouse 3 with units in it. *)
Definition db_con_unidades : Db :=
  mkDb [Demo.luis]
       [Warehouse.mk 1 "Central" true; Warehouse.mk 3 "Sur" true]
       [Product.mk 100 "A100" "Tornillo" None 1 true]
       [Stock.mk 3 100 "SIN_LOTE" None 12]
       [] [].

End Ejemplos.

(** * Properties *)

(** ** Running a handler step by step *)

Lemma bind_Return {A B} (c : M A) (k : A -> M B) w a w1 :
  c w = (Return a, w1) -> bind c k w = k a w1.
Proof. intros H. unfold bind. rewrite H. reflexivity. Qed.

Lemma bind_Raise {A B} (c : M A) (k : A -> M B) w e w1 :
  c w = (Raise e, w1) -> bind c k w = (Raise e, w1).
Proof. intros H. unfold bind. rewrite H. reflexivity. Qed.

Lemma try_Return {A} (c : M A) (h : exn -> M A) w a w1 :
  c w = (Return a, w1) -> try_except c h w = (Return a, w1).
Proof. intros H. unfold try_except. rewrite H. reflexivity. Qed.

Lemma try_Raise {A} (c : M A) (h : exn -> M A) w e w1 :
  c w = (Raise e, w1) -> try_except c h w = h e w1.
Proof. intros H. unfold try_except. rewrite H. reflexivity. Qed.

Lemma db_call_point_ok env c w :
  fault_at env c = None -> db_call_point env c w = (Return tt, w).
Proof. intros H. unfold db_call_point. rewrite H. reflexivity. Qed.

Lemma db_call_point_fault env c f w :
  fault_at env c = Some f -> db_call_point env c w = (Raise (Raised f), w).
Proof. intros H. unfold db_call_point. rewrite H. reflexivity. Qed.

Lemma db_exec_ok {A} env c (q : Db -> A) w :
  fault_at env c = None -> db_exec env c q w = (Return (q (working w)), w).
Proof.
  intros H. unfold db_exec.
  rewrite (bind_Return _ _ _ (db_call_point_ok env c w H)). reflexivity.
Qed.

Lemma db_exec_fault {A} env c (q : Db -> A) f w :
  fault_at env c = Some f -> db_exec env c q w = (Raise (Raised f), w).
Proof.
  intros H. unfold db_exec.
  rewrite (bind_Raise _ _ _ (db_call_point_fault env c w H)). reflexivity.
Qed.

(** A loop whose body only tests and raises stops at the first element that
    passes the test, and leaves the state alone. *)
Lemma for_each_raise_if {A} (p : A -> bool) (e : A -> exn) l w :
  for_each l (fun x => if p x then raise (e x) else ret tt) w
  = match find p l with
    | Some x => (Raise (e x), w)
    | None => (Return tt, w)
    end.
Proof.
  induction l as [|x l IH]; simpl; [reflexivity|].
  unfold bind. destruct (p x); simpl; [reflexivity|]. apply IH.
Qed.

Lemma set_session_new_twice w a b :
  set_session_new (set_session_new w a) b = set_session_new w b.
Proof. reflexivity. Qed.

(** The loop that adds the lines never fails: it queues them in order. *)
Lemma for_each_add_line {A} (f : A -> MovementLine.t) l w :
  for_each l (fun x => db_add_line (f x)) w
  = (Return tt, set_session_new w (session_new w ++ map f l)).
Proof.
  revert w. induction l as [|x l IH]; intros w; simpl.
  - rewrite app_nil_r. destruct w; reflexivity.
  - unfold bind at 1. unfold db_add_line at 1. unfold bind, get_world, put_world.
    rewrite IH. simpl. rewrite <- app_assoc. reflexivity.
Qed.

Lemma flush_lines_tables d ls d' :
  flush_lines d ls = Some d' ->
  usuario d' = usuario d /\ almacen d' = almacen d /\ producto d' = producto d
  /\ stock d' = stock d /\ movimientos d' = movimientos d
  /\ movimientos_lineas d' = movimientos_lineas d ++ ls.
Proof.
  revert d. induction ls as [|l ls IH]; intros d H; simpl in H.
  - injection H as <-. rewrite app_nil_r. repeat split.
  - destruct (line_insertable d l); [|discriminate].
    apply IH in H. simpl in H. rewrite <- app_assoc in H. exact H.
Qed.

(** ** The checks of [create_movement] *)

(** [validar] raises what [veredicto] says and never touches the state. *)
Lemma validar_eq env md u w :
  validar env md u w
  = (match veredicto env md u with
     | Some e => Raise e
     | None => Return tt
     end, w).
Proof.
  unfold validar, veredicto, autorizado. rewrite negb_orb.
  destruct (negb (is_admin_user u) && negb (MovementCreate.id_usuario md =? User.id u));
    [reflexivity|].
  unfold bind at 1. unfold ret at 1.
  destruct (is_empty (MovementCreate.lineas md)); [reflexivity|].
  unfold bind at 1. unfold ret at 1.
  unfold bind at 1.
  rewrite (for_each_raise_if
             (vencida env (MovementCreate.tipo md))
             (fun linea =>
                HTTPException HTTP_400_BAD_REQUEST
                  (FechaCaducidadVencida
                     (MovementLineCreate.codigo_producto linea)
                     (MovementLineCreate.lote linea)
                     (match MovementLineCreate.fecha_cad linea with
                      | Some d => d
                      | None => 0
                      end)))).
  destruct (find _ _); [reflexivity|].
  destruct (100 <? _); reflexivity.
Qed.

(** ** The transaction of [create_movement] *)

(** What the [try] body does on a fresh session: either it raises before
    anything is published, or it publishes the header and all the lines at
    once. *)
Lemma registrar_cases env md db conns bc out :
  let w := mkWorld db db [] conns bc out in
  (exists e w',
      registrar env md w = (Raise e, w')
      /\ committed w' = db /\ active_connections w' = conns
      /\ broadcast_calls w' = bc /\ stdout w' = out
      /\ error_en_try e)
  \/ (registrar env md w
      = (Return (nuevo_movimiento env md),
         let d := store_with db (nuevo_movimiento env md) (nuevas_lineas env md) in
         mkWorld d d [] conns bc out)
      /\ existsb (fun x => Movement.id_mov x =? generated_id env) (movimientos db) = false).
Proof.
  intros w. subst w. unfold registrar.
  unfold db_add_flush_movement, db_exec, db_commit, db_call_point.
  unfold bind, get_world, put_world, ret, raise.
  destruct (fault_at env Flush) as [f|] eqn:HF.
  { left. do 2 eexists. split; [reflexivity|]. simpl. repeat split; constructor. }
  simpl.
  destruct (existsb _ (movimientos db)) eqn:Hid.
  { left. do 2 eexists. split; [reflexivity|]. simpl. repeat split; constructor. }
  destruct (existsb _ (usuario db)) eqn:Hus; simpl.
  2:{ left. do 2 eexists. split; [reflexivity|]. simpl. repeat split; constructor. }
  destruct (fault_at env SelectAlmacenesActivos) as [f|] eqn:HA; simpl.
  { left. do 2 eexists. split; [reflexivity|]. simpl. repeat split; constructor. }
  destruct (Py.set_diff _ (select_almacenes_activos _ _)) eqn:HdA; simpl.
  2:{ left. do 2 eexists. split; [reflexivity|]. simpl. repeat split; constructor. }
  destruct (fault_at env SelectProductosActivos) as [f|] eqn:HP; simpl.
  { left. do 2 eexists. split; [reflexivity|]. simpl. repeat split; constructor. }
  destruct (Py.set_diff _ (select_productos_activos _ _)) eqn:HdP; simpl.
  2:{ left. do 2 eexists. split; [reflexivity|]. simpl. repeat split; constructor. }
  rewrite for_each_add_line. simpl.
  destruct (fault_at env Commit) as [f|] eqn:HC; simpl.
  { left. do 2 eexists. split; [reflexivity|]. simpl. repeat split; constructor. }
  fold (nuevo_movimiento env md).
  change (map (fun x => new_line (generated_id env) (fst x) (snd x))
              (Py.enumerate (MovementCreate.lineas md) 1))
    with (nuevas_lineas env md).
  destruct (flush_lines _ (nuevas_lineas env md)) as [d|] eqn:Hfl.
  2:{ left. do 2 eexists. split; [reflexivity|]. simpl. repeat split; constructor. }
  right. apply flush_lines_tables in Hfl. simpl in Hfl.
  destruct Hfl as (H1 & H2 & H3 & H4 & H5 & H6).
  assert (d = store_with db (nuevo_movimiento env md) (nuevas_lineas env md)) as ->.
  { destruct d; simpl in *. unfold store_with. congruence. }
  repeat split; auto.
Qed.

(** The notification never makes the request fail: whatever [broadcast]
    does, the [try] around it returns. *)
Lemma emitir_returns msg w :
  exists w',
    try_except (ConnectionManager.broadcast msg)
               (fun e => print "Error al emitir WebSocket:" (str_of_exn e)) w
    = (Return tt, w')
    /\ committed w' = committed w
    /\ broadcast_calls w' = broadcast_calls w ++ [msg].
Proof.
  unfold try_except, ConnectionManager.broadcast.
  destruct (ConnectionManager.send_all (active_connections w) msg) as [conns [f|]];
    simpl; eexists; repeat split; reflexivity.
Qed.

(** *** The outcome of a request on a fresh session *)
Lemma create_movement_resultado env db conns md u :
  resultado env db md u (create_movement env md u (open_session db conns)).
Proof.
  unfold create_movement, open_session.
  unfold bind at 1. rewrite validar_eq.
  destruct (veredicto env md u) as [e|] eqn:Hv; [constructor; auto|].
  unfold bind at 1.
  destruct (registrar_cases env md db conns [] [])
    as [(e & w' & Hr & Hc & _ & Hb & _ & He) | (Hr & Hid)].
  - rewrite (try_Raise _ _ _ Hr).
    destruct He as [diff|diff|[cls orig|msg]]; simpl;
      unfold bind, db_rollback, get_world, put_world, raise; simpl;
      (apply Rechazado; simpl; [congruence | congruence | right; split; [exact Hv | constructor]]).
  - rewrite (try_Return _ _ _ Hr). cbv zeta.
    set (d := store_with db (nuevo_movimiento env md) (nuevas_lineas env md)).
    unfold bind at 1.
    destruct (fault_at env SelectNombreUsuario) as [f|] eqn:HU.
    { rewrite (try_Raise _ _ _ (db_exec_fault env _ _ _ HU)).
      destruct f as [cls orig|msg]; simpl;
        (apply RegistradoSinRespuesta; simpl;
         [reflexivity | reflexivity | exact Hv | constructor
         | left; rewrite HU; discriminate]). }
    rewrite (try_Return _ _ _ (db_exec_ok env _ _ _ HU)).
    unfold bind at 1. simpl Movement.id_mov.
    destruct (fault_at env (SelectLineas (generated_id env))) as [f|] eqn:HL.
    { rewrite (try_Raise _ _ _ (db_exec_fault env _ _ _ HL)).
      destruct f as [cls orig|msg]; simpl;
        (apply RegistradoSinRespuesta; simpl;
         [reflexivity | reflexivity | exact Hv | constructor
         | right; rewrite HL; discriminate]). }
    rewrite (try_Return _ _ _ (db_exec_ok env _ _ _ HL)).
    unfold bind at 1.
    match goal with
    | |- context [try_except (ConnectionManager.broadcast ?m) ?h ?w] =>
        destruct (emitir_returns m w) as (w2 & -> & Hc2 & Hb2)
    end.
    unfold ret. simpl in Hc2, Hb2.
    apply Registrado; auto.
Qed.

(** ** What the checks answer *)

Lemma autorizado_false md u :
  autorizado md u = false
  <-> is_admin_user u = false /\ MovementCreate.id_usuario md <> User.id u.
Proof.
  unfold autorizado. rewrite orb_false_iff, Z.eqb_neq. reflexivity.
Qed.

Lemma veredicto_no_autorizado env md u :
  autorizado md u = false ->
  veredicto env md u = Some (HTTPException HTTP_403_FORBIDDEN NoOtroUsuario).
Proof. intros H. unfold veredicto. rewrite H. reflexivity. Qed.

(** The verdict on an authorized submission, check by check. *)
Lemma veredicto_autorizado env md u :
  autorizado md u = true ->
  match veredicto env md u with
  | None =>
      1 <= Z.of_nat (List.length (MovementCreate.lineas md)) <= 100
      /\ find (vencida env (MovementCreate.tipo md)) (MovementCreate.lineas md) = None
  | Some e =>
      (MovementCreate.lineas md = []
       /\ e = HTTPException HTTP_400_BAD_REQUEST AlMenosUnaLinea)
      \/ (exists linea d,
             find (vencida env (MovementCreate.tipo md)) (MovementCreate.lineas md)
             = Some linea
             /\ MovementLineCreate.fecha_cad linea = Some d
             /\ d <= today env
             /\ MovementCreate.tipo md = entrada
             /\ e = HTTPException HTTP_400_BAD_REQUEST
                      (FechaCaducidadVencida
                         (MovementLineCreate.codigo_producto linea)
                         (MovementLineCreate.lote linea) d))
      \/ (100 < Z.of_nat (List.length (MovementCreate.lineas md))
          /\ find (vencida env (MovementCreate.tipo md)) (MovementCreate.lineas md) = None
          /\ e = HTTPException HTTP_400_BAD_REQUEST MaximoLineas)
  end.
Proof.
  intros H. unfold veredicto. rewrite H. simpl.
  destruct (MovementCreate.lineas md) as [|l0 ls] eqn:Hl; simpl is_empty; cbv iota.
  { left. auto. }
  destruct (find _ (l0 :: ls)) as [linea|] eqn:Hf.
  - right. left. apply find_some in Hf. destruct Hf as [_ Hv].
    unfold vencida in Hv.
    destruct (MovementLineCreate.fecha_cad linea) as [d|] eqn:Hd; [|discriminate].
    apply andb_true_iff in Hv. destruct Hv as [Hle Ht].
    exists linea, d. repeat split; auto.
    + apply Z.leb_le. exact Hle.
    + destruct (MovementCreate.tipo md); [reflexivity | discriminate].
  - destruct (100 <? _) eqn:Hmx.
    + right. right. apply Z.ltb_lt in Hmx. auto.
    + apply Z.ltb_ge in Hmx. simpl List.length in *. split; [lia | reflexivity].
Qed.

(** A submission the checks reject is answered with their exception,
    whatever the state. *)
Lemma create_movement_veredicto env md u w e :
  veredicto env md u = Some e ->
  create_movement env md u w = (Raise e, w).
Proof.
  intros H. unfold create_movement. unfold bind at 1.
  rewrite validar_eq, H. reflexivity.
Qed.

(** C8. A [create_movement] request is answered 403 Forbidden if and only if
    the requester is not an admin and the submitted [id_usuario] differs
    from the requester's own id; in particular an admin writing for another
    user is never answered 403. *)
Theorem create_movement_forbidden_iff env db conns md u :
  status_of (fst (create_movement env md u (open_session db conns)))
  = Some HTTP_403_FORBIDDEN
  <-> (is_admin_user u = false /\ MovementCreate.id_usuario md <> User.id u).
Proof.
  rewrite <- autorizado_false. split.
  - intros H. destruct (autorizado md u) eqn:Ha; [exfalso | reflexivity].
    pose proof (veredicto_autorizado env md u Ha) as Hv.
    pose proof (create_movement_resultado env db conns md u) as R.
    destruct (create_movement env md u (open_session db conns)) as [r w].
    simpl in H.
    inversion R as [e w' _ _ Hc | e w' _ _ _ He _ | w' _ _ _ _]; subst; simpl in H.
    + destruct Hc as [Hc | [_ Hc]].
      * rewrite Hc in Hv.
        destruct Hv as [[_ ->] | [(l & d & _ & _ & _ & _ & ->) | (_ & _ & ->)]];
          discriminate H.
      * destruct Hc; discriminate H.
    + destruct He; discriminate H.
    + discriminate H.
  - intros Ha.
    rewrite (create_movement_veredicto env md u _ (veredicto_no_autorizado env md u Ha)).
    reflexivity.
Qed.

(** The request of a plain user for another user, with no lines, is answered
    403 Forbidden and not 400: the authorization check comes first. *)
Lemma ajena_vacia_forbidden :
  MovementCreate.lineas Demo.ajena_vacia = []
  /\ fst (create_movement Demo.env0 Demo.ajena_vacia Demo.ana
            (open_session Demo.db0 []))
     = Raise (HTTPException HTTP_403_FORBIDDEN NoOtroUsuario).
Proof. split; reflexivity. Qed.

(** C7, as stated, fails: a submission with no lines is not always answered
    with the invalid-input error. *)
Lemma empty_lines_not_always_invalid_input :
  ~ (forall env db conns md u,
        MovementCreate.lineas md = [] ->
        status_of (fst (create_movement env md u (open_session db conns)))
        = Some HTTP_400_BAD_REQUEST).
Proof.
  intros H.
  specialize (H Demo.env0 Demo.db0 [] Demo.ajena_vacia Demo.ana eq_refl).
  discriminate H.
Qed.

(** C7, amended. For every submission that passes the authorization check:
    with no lines it is answered 400 "at least one line"; with 101 lines or
    more it is answered 400, by the bound on the number of lines or by the
    expiration check that runs before it; with exactly 100 lines it is
    answered by neither of the two checks on the number of lines. *)
Theorem create_movement_cardinality env db conns md u :
  autorizado md u = true ->
  let out := create_movement env md u (open_session db conns) in
  let n := Z.of_nat (List.length (MovementCreate.lineas md)) in
  (n = 0 -> fst out = Raise (HTTPException HTTP_400_BAD_REQUEST AlMenosUnaLinea))
  /\ (100 < n ->
      exists d, fst out = Raise (HTTPException HTTP_400_BAD_REQUEST d)
                /\ (d = MaximoLineas
                    \/ exists p l f, d = FechaCaducidadVencida p l f))
  /\ (n = 100 ->
      forall c, fst out <> Raise (HTTPException c AlMenosUnaLinea)
                /\ fst out <> Raise (HTTPException c MaximoLineas)).
Proof.
  intros Ha out n. subst out n.
  pose proof (veredicto_autorizado env md u Ha) as Hv.
  split; [|split].
  - intros Hn.
    destruct (veredicto env md u) as [e|] eqn:He.
    + rewrite (create_movement_veredicto env md u _ He). simpl.
      destruct Hv as [[_ ->] | [(l & d & Hf & _) | (Hgt & _)]]; [reflexivity | | lia].
      apply find_some in Hf. destruct Hf as [Hin _].
      destruct (MovementCreate.lineas md); [destruct Hin | discriminate Hn].
    + lia.
  - intros Hn.
    destruct (veredicto env md u) as [e|] eqn:He; [|lia].
    rewrite (create_movement_veredicto env md u _ He). simpl.
    destruct Hv as [[Hl _] | [(l & d & _ & _ & _ & _ & ->) | (_ & _ & ->)]].
    + rewrite Hl in Hn. simpl in Hn. lia.
    + eexists. split; [reflexivity|]. right. eauto.
    + eexists. split; [reflexivity|]. left. reflexivity.
  - intros Hn c.
    pose proof (create_movement_resultado env db conns md u) as R.
    destruct (create_movement env md u (open_session db conns)) as [r w].
    simpl.
    inversion R as [e w' _ _ Hc | e w' _ _ _ He _ | w' _ _ _ _]; subst.
    + destruct Hc as [Hc | [_ Hc]].
      * rewrite Hc in Hv.
        destruct Hv as [[Hl _] | [(l & d & _ & _ & _ & _ & ->) | (Hgt & _)]].
        -- rewrite Hl in Hn. discriminate Hn.
        -- split; discriminate.
        -- lia.
      * destruct Hc; split; discriminate.
    + destruct He; split; discriminate.
    + split; discriminate.
Qed.

(** The admin of the demo store submits no lines. *)
Lemma create_movement_cardinality_witness :
  fst (create_movement Demo.env0 Demo.ajena_vacia Demo.luis
         (open_session Demo.db0 []))
  = Raise (HTTPException HTTP_400_BAD_REQUEST AlMenosUnaLinea).
Proof.
  apply (create_movement_cardinality Demo.env0 Demo.db0 [] Demo.ajena_vacia
           Demo.luis eq_refl).
  reflexivity.
Defined.

(** C6, as stated, fails: an inbound submission with a lot that expires
    today, sent by a plain user for another user, is answered 403 and not
    with the invalid-input error. *)
Lemma expired_inbound_not_always_invalid_input :
  ~ (forall env db conns md u linea d,
        MovementCreate.tipo md = entrada ->
        In linea (MovementCreate.lineas md) ->
        MovementLineCreate.fecha_cad linea = Some d ->
        d <= today env ->
        status_of (fst (create_movement env md u (open_session db conns)))
        = Some HTTP_400_BAD_REQUEST).
Proof.
  intros H.
  specialize (H Demo.env0 Demo.db0 [] Demo.entrada_vencida Demo.ana
                (Demo.linea 1 100 (Some "L9") (Some 20000) 4) 20000
                eq_refl (or_introl eq_refl) eq_refl).
  assert (Hle : 20000 <= today Demo.env0) by (simpl; lia).
  specialize (H Hle). discriminate H.
Qed.

(** The element [find] answers with is the first one that passes the test. *)
Lemma find_first {A} (p : A -> bool) l x :
  find p l = Some x ->
  exists before after,
    l = before ++ x :: after
    /\ (forall y, In y before -> p y = false)
    /\ p x = true.
Proof.
  induction l as [|a l IH]; simpl; [discriminate|].
  destruct (p a) eqn:Ea.
  - intros E. injection E as <-. exists [], l.
    split; [reflexivity|]. split; [intros y []|exact Ea].
  - intros E. destruct (IH E) as (before & after & -> & Hb & Hx).
    exists (a :: before), after.
    split; [reflexivity|]. split; [|exact Hx].
    intros y [<- | Hy]; [exact Ea | apply Hb; exact Hy].
Qed.

(** A line of an inbound movement that the expiration loop lets pass has
    no date, or a date after today. *)
Lemma vencida_false env md linea d :
  MovementCreate.tipo md = entrada ->
  vencida env (MovementCreate.tipo md) linea = false ->
  MovementLineCreate.fecha_cad linea = Some d ->
  today env < d.
Proof.
  intros Ht Hv Hd. unfold vencida in Hv. rewrite Hd, Ht in Hv. simpl in Hv.
  rewrite andb_true_r in Hv. apply Z.leb_gt in Hv. exact Hv.
Qed.

(** C6, amended. For every submission that passes the authorization check:
    if it is inbound and some line has an expiration date on or before
    today, it is answered 400 with the product, the lot and the date of the
    first such line: every line submitted before the one named has no
    date, or a date after today.  And whoever submits, an answer of the
    expiration check means that the movement is inbound and names the
    first line dated on or before today, so that a line dated after today,
    or an outbound movement, is never what this check rejects. *)
Theorem create_movement_expiration env db conns md u :
  autorizado md u = true ->
  let out := create_movement env md u (open_session db conns) in
  (MovementCreate.tipo md = entrada ->
   (exists linea d, In linea (MovementCreate.lineas md)
                    /\ MovementLineCreate.fecha_cad linea = Some d
                    /\ d <= today env) ->
   exists before linea after d,
     MovementCreate.lineas md = before ++ linea :: after
     /\ (forall l d', In l before ->
                      MovementLineCreate.fecha_cad l = Some d' -> today env < d')
     /\ MovementLineCreate.fecha_cad linea = Some d
     /\ d <= today env
     /\ fst out
        = Raise (HTTPException HTTP_400_BAD_REQUEST
                   (FechaCaducidadVencida
                      (MovementLineCreate.codigo_producto linea)
                      (MovementLineCreate.lote linea) d)))
  /\ (forall c p l d,
         fst out = Raise (HTTPException c (FechaCaducidadVencida p l d)) ->
         MovementCreate.tipo md = entrada
         /\ exists before linea after,
              MovementCreate.lineas md = before ++ linea :: after
              /\ (forall l' d', In l' before ->
                                MovementLineCreate.fecha_cad l' = Some d' ->
                                today env < d')
              /\ MovementLineCreate.fecha_cad linea = Some d
              /\ d <= today env
              /\ MovementLineCreate.codigo_producto linea = p
              /\ MovementLineCreate.lote linea = l).
Proof.
  intros Ha out. subst out.
  pose proof (veredicto_autorizado env md u Ha) as Hv.
  split.
  - intros Ht (linea & d & Hin & Hd & Hle).
    assert (Hx : vencida env (MovementCreate.tipo md) linea = true).
    { unfold vencida. rewrite Hd, Ht. apply Z.leb_le in Hle. rewrite Hle. reflexivity. }
    destruct (veredicto env md u) as [e|] eqn:He.
    + rewrite (create_movement_veredicto env md u _ He). simpl.
      destruct Hv as [[Hl _] | [(l & d' & Hf & Hd' & Hle' & _ & ->) | (_ & Hn & _)]].
      * rewrite Hl in Hin. destruct Hin.
      * destruct (find_first _ _ Hf) as (before & after & Hs & Hb & _).
        exists before, l, after, d'.
        split; [exact Hs|]. split; [|auto].
        intros y dy Hy Hdy.
        apply (vencida_false env md y Ht (Hb y Hy) Hdy).
      * rewrite (find_none _ _ Hn _ Hin) in Hx. discriminate Hx.
    + destruct Hv as [_ Hn].
      rewrite (find_none _ _ Hn _ Hin) in Hx. discriminate Hx.
  - intros c p l d Hr.
    pose proof (create_movement_resultado env db conns md u) as R.
    destruct (create_movement env md u (open_session db conns)) as [r w].
    simpl in Hr. subst r.
    inversion R as [e w' _ _ Hc | e w' _ _ _ He _ | ]; subst.
    + destruct Hc as [Hc | [_ Hc]]; [|inversion Hc].
      rewrite Hc in Hv.
      destruct Hv as [[_ Hv] | [(l' & d' & Hf & Hd' & Hle' & Ht & Hv) | (_ & _ & Hv)]];
        try discriminate Hv.
      injection Hv as _ Hp Hl Hd. subst p l d.
      destruct (find_first _ _ Hf) as (before & after & Hs & Hb & _).
      split; [exact Ht|]. exists before, l', after.
      split; [exact Hs|]. split; [|auto].
      intros y dy Hy Hdy.
      apply (vencida_false env md y Ht (Hb y Hy) Hdy).
    + inversion He.
Qed.

(** The admin of the demo store submits a line without date and then two
    expired lots: the answer names the first of the two. *)
Lemma create_movement_expiration_witness :
  exists before linea after d,
    MovementCreate.lineas Ejemplos.entrada_dos_vencidas = before ++ linea :: after
    /\ (forall l d', In l before ->
                     MovementLineCreate.fecha_cad l = Some d' ->
                     today Demo.env0 < d')
    /\ MovementLineCreate.fecha_cad linea = Some d
    /\ d <= today Demo.env0
    /\ fst (create_movement Demo.env0 Ejemplos.entrada_dos_vencidas Demo.luis
              (open_session Demo.db0 []))
       = Raise (HTTPException HTTP_400_BAD_REQUEST
                  (FechaCaducidadVencida
                     (MovementLineCreate.codigo_producto linea)
                     (MovementLineCreate.lote linea) d)).
Proof.
  apply (create_movement_expiration Demo.env0 Demo.db0 []
           Ejemplos.entrada_dos_vencidas Demo.luis eq_refl).
  - reflexivity.
  - exists (Demo.linea 1 200 (Some "L2") (Some 20000) 6), 20000.
    split; [right; right; left; reflexivity|]. split; [reflexivity|]. simpl. lia.
Defined.

(** The answer to the two expired lots names product 100 and lot L1, the
    first of them, and not product 200. *)
Lemma expiration_names_first_line :
  fst (create_movement Demo.env0 Ejemplos.entrada_dos_vencidas Demo.luis
         (open_session Demo.db0 []))
  = Raise (HTTPException HTTP_400_BAD_REQUEST
             (FechaCaducidadVencida 100 (Some "L1") 19990)).
Proof. reflexivity. Qed.

(** ** Atomicity of [create_movement] *)

(** C1, as stated, fails: a request can end in an error and leave the
    movement in the store (the connection is lost after the commit). *)
Lemma failed_request_may_persist :
  ~ (forall env db conns md u e,
        fst (create_movement env md u (open_session db conns)) = Raise e ->
        store_after (create_movement env md u (open_session db conns)) = db).
Proof.
  intros H.
  specialize (H Demo.env_sin_lectura Demo.db0 [] Demo.salida7 Demo.luis _ eq_refl).
  apply (f_equal movimientos) in H. discriminate H.
Qed.

(** C1, amended. A [create_movement] request that ends in an error leaves
    the store as it was, whether the checks, the activity of the warehouses
    and products or a failure of the session up to and including the commit
    rejected it; the one exception is a failure of a query made after the
    commit, and then the store holds the whole movement, the header with all
    its lines. *)
Theorem create_movement_failure_atomic env db conns md u e :
  fst (create_movement env md u (open_session db conns)) = Raise e ->
  store_after (create_movement env md u (open_session db conns)) = db
  \/ (store_after (create_movement env md u (open_session db conns))
      = store_with db (nuevo_movimiento env md) (nuevas_lineas env md)
      /\ error_de_lectura e
      /\ (fault_at env SelectNombreUsuario <> None
          \/ fault_at env (SelectLineas (generated_id env)) <> None)).
Proof.
  intros Hr.
  pose proof (create_movement_resultado env db conns md u) as R.
  unfold store_after.
  destruct (create_movement env md u (open_session db conns)) as [r w].
  simpl in *. subst r.
  inversion R as [e' w' Hc _ _ | e' w' Hc _ _ He Hf | ]; subst; auto.
Qed.

(** The line on the inactive product 300 of the demo store. *)
Lemma create_movement_failure_atomic_witness :
  store_after (create_movement Demo.env0 Demo.salida_inactivo Demo.luis
                 (open_session Demo.db0 Demo.observadores))
  = Demo.db0
  \/ (store_after (create_movement Demo.env0 Demo.salida_inactivo Demo.luis
                     (open_session Demo.db0 Demo.observadores))
      = store_with Demo.db0 (nuevo_movimiento Demo.env0 Demo.salida_inactivo)
                   (nuevas_lineas Demo.env0 Demo.salida_inactivo)
      /\ error_de_lectura (HTTPException HTTP_400_BAD_REQUEST (ProductosNoExisten [300]))
      /\ (fault_at Demo.env0 SelectNombreUsuario <> None
          \/ fault_at Demo.env0 (SelectLineas (generated_id Demo.env0)) <> None)).
Proof.
  apply (create_movement_failure_atomic Demo.env0 Demo.db0 Demo.observadores
           Demo.salida_inactivo Demo.luis).
  reflexivity.
Defined.

(** When no query fails after the commit, an error means an untouched store. *)
Lemma create_movement_rejected_unchanged env db conns md u e :
  fault_at env SelectNombreUsuario = None ->
  fault_at env (SelectLineas (generated_id env)) = None ->
  fst (create_movement env md u (open_session db conns)) = Raise e ->
  store_after (create_movement env md u (open_session db conns)) = db.
Proof.
  intros HU HL Hr.
  pose proof (create_movement_resultado env db conns md u) as R.
  unfold store_after.
  destruct (create_movement env md u (open_session db conns)) as [r w].
  simpl in *. subst r.
  inversion R as [e' w' Hc _ _ | e' w' Hc _ _ He Hf | ]; subst; auto.
  destruct Hf as [Hf | Hf]; contradiction.
Qed.

(** ** The error of a persistence failure *)

(** Any [SQLAlchemyError] at the flush of the header, whatever its class, is
    answered 400 with the integrity message. *)
Lemma create_movement_flush_error env md u cls orig w :
  veredicto env md u = None ->
  fault_at env Flush = Some (SQLAlchemyError cls orig) ->
  fst (create_movement env md u w)
  = Raise (HTTPException HTTP_400_BAD_REQUEST (ErrorDeIntegridad (Py.first_line orig))).
Proof.
  intros Hv Hf. unfold create_movement.
  unfold bind at 1. rewrite validar_eq, Hv.
  unfold bind at 1.
  assert (Hr : registrar env md w = (Raise (Raised (SQLAlchemyError cls orig)), w)).
  { unfold registrar, db_add_flush_movement.
    apply bind_Raise. apply bind_Raise. apply db_call_point_fault. exact Hf. }
  rewrite (try_Raise _ _ _ Hr). reflexivity.
Qed.

(** C3. With the database unreachable at the flush of the header (an
    [OperationalError]), [create_movement] answers 400 with the integrity
    message, the very answer it gives to a constraint violation (an
    [IntegrityError]); the 500 of the last [except] arm is not what a
    connectivity failure gets. *)
Theorem connectivity_failure_answered_400 :
  fst (create_movement Demo.env_sin_conexion Demo.salida7 Demo.luis
         (open_session Demo.db0 []))
  = Raise (HTTPException HTTP_400_BAD_REQUEST
             (ErrorDeIntegridad "could not connect to server"))
  /\ fst (create_movement Demo.env_conflicto Demo.salida7 Demo.luis
            (open_session Demo.db0 []))
     = fst (create_movement Demo.env_sin_conexion Demo.salida7 Demo.luis
              (open_session Demo.db0 [])).
Proof. split; reflexivity. Qed.

(** ** The notification *)

(** C9, as stated, fails: the transaction commits and no broadcast is
    made, because the query that follows the commit fails. *)
Lemma commit_without_broadcast :
  ~ (forall env db conns md u,
        In (nuevo_movimiento env md)
           (movimientos (store_after (create_movement env md u (open_session db conns)))) ->
        broadcast_calls (snd (create_movement env md u (open_session db conns)))
        = [mensaje (generated_id env) (tipo_str (MovementCreate.tipo md))]).
Proof.
  intros H.
  specialize (H Demo.env_sin_lectura Demo.db0 Demo.observadores Demo.salida7
                Demo.luis (or_introl eq_refl)).
  discriminate H.
Qed.

(** C9, amended. [create_movement] makes one broadcast, with the message
    that carries the new movement's id and type, exactly when it answers
    with success, that is when the transaction has committed and the two
    queries that follow the commit have succeeded; and whatever the
    broadcast does, observers gone away included, the answer is then the
    success response and the store holds the movement and its lines.  A
    request that ends in an error makes no broadcast. *)
Theorem create_movement_notification env db conns md u :
  let out := create_movement env md u (open_session db conns) in
  (exists resp,
      fst out = Return resp
      /\ broadcast_calls (snd out)
         = [mensaje (MovementResponse.id_mov resp) (MovementResponse.tipo resp)]
      /\ store_after out
         = store_with db (nuevo_movimiento env md) (nuevas_lineas env md))
  \/ (exists e,
         fst out = Raise e
         /\ broadcast_calls (snd out) = []
         /\ (store_after out = db
             \/ (store_after out
                 = store_with db (nuevo_movimiento env md) (nuevas_lineas env md)
                 /\ (fault_at env SelectNombreUsuario <> None
                     \/ fault_at env (SelectLineas (generated_id env)) <> None)))).
Proof.
  intros out. subst out.
  pose proof (create_movement_resultado env db conns md u) as R.
  unfold store_after.
  destruct (create_movement env md u (open_session db conns)) as [r w].
  inversion R as [e w' Hc Hb _ | e w' Hc Hb _ _ Hf | w' Hc Hb _ _]; subst; simpl.
  - right. exists e. auto.
  - right. exists e. auto.
  - left. eexists. split; [reflexivity|]. split; [exact Hb | exact Hc].
Qed.

(** With the first observer gone away, the broadcast raises at once; the
    request is answered all the same, the movement stays, and the failure
    is printed. *)
Lemma notification_failure_absorbed :
  let out := create_movement Demo.env0 Demo.salida7 Demo.luis
               (open_session Demo.db0 Demo.observadores) in
  fst out = Return (respuesta Demo.env0 Demo.db0 Demo.salida7)
  /\ movimientos (store_after out) = [nuevo_movimiento Demo.env0 Demo.salida7]
  /\ stdout (snd out) = ["Error al emitir WebSocket: "]
  /\ broadcast_calls (snd out) = ["Nuevo movimiento registrado: 1 (salida)"].
Proof. repeat split. Qed.

(** ** The recorded lines *)

Lemma enumerate_nth_error {A} (l : list A) start i :
  nth_error (Py.enumerate l start) i
  = option_map (fun x => (start + Z.of_nat i, x)) (nth_error l i).
Proof.
  revert start i. induction l as [|x l IH]; intros start [|i]; try reflexivity.
  - simpl. rewrite Z.add_0_r. reflexivity.
  - change (nth_error (Py.enumerate (x :: l) start) (S i))
      with (nth_error (Py.enumerate l (start + 1)) i).
    change (nth_error (x :: l) (S i)) with (nth_error l i).
    rewrite IH, Nat2Z.inj_succ.
    destruct (nth_error l i); [|reflexivity].
    unfold option_map. do 2 f_equal. lia.
Qed.

Lemma enumerate_fst {A} (l : list A) s :
  map fst (Py.enumerate l (Z.of_nat s)) = map Z.of_nat (seq s (List.length l)).
Proof.
  revert s. induction l as [|x l IH]; intros s; simpl; [reflexivity|].
  f_equal. rewrite <- IH. do 2 f_equal. lia.
Qed.

Lemma nuevas_lineas_length env md :
  List.length (nuevas_lineas env md) = List.length (MovementCreate.lineas md).
Proof.
  unfold nuevas_lineas. rewrite length_map.
  generalize 1. induction (MovementCreate.lineas md); intros; simpl; auto.
Qed.

Lemma nuevas_lineas_nth env md i :
  nth_error (nuevas_lineas env md) i
  = option_map (new_line (generated_id env) (Z.of_nat i + 1))
               (nth_error (MovementCreate.lineas md) i).
Proof.
  unfold nuevas_lineas. rewrite nth_error_map, enumerate_nth_error.
  destruct (nth_error (MovementCreate.lineas md) i); [|reflexivity].
  cbn [option_map fst snd]. rewrite (Z.add_comm 1). reflexivity.
Qed.

Lemma nuevas_lineas_id_linea env md :
  map MovementLine.id_linea (nuevas_lineas env md)
  = map Z.of_nat (seq 1 (List.length (MovementCreate.lineas md))).
Proof.
  unfold nuevas_lineas. rewrite map_map. simpl.
  rewrite <- (enumerate_fst (MovementCreate.lineas md) 1).
  reflexivity.
Qed.

(** The lines of the new movement in the store after the commit are the new
    lines, in their order, when no line of the store was an orphan. *)
Lemma select_lineas_store_with env db md :
  lineas_con_cabecera db = true ->
  existsb (fun x => Movement.id_mov x =? generated_id env) (movimientos db) = false ->
  select_lineas (generated_id env)
                (store_with db (nuevo_movimiento env md) (nuevas_lineas env md))
  = nuevas_lineas env md.
Proof.
  intros Hfk Hid. unfold select_lineas, store_with. simpl.
  rewrite filter_app.
  assert (Hold : filter (fun l => MovementLine.id_mov l =? generated_id env)
                        (movimientos_lineas db) = []).
  { unfold lineas_con_cabecera in Hfk. rewrite forallb_forall in Hfk.
    induction (movimientos_lineas db) as [|l ls IH]; simpl; [reflexivity|].
    destruct (MovementLine.id_mov l =? generated_id env) eqn:E.
    - exfalso. specialize (Hfk l (or_introl eq_refl)).
      apply existsb_exists in Hfk. destruct Hfk as (m & Hm & Hmid).
      apply Z.eqb_eq in E, Hmid.
      assert (Ht : existsb (fun x => Movement.id_mov x =? generated_id env)
                           (movimientos db) = true).
      { apply existsb_exists. exists m. split; [exact Hm|]. apply Z.eqb_eq. congruence. }
      rewrite Ht in Hid. discriminate Hid.
    - apply IH. intros x Hx. apply Hfk. right. exact Hx. }
  rewrite Hold. simpl.
  unfold nuevas_lineas. generalize 1.
  induction (MovementCreate.lineas md) as [|x l IH]; intros s; simpl; [reflexivity|].
  rewrite Z.eqb_refl. f_equal. apply IH.
Qed.

Lemma veredicto_None_autorizado env md u :
  veredicto env md u = None -> autorizado md u = true.
Proof.
  unfold veredicto. destruct (autorizado md u); [reflexivity | discriminate].
Qed.

(** The lot recorded for a validated body is the expected one. *)
Lemma lote_validado b line :
  MovementLineCreate.validate b = Some line ->
  MovementLine.lote (new_line 0 0 line) = lote_esperado (MovementLineCreate.b_lote b)
  /\ MovementLineCreate.codigo_almacen line = MovementLineCreate.b_codigo_almacen b
  /\ MovementLineCreate.codigo_producto line = MovementLineCreate.b_codigo_producto b
  /\ MovementLineCreate.cantidad line = MovementLineCreate.b_cantidad b.
Proof.
  unfold MovementLineCreate.validate. intros H.
  destruct (_ || _)%bool; [discriminate|]. injection H as <-. simpl.
  repeat split.
  destruct (MovementLineCreate.b_lote b) as [| |[|c s]]; reflexivity.
Qed.

(** C5. After a successful [create_movement] of N submitted lines, N is
    between 1 and 100 and the lines of the new movement in the store are N
    lines numbered 1..N in the order of submission; the i-th one carries
    the warehouse, product and quantity of the i-th submitted line and its
    lot, or "SIN_LOTE" when the lot was left out, [null] or empty. *)
Theorem create_movement_lines_numbered env db conns md u resp bodies :
  fst (create_movement env md u (open_session db conns)) = Return resp ->
  lineas_con_cabecera db = true ->
  map MovementLineCreate.validate bodies = map Some (MovementCreate.lineas md) ->
  let persisted :=
    select_lineas (MovementResponse.id_mov resp)
      (store_after (create_movement env md u (open_session db conns))) in
  let n := List.length (MovementCreate.lineas md) in
  (1 <= n <= 100)%nat
  /\ List.length persisted = n
  /\ map MovementLine.id_linea persisted = map Z.of_nat (seq 1 n)
  /\ (forall i b,
         nth_error bodies i = Some b ->
         exists p,
           nth_error persisted i = Some p
           /\ MovementLine.id_mov p = MovementResponse.id_mov resp
           /\ MovementLine.id_linea p = Z.of_nat i + 1
           /\ MovementLine.lote p = lote_esperado (MovementLineCreate.b_lote b)
           /\ MovementLine.codigo_almacen p = MovementLineCreate.b_codigo_almacen b
           /\ MovementLine.codigo_producto p = MovementLineCreate.b_codigo_producto b
           /\ MovementLine.cantidad p = MovementLineCreate.b_cantidad b).
Proof.
  intros Hr Hfk Hb persisted n. subst persisted n.
  pose proof (create_movement_resultado env db conns md u) as R.
  unfold store_after.
  destruct (create_movement env md u (open_session db conns)) as [r w].
  simpl in *. subst r.
  inversion R as [ | | w' Hc _ Hv Hid]; subst. simpl MovementResponse.id_mov.
  rewrite Hc, (select_lineas_store_with env db md Hfk Hid).
  pose proof (veredicto_autorizado env md u (veredicto_None_autorizado env md u Hv)) as Hn.
  rewrite Hv in Hn. destruct Hn as [Hn _].
  split; [lia|]. split; [apply nuevas_lineas_length|].
  split; [apply nuevas_lineas_id_linea|].
  intros i b Hi.
  assert (Hline : exists line, nth_error (MovementCreate.lineas md) i = Some line
                               /\ MovementLineCreate.validate b = Some line).
  { pose proof (f_equal (fun l => nth_error l i) Hb) as E. simpl in E.
    rewrite !nth_error_map, Hi in E. simpl in E.
    destruct (nth_error (MovementCreate.lineas md) i) as [line|]; [|discriminate E].
    exists line. split; [reflexivity|]. simpl in E. congruence. }
  destruct Hline as (line & Hl & Hval).
  exists (new_line (generated_id env) (Z.of_nat i + 1) line).
  rewrite nuevas_lineas_nth, Hl. simpl.
  destruct (lote_validado b Hval) as (H1 & H2 & H3 & H4). simpl in H1.
  repeat split; assumption.
Qed.

(** The admin's scenario on the demo store: two lines, the first without lot. *)
Lemma create_movement_lines_numbered_witness :
  map MovementLine.id_linea
      (select_lineas 1
         (store_after (create_movement Demo.env0 Demo.salida7 Demo.luis
                         (open_session Demo.db0 Demo.observadores))))
  = [1; 2].
Proof.
  apply (@create_movement_lines_numbered Demo.env0 Demo.db0 Demo.observadores
           Demo.salida7 Demo.luis (respuesta Demo.env0 Demo.db0 Demo.salida7)
           Demo.cuerpo7 eq_refl eq_refl eq_refl).
Defined.

(** ** The broadcast *)

(** X10. The loop of [broadcast] delivers to the observers that come before
    the first closed connection and to none after it. *)
Lemma send_all_stops message before c rest :
  forallb WebSocket.connected before = true ->
  WebSocket.connected c = false ->
  ConnectionManager.send_all (before ++ c :: rest) message
  = (map (entregado message) before ++ c :: rest,
     Some (OtherError "WebSocketDisconnect")).
Proof.
  intros Hb Hc. induction before as [|b before IH]; simpl.
  - unfold WebSocket.send_text. rewrite Hc. reflexivity.
  - simpl in Hb. apply andb_true_iff in Hb. destruct Hb as [Hb1 Hb2].
    unfold WebSocket.send_text at 1. rewrite Hb1.
    rewrite (IH Hb2). reflexivity.
Qed.

(** C2. A broadcast over two registered observers, the first of which has
    gone away: the send to the first raises, the exception leaves
    [broadcast], and the second observer, still connected, receives
    nothing. *)
Theorem broadcast_stops_at_failed_observer :
  Demo.observadores = [WebSocket.mk 1 false []; WebSocket.mk 2 true []]
  /\ fst (ConnectionManager.broadcast "Nuevo movimiento registrado: 1 (salida)"
            (open_session Demo.db0 Demo.observadores))
     = Raise (Raised (OtherError "WebSocketDisconnect"))
  /\ active_connections
       (snd (ConnectionManager.broadcast "Nuevo movimiento registrado: 1 (salida)"
               (open_session Demo.db0 Demo.observadores)))
     = [WebSocket.mk 1 false []; WebSocket.mk 2 true []].
Proof. repeat split. Qed.

(** ** The owner filter of the read side *)

Lemma insert_by_In {A} (before : A -> A -> bool) x y l :
  In y (insert_by before x l) -> y = x \/ In y l.
Proof.
  induction l as [|z l IH]; simpl.
  - intros [<- | []]. left. reflexivity.
  - destruct (before x z); simpl.
    + intros [<- | [<- | H]]; auto.
    + intros [<- | H]; [right; left; reflexivity|].
      destruct (IH H) as [-> | H']; auto.
Qed.

Lemma order_by_In {A} (before : A -> A -> bool) y l :
  In y (order_by before l) -> In y l.
Proof.
  induction l as [|x l IH]; simpl; [auto|].
  intros H. apply insert_by_In in H. destruct H as [-> | H]; auto.
Qed.

Lemma skipn_In {A} n (l : list A) y : In y (skipn n l) -> In y l.
Proof.
  revert l. induction n as [|n IH]; intros [|x l]; simpl; auto.
Qed.

Lemma firstn_In {A} n (l : list A) y : In y (firstn n l) -> In y l.
Proof.
  revert l. induction n as [|n IH]; intros [|x l]; simpl; auto.
  - intros [].
  - intros [H | H]; auto.
Qed.

Lemma limit_offset_In {A} limit offset (l : list A) y :
  In y (limit_offset limit offset l) -> In y l.
Proof.
  unfold limit_offset. intros H. apply firstn_In in H. apply skipn_In in H. exact H.
Qed.

(** A row of the statement of [get_movements] built for a plain user is a
    movement of that user. *)
Lemma movements_statement_owned ilike q u d r :
  is_admin_user u = false ->
  In r (movements_statement ilike q u d) ->
  Movement.id_usuario (fst r) = User.id u.
Proof.
  intros Hu H. unfold movements_statement in H.
  apply filter_In in H. destruct H as [_ H].
  unfold movements_where in H. rewrite Hu in H. simpl in H.
  apply andb_true_iff in H. destruct H as [_ H].
  apply Z.eqb_eq. exact H.
Qed.

(** The responses of the loop are those of the rows of the page. *)
Lemma movements_response_rows env results w l w' :
  movements_response env results w = (Return l, w') ->
  forall r, In r l ->
            exists row, In row results
                        /\ MovementResponse.id_usuario r = Movement.id_usuario (fst row).
Proof.
  revert w l w'. induction results as [|[m u'] rest IH]; intros w l w' H r Hr; simpl in H.
  - injection H as <- _. destruct Hr.
  - unfold bind at 1 in H.
    destruct (try_except _ _ w) as [[ls|e] w1]; [|discriminate H].
    unfold bind at 1 in H.
    destruct (movements_response env rest w1) as [[others|e] w2] eqn:E; [|discriminate H].
    unfold ret in H. injection H as <- _.
    destruct Hr as [<- | Hr].
    + exists (m, u'). split; [left; reflexivity | reflexivity].
    + destruct (IH _ _ _ E r Hr) as (row & Hin & Hid).
      exists row. split; [right; exact Hin | exact Hid].
Qed.

(** X11. Movement listing: every movement answered to a plain user is
    theirs. *)
Lemma get_movements_owned env ilike q u w page w' :
  is_admin_user u = false ->
  get_movements env ilike q u w = (Return page, w') ->
  forall r, In r (data page) -> MovementResponse.id_usuario r = User.id u.
Proof.
  intros Hu H r Hr. unfold get_movements in H.
  unfold bind at 1 in H.
  destruct (try_except _ _ w) as [[[results total_records]|e] w1] eqn:E; [|discriminate H].
  unfold bind at 1 in H. simpl fst in H. simpl snd in H.
  destruct (movements_response env results w1) as [[l|e] w2] eqn:E2; [|discriminate H].
  unfold ret in H. injection H as <- _. simpl in Hr.
  destruct (movements_response_rows _ _ _ E2 r Hr) as (row & Hin & ->).
  assert (Hres : results
                 = limit_offset (q_limit q) (q_offset q)
                     (order_by fecha_desc (movements_statement ilike q u (working w)))).
  { unfold try_except in E. unfold bind at 1 in E. unfold db_exec at 1 in E.
    unfold bind at 1 in E.
    destruct (db_call_point env SelectMovements w) as [[[]|e] w3] eqn:E3.
    - unfold db_call_point in E3.
      destruct (fault_at env SelectMovements); [discriminate E3|].
      injection E3 as <-. unfold bind, get_world, ret in E.
      unfold db_exec, bind, db_call_point, get_world, ret in E.
      destruct (fault_at env CountMovements) as [f|]; simpl in E.
      + destruct f; discriminate E.
      + injection E as <- _ _. reflexivity.
    - unfold except_sqlalchemy in E. destruct e as [c d|[cls orig|msg]]; discriminate E. }
  subst results. apply limit_offset_In in Hin. apply order_by_In in Hin.
  apply (movements_statement_owned ilike q u _ _ Hu Hin).
Qed.



(** ** Deactivating a warehouse *)

Lemma find_In_some {A} (p : A -> bool) l x :
  In x l -> p x = true -> exists y, find p l = Some y.
Proof.
  intros Hin Hp. destruct (find p l) as [y|] eqn:E; [eauto|].
  rewrite (find_none _ _ E _ Hin) in Hp. discriminate Hp.
Qed.

(** The run of [update_warehouse] on a warehouse that has a stock row, when
    [activo] is set to false. *)
Lemma update_warehouse_refused env codigo upd a s' w :
  get_warehouse_row codigo (working w) = Some a ->
  select_stock_first codigo (working w) = Some s' ->
  u_activo upd = Some false ->
  exists e,
    update_warehouse env codigo upd w = (Raise e, w)
    /\ (fault_at env GetWarehouse = None ->
        fault_at env SelectStock = None ->
        e = HTTPException HTTP_403_FORBIDDEN (AlmacenNoVacio codigo)).
Proof.
  intros Ha Hst Hu. unfold update_warehouse.
  unfold bind at 1.
  destruct (fault_at env GetWarehouse) as [f|] eqn:HG.
  { rewrite (try_Raise _ _ _ (db_exec_fault env _ _ _ HG)).
    destruct f; simpl; eexists; (split; [reflexivity | discriminate]). }
  rewrite (try_Return _ _ _ (db_exec_ok env _ _ _ HG)).
  rewrite Ha, Hu.
  unfold bind at 1. unfold try_except. unfold bind at 1.
  destruct (fault_at env SelectStock) as [f|] eqn:HS.
  { rewrite (db_exec_fault env _ _ _ HS).
    destruct f; simpl; eexists; (split; [reflexivity | discriminate]). }
  rewrite (db_exec_ok env _ _ _ HS). rewrite Hst.
  simpl. eexists. split; reflexivity.
Qed.

(** C10. A single-warehouse update that sets [activo] to false on a
    warehouse for which a stock row exists, whatever the quantity of the
    row, ends in an error and leaves the store as it was; the error is 403
    Forbidden as soon as the two reads of the handler are answered. *)
Theorem update_warehouse_stock_rows_block env db conns codigo upd a s :
  get_warehouse_row codigo db = Some a ->
  In s (stock db) ->
  Stock.codigo_almacen s = codigo ->
  u_activo upd = Some false ->
  let out := update_warehouse env codigo upd (open_session db conns) in
  store_after out = db
  /\ exists e,
       fst out = Raise e
       /\ (fault_at env GetWarehouse = None ->
           fault_at env SelectStock = None ->
           e = HTTPException HTTP_403_FORBIDDEN (AlmacenNoVacio codigo)).
Proof.
  intros Ha Hin Hs Hu out. subst out.
  assert (Hst : exists s', select_stock_first codigo db = Some s').
  { unfold select_stock_first. apply (find_In_some _ _ s Hin).
    apply Z.eqb_eq. exact Hs. }
  destruct Hst as (s' & Hst).
  destruct (@update_warehouse_refused env codigo upd a s' (open_session db conns)
              Ha Hst Hu) as (e & -> & He).
  split; [reflexivity|]. exists e. split; [reflexivity | exact He].
Qed.

(** Warehouse 3 of the demo store holds one stock row of quantity 0. *)
Lemma update_warehouse_stock_rows_block_witness :
  store_after (update_warehouse Demo.env0 3 Demo.inactivar
                 (open_session Demo.db0 []))
  = Demo.db0.
Proof.
  apply (@update_warehouse_stock_rows_block Demo.env0 Demo.db0 [] 3 Demo.inactivar
           (Warehouse.mk 3 "Sur" true) (Stock.mk 3 100 "SIN_LOTE" None 0)
           eq_refl (or_introl eq_refl) eq_refl eq_refl).
Defined.

(** The same warehouse through the two endpoints: the single update is
    refused with 403, the bulk change, which sums the quantities,
    deactivates it. *)
Lemma warehouse_without_units_two_endpoints :
  sum_stock 3 Demo.db0 = 0
  /\ fst (update_warehouse Demo.env0 3 Demo.inactivar (open_session Demo.db0 []))
     = Raise (HTTPException HTTP_403_FORBIDDEN (AlmacenNoVacio 3))
  /\ fst (cambiar_estado_masivo_almacenes Demo.env0 (mkBulkEstadoUpdate [3] false)
            (open_session Demo.db0 []))
     = Return (1, 0)
  /\ get_warehouse_row 3
       (store_after (cambiar_estado_masivo_almacenes Demo.env0
                       (mkBulkEstadoUpdate [3] false) (open_session Demo.db0 [])))
     = Some (Warehouse.mk 3 "Sur" false).
Proof. repeat split. Qed.

(** * More properties of the handlers *)

(** ** [create_movement]: the trace of a request *)

(** The codes a submission asks for that no active row of the store has. *)
Lemma registrar_traza env md db conns bc out :
  let w := mkWorld db db [] conns bc out in
  let almacenes := map MovementLineCreate.codigo_almacen (MovementCreate.lineas md) in
  let productos := map MovementLineCreate.codigo_producto (MovementCreate.lineas md) in
  let dA := Py.set_diff almacenes (select_almacenes_activos almacenes db) in
  let dP := Py.set_diff productos (select_productos_activos productos db) in
  (exists e w',
      registrar env md w = (Raise e, w')
      /\ committed w' = db
      /\ match e with
         | HTTPException c (AlmacenesNoExisten d) =>
             c = HTTP_400_BAD_REQUEST /\ d = dA /\ dA <> []
         | HTTPException c (ProductosNoExisten d) =>
             c = HTTP_400_BAD_REQUEST /\ d = dP /\ dP <> [] /\ dA = []
         | HTTPException _ _ => False
         | Raised _ => True
         end)
  \/ (registrar env md w
      = (Return (nuevo_movimiento env md),
         let d := store_with db (nuevo_movimiento env md) (nuevas_lineas env md) in
         mkWorld d d [] conns bc out)
      /\ existsb (fun x => Movement.id_mov x =? generated_id env) (movimientos db) = false
      /\ fault_at env Flush = None /\ fault_at env Commit = None
      /\ dA = [] /\ dP = []).
Proof.
  intros w almacenes productos dA dP. subst w. unfold registrar.
  unfold db_add_flush_movement, db_exec, db_commit, db_call_point.
  unfold bind, get_world, put_world, ret, raise.
  destruct (fault_at env Flush) as [f|] eqn:HF.
  { left. do 2 eexists. split; [reflexivity|]. simpl. auto. }
  simpl.
  destruct (existsb _ (movimientos db)) eqn:Hid.
  { left. do 2 eexists. split; [reflexivity|]. simpl. auto. }
  destruct (existsb _ (usuario db)) eqn:Hus; simpl.
  2:{ left. do 2 eexists. split; [reflexivity|]. simpl. auto. }
  destruct (fault_at env SelectAlmacenesActivos) as [f|] eqn:HA; simpl.
  { left. do 2 eexists. split; [reflexivity|]. simpl. auto. }
  fold almacenes. fold productos.
  change (select_almacenes_activos almacenes (insert_movement db _))
    with (select_almacenes_activos almacenes db).
  fold dA.
  destruct dA as [|a0 dA'] eqn:HdA; simpl.
  2:{ left. do 2 eexists. split; [reflexivity|]. simpl.
      split; [reflexivity|]. split; [reflexivity|]. split; [reflexivity | discriminate]. }
  destruct (fault_at env SelectProductosActivos) as [f|] eqn:HP; simpl.
  { left. do 2 eexists. split; [reflexivity|]. simpl. auto. }
  change (select_productos_activos productos (insert_movement db _))
    with (select_productos_activos productos db).
  fold dP.
  destruct dP as [|p0 dP'] eqn:HdP; simpl.
  2:{ left. do 2 eexists. split; [reflexivity|]. simpl.
      split; [reflexivity|]. split; [reflexivity|]. split; [reflexivity|].
      split; [discriminate | reflexivity]. }
  rewrite for_each_add_line. simpl.
  destruct (fault_at env Commit) as [f|] eqn:HC; simpl.
  { left. do 2 eexists. split; [reflexivity|]. simpl. auto. }
  fold (nuevo_movimiento env md).
  change (map (fun x => new_line (generated_id env) (fst x) (snd x))
              (Py.enumerate (MovementCreate.lineas md) 1))
    with (nuevas_lineas env md).
  destruct (flush_lines _ (nuevas_lineas env md)) as [d|] eqn:Hfl.
  2:{ left. do 2 eexists. split; [reflexivity|]. simpl. auto. }
  right. apply flush_lines_tables in Hfl. simpl in Hfl.
  destruct Hfl as (H1 & H2 & H3 & H4 & H5 & H6).
  assert (d = store_with db (nuevo_movimiento env md) (nuevas_lineas env md)) as ->.
  { destruct d; simpl in *. unfold store_with. congruence. }
  repeat split; auto.
Qed.

(** The trace of a request on a fresh session: stopped by the checks;
    stopped in the transaction, by a warehouse or a product that is not
    active or by a failure of the session; or committed, and then answered
    or not. *)
Lemma create_movement_traza env db conns md u :
  let almacenes := map MovementLineCreate.codigo_almacen (MovementCreate.lineas md) in
  let productos := map MovementLineCreate.codigo_producto (MovementCreate.lineas md) in
  let dA := Py.set_diff almacenes (select_almacenes_activos almacenes db) in
  let dP := Py.set_diff productos (select_productos_activos productos db) in
  exists r w,
    create_movement env md u (open_session db conns) = (r, w)
    /\ ((exists e, veredicto env md u = Some e /\ r = Raise e /\ committed w = db)
        \/ (veredicto env md u = None
            /\ committed w = db
            /\ ((r = Raise (HTTPException HTTP_400_BAD_REQUEST (AlmacenesNoExisten dA))
                 /\ dA <> [])
                \/ (r = Raise (HTTPException HTTP_400_BAD_REQUEST (ProductosNoExisten dP))
                    /\ dP <> [] /\ dA = [])
                \/ (exists msg,
                       r = Raise (HTTPException HTTP_400_BAD_REQUEST
                                    (ErrorDeIntegridad msg)))
                \/ r = Raise (HTTPException HTTP_500_INTERNAL_SERVER_ERROR
                                ErrorEnLaBaseDeDatos)))
        \/ (veredicto env md u = None
            /\ committed w
               = store_with db (nuevo_movimiento env md) (nuevas_lineas env md)
            /\ existsb (fun x => Movement.id_mov x =? generated_id env)
                       (movimientos db) = false
            /\ dA = [] /\ dP = []
            /\ ((exists e, r = Raise e /\ error_de_lectura e)
                \/ r = Return (respuesta env db md)))).
Proof.
  intros almacenes productos dA dP.
  unfold create_movement, open_session.
  unfold bind at 1. rewrite validar_eq.
  destruct (veredicto env md u) as [e|] eqn:Hv.
  { do 2 eexists. split; [reflexivity|]. left. exists e. auto. }
  unfold bind at 1.
  destruct (registrar_traza env md db conns [] [])
    as [(e & w' & Hr & Hc & He) | (Hr & Hid & _ & _ & HdA & HdP)].
  - rewrite (try_Raise _ _ _ Hr).
    fold almacenes in He. fold productos in He. fold dA in He. fold dP in He.
    destruct e as [c d|[cls orig|msg]]; simpl;
      unfold bind, db_rollback, get_world, put_world, raise; simpl;
      do 2 eexists; (split; [reflexivity|]); right; left;
      (split; [reflexivity|]); (split; [exact Hc|]).
    + destruct d; simpl in He; try contradiction.
      * destruct He as (-> & -> & Hne). left. split; [reflexivity | exact Hne].
      * destruct He as (-> & -> & Hne & Hd). right. left. auto.
    + right. right. left. eauto.
    + right. right. right. reflexivity.
  - rewrite (try_Return _ _ _ Hr). cbv zeta.
    fold almacenes in HdA. fold productos in HdP. fold dA in HdA. fold dP in HdP.
    set (d := store_with db (nuevo_movimiento env md) (nuevas_lineas env md)).
    unfold bind at 1.
    destruct (fault_at env SelectNombreUsuario) as [f|] eqn:HU.
    { rewrite (try_Raise _ _ _ (db_exec_fault env _ _ _ HU)).
      destruct f as [cls orig|msg]; simpl;
        do 2 eexists; (split; [reflexivity|]); right; right; simpl;
        repeat (split; [assumption || reflexivity|]);
        left; eexists; (split; [reflexivity | constructor]). }
    rewrite (try_Return _ _ _ (db_exec_ok env _ _ _ HU)).
    unfold bind at 1. simpl Movement.id_mov.
    destruct (fault_at env (SelectLineas (generated_id env))) as [f|] eqn:HL.
    { rewrite (try_Raise _ _ _ (db_exec_fault env _ _ _ HL)).
      destruct f as [cls orig|msg]; simpl;
        do 2 eexists; (split; [reflexivity|]); right; right; simpl;
        repeat (split; [assumption || reflexivity|]);
        left; eexists; (split; [reflexivity | constructor]). }
    rewrite (try_Return _ _ _ (db_exec_ok env _ _ _ HL)).
    unfold bind at 1.
    match goal with
    | |- context [try_except (ConnectionManager.broadcast ?m) ?h ?w] =>
        destruct (emitir_returns m w) as (w2 & -> & Hc2 & Hb2)
    end.
    unfold ret. simpl in Hc2.
    do 2 eexists. split; [reflexivity|]. right. right.
    repeat (split; [assumption || reflexivity|]).
    right. reflexivity.
Qed.

(** ** [create_movement]: what it writes *)

(** X1. [create_movement] writes to the two tables of the journal only:
    users, warehouses, products and stock are the same after the request,
    whatever its outcome. *)
Theorem create_movement_other_tables env db conns md u :
  let d' := store_after (create_movement env md u (open_session db conns)) in
  usuario d' = usuario db /\ almacen d' = almacen db
  /\ producto d' = producto db /\ stock d' = stock db.
Proof.
  intros d'. subst d'. unfold store_after.
  destruct (create_movement_traza env db conns md u) as (r & w & -> & H).
  simpl.
  destruct H as [(e & _ & _ & ->) | [(_ & -> & _) | (_ & -> & _)]];
    repeat split.
Qed.

Lemma select_lineas_app id_mov d m ls :
  select_lineas id_mov (store_with d m ls)
  = select_lineas id_mov d
    ++ filter (fun l => MovementLine.id_mov l =? id_mov) ls.
Proof. unfold select_lineas, store_with. simpl. apply filter_app. Qed.

Lemma nuevas_lineas_id_mov env md l :
  In l (nuevas_lineas env md) -> MovementLine.id_mov l = generated_id env.
Proof.
  unfold nuevas_lineas. intros H. apply in_map_iff in H.
  destruct H as (il & <- & _). reflexivity.
Qed.

Lemma filter_none {A} (p : A -> bool) l :
  (forall x, In x l -> p x = false) -> filter p l = [].
Proof.
  induction l as [|x l IH]; simpl; intros H; [reflexivity|].
  rewrite (H x (or_introl eq_refl)). apply IH. intros y Hy. apply H. right. exact Hy.
Qed.

(** The store with one more movement is as well formed as the store. *)
Lemma store_with_journal env db md :
  lineas_con_cabecera db = true ->
  lineas_numeradas db ->
  existsb (fun x => Movement.id_mov x =? generated_id env) (movimientos db) = false ->
  lineas_con_cabecera
    (store_with db (nuevo_movimiento env md) (nuevas_lineas env md)) = true
  /\ lineas_numeradas
       (store_with db (nuevo_movimiento env md) (nuevas_lineas env md)).
Proof.
  intros Hfk Hnum Hid. split.
  - unfold lineas_con_cabecera in *. simpl.
    rewrite forallb_forall in *. intros l Hl.
    rewrite existsb_app. apply in_app_or in Hl. destruct Hl as [Hl | Hl].
    + rewrite (Hfk l Hl). reflexivity.
    + rewrite (nuevas_lineas_id_mov env md l Hl). simpl.
      rewrite Z.eqb_refl. apply orb_true_r.
  - intros m Hm. simpl in Hm. apply in_app_or in Hm.
    destruct Hm as [Hm | [<- | []]].
    + rewrite select_lineas_app.
      rewrite (filter_none (fun l => MovementLine.id_mov l =? Movement.id_mov m)
                           (nuevas_lineas env md)).
      * rewrite app_nil_r. apply Hnum. exact Hm.
      * intros l Hl. rewrite (nuevas_lineas_id_mov env md l Hl).
        destruct (generated_id env =? Movement.id_mov m) eqn:E; [|reflexivity].
        apply Z.eqb_eq in E.
        assert (Ht : existsb (fun x => Movement.id_mov x =? generated_id env)
                             (movimientos db) = true).
        { apply existsb_exists. exists m. split; [exact Hm|]. apply Z.eqb_eq. auto. }
        rewrite Ht in Hid. discriminate Hid.
    + simpl Movement.id_mov.
      rewrite (select_lineas_store_with env db md Hfk Hid).
      rewrite nuevas_lineas_id_linea, nuevas_lineas_length. reflexivity.
Qed.

(** X2. [create_movement] keeps the journal well formed: if every line of
    the store belongs to a recorded movement and the lines of every
    movement are numbered 1, 2, ... then the same holds after the request,
    whatever its outcome. *)
Theorem create_movement_keeps_journal env db conns md u :
  lineas_con_cabecera db = true ->
  lineas_numeradas db ->
  let d' := store_after (create_movement env md u (open_session db conns)) in
  lineas_con_cabecera d' = true /\ lineas_numeradas d'.
Proof.
  intros Hfk Hnum d'. subst d'. unfold store_after.
  destruct (create_movement_traza env db conns md u) as (r & w & -> & H).
  simpl.
  destruct H as [(e & _ & _ & ->) | [(_ & -> & _) | (_ & -> & Hid & _)]]; auto.
  apply store_with_journal; assumption.
Qed.

(** The admin's scenario on the demo store, which has no movement yet. *)
Lemma create_movement_keeps_journal_witness :
  lineas_con_cabecera
    (store_after (create_movement Demo.env0 Demo.salida7 Demo.luis
                    (open_session Demo.db0 Demo.observadores))) = true.
Proof.
  apply (@create_movement_keeps_journal Demo.env0 Demo.db0 Demo.observadores
           Demo.salida7 Demo.luis eq_refl).
  intros m Hm. destruct Hm.
Defined.

(** ** [create_movement]: warehouses and products *)

Lemma mem_In x l : Py.mem x l = true <-> In x l.
Proof.
  unfold Py.mem. rewrite existsb_exists. split.
  - intros (y & Hy & E). apply Z.eqb_eq in E. subst y. exact Hy.
  - intros H. exists x. split; [exact H | apply Z.eqb_refl].
Qed.

Lemma set_diff_In a b x :
  In x (Py.set_diff a b) <-> In x a /\ Py.mem x b = false.
Proof.
  induction a as [|y a IH]; simpl.
  - tauto.
  - destruct (Py.mem y b) eqn:Eb; simpl.
    + rewrite IH. split.
      * intros [H1 H2]. auto.
      * intros [[-> | H1] H2]; [congruence | auto].
    + destruct (Py.mem y (Py.set_diff a b)) eqn:Ed; simpl.
      * rewrite IH. split; [intros [H1 H2]; auto|].
        intros [[-> | H1] H2]; [|auto].
        apply mem_In in Ed. apply IH in Ed. exact Ed.
      * rewrite IH. split.
        -- intros [-> | [H1 H2]]; auto.
        -- intros [[-> | H1] H2]; auto.
Qed.

Lemma set_diff_NoDup a b : NoDup (Py.set_diff a b).
Proof.
  induction a as [|y a IH]; simpl; [constructor|].
  destruct (Py.mem y b); simpl; [exact IH|].
  destruct (Py.mem y (Py.set_diff a b)) eqn:Ed; [exact IH|].
  constructor; [|exact IH].
  intros H. apply mem_In in H. congruence.
Qed.

Lemma almacenes_activos_mem codes db x :
  Py.mem x (select_almacenes_activos codes db) = true
  <-> In x codes /\ almacen_activo db x.
Proof.
  unfold select_almacenes_activos, almacen_activo.
  rewrite mem_In, in_map_iff. split.
  - intros (a & <- & Ha). apply filter_In in Ha. destruct Ha as [Ha Hp].
    apply andb_true_iff in Hp. destruct Hp as [Hm Hact].
    apply mem_In in Hm. split; [exact Hm|]. exists a. auto.
  - intros (Hx & a & Ha & <- & Hact). exists a. split; [reflexivity|].
    apply filter_In. split; [exact Ha|].
    apply andb_true_iff. split; [apply mem_In; exact Hx | exact Hact].
Qed.

Lemma productos_activos_mem codes db x :
  Py.mem x (select_productos_activos codes db) = true
  <-> In x codes /\ producto_activo db x.
Proof.
  unfold select_productos_activos, producto_activo.
  rewrite mem_In, in_map_iff. split.
  - intros (a & <- & Ha). apply filter_In in Ha. destruct Ha as [Ha Hp].
    apply andb_true_iff in Hp. destruct Hp as [Hm Hact].
    apply mem_In in Hm. split; [exact Hm|]. exists a. auto.
  - intros (Hx & a & Ha & <- & Hact). exists a. split; [reflexivity|].
    apply filter_In. split; [exact Ha|].
    apply andb_true_iff. split; [apply mem_In; exact Hx | exact Hact].
Qed.

(** No code is left over: every requested code is active. *)
Lemma set_diff_nil_almacenes codes db :
  Py.set_diff codes (select_almacenes_activos codes db) = [] ->
  forall x, In x codes -> almacen_activo db x.
Proof.
  intros H x Hx.
  destruct (Py.mem x (select_almacenes_activos codes db)) eqn:E.
  - apply almacenes_activos_mem in E. apply E.
  - assert (Hin : In x (Py.set_diff codes (select_almacenes_activos codes db))).
    { apply set_diff_In. auto. }
    rewrite H in Hin. destruct Hin.
Qed.

Lemma set_diff_nil_productos codes db :
  Py.set_diff codes (select_productos_activos codes db) = [] ->
  forall x, In x codes -> producto_activo db x.
Proof.
  intros H x Hx.
  destruct (Py.mem x (select_productos_activos codes db)) eqn:E.
  - apply productos_activos_mem in E. apply E.
  - assert (Hin : In x (Py.set_diff codes (select_productos_activos codes db))).
    { apply set_diff_In. auto. }
    rewrite H in Hin. destruct Hin.
Qed.

(** X3. A movement is recorded only if every line names an active warehouse
    and an active product of the store: whenever the store holds the new
    movement after the request (answered with success or not), each
    submitted line refers to some active warehouse and some active
    product. *)
Theorem create_movement_recorded_active env db conns md u :
  store_after (create_movement env md u (open_session db conns))
  = store_with db (nuevo_movimiento env md) (nuevas_lineas env md) ->
  forall linea, In linea (MovementCreate.lineas md) ->
    almacen_activo db (MovementLineCreate.codigo_almacen linea)
    /\ producto_activo db (MovementLineCreate.codigo_producto linea).
Proof.
  unfold store_after.
  destruct (create_movement_traza env db conns md u) as (r & w & -> & H).
  simpl. intros Hs linea Hl.
  assert (Hne : store_with db (nuevo_movimiento env md) (nuevas_lineas env md) <> db).
  { intros E. apply (f_equal (fun d => List.length (movimientos d))) in E.
    simpl in E. rewrite length_app in E. simpl in E. lia. }
  destruct H as [(e & _ & _ & Hc) | [(_ & Hc & _) | (_ & _ & _ & HdA & HdP & _)]];
    try (rewrite Hc in Hs; symmetry in Hs; contradiction).
  split.
  - apply (set_diff_nil_almacenes _ _ HdA). apply in_map. exact Hl.
  - apply (set_diff_nil_productos _ _ HdP). apply in_map. exact Hl.
Qed.

(** The two lines of the admin's scenario: warehouse 1, products 100, 200. *)
Lemma create_movement_recorded_active_witness :
  store_after (create_movement Demo.env0 Demo.salida7 Demo.luis
                 (open_session Demo.db0 Demo.observadores))
  = store_with Demo.db0 (nuevo_movimiento Demo.env0 Demo.salida7)
                        (nuevas_lineas Demo.env0 Demo.salida7)
  /\ forall linea, In linea (MovementCreate.lineas Demo.salida7) ->
       almacen_activo Demo.db0 (MovementLineCreate.codigo_almacen linea)
       /\ producto_activo Demo.db0 (MovementLineCreate.codigo_producto linea).
Proof.
  split; [reflexivity|].
  apply (@create_movement_recorded_active Demo.env0 Demo.db0 Demo.observadores
           Demo.salida7 Demo.luis eq_refl).
Defined.

(** X4. When [create_movement] answers that warehouses do not exist, the
    codes it names are, each one once, exactly the warehouse codes of the
    submitted lines that no active warehouse of the store has; and nothing
    was written. *)
Theorem create_movement_names_warehouses env db conns md u c diff :
  fst (create_movement env md u (open_session db conns))
  = Raise (HTTPException c (AlmacenesNoExisten diff)) ->
  store_after (create_movement env md u (open_session db conns)) = db
  /\ c = HTTP_400_BAD_REQUEST
  /\ diff <> []
  /\ NoDup diff
  /\ forall x,
       In x diff
       <-> ((exists linea, In linea (MovementCreate.lineas md)
                           /\ MovementLineCreate.codigo_almacen linea = x)
            /\ ~ almacen_activo db x).
Proof.
  unfold store_after.
  destruct (create_movement_traza env db conns md u) as (r & w & -> & H).
  simpl. intros Hr. subst r.
  pose proof (veredicto_autorizado env md u) as Hva.
  pose proof (veredicto_no_autorizado env md u) as Hvn.
  destruct H as [(e & Hv & He & Hc) | [(_ & Hc & H) | (_ & _ & _ & _ & _ & H)]].
  - exfalso. injection He as <-.
    destruct (autorizado md u).
    + specialize (Hva eq_refl). rewrite Hv in Hva.
      destruct Hva as [[_ E] | [(l & d & _ & _ & _ & _ & E) | (_ & _ & E)]];
        discriminate E.
    + rewrite (Hvn eq_refl) in Hv. discriminate Hv.
  - destruct H as [[E Hne] | [[E _] | [[msg E] | E]]]; try discriminate E.
    injection E as -> ->.
    split; [exact Hc|]. split; [reflexivity|]. split; [exact Hne|].
    split; [apply set_diff_NoDup|].
    intros x. rewrite set_diff_In, in_map_iff. split.
    + intros [(linea & E & Hl) Hm]. split; [eauto|].
      intros Hact.
      assert (Ht : Py.mem x (select_almacenes_activos
                               (map MovementLineCreate.codigo_almacen
                                    (MovementCreate.lineas md)) db) = true).
      { apply almacenes_activos_mem. split; [|exact Hact].
        apply in_map_iff. eauto. }
      congruence.
    + intros [(linea & Hl & E) Hna]. split; [eauto|].
      destruct (Py.mem x _) eqn:Em; [|reflexivity].
      apply almacenes_activos_mem in Em. destruct Em as [_ Hact]. contradiction.
  - destruct H as [(e & E & Hl) | E]; [|discriminate E].
    injection E as <-. inversion Hl.
Qed.

(** A line on warehouse 2 of the demo store, which is inactive. *)
Lemma create_movement_names_warehouses_witness :
  store_after (create_movement Demo.env0
                 (MovementCreate.mk salida 7 [Demo.linea 2 100 None None 1])
                 Demo.luis (open_session Demo.db0 []))
  = Demo.db0.
Proof.
  apply (@create_movement_names_warehouses Demo.env0 Demo.db0 []
           (MovementCreate.mk salida 7 [Demo.linea 2 100 None None 1])
           Demo.luis 400 [2] eq_refl).
Defined.

(** X5. When [create_movement] answers that products do not exist, every
    warehouse of the submitted lines is active (warehouses are checked
    first), and the codes it names are, each one once, exactly the product
    codes of the submitted lines that no active product of the store has. *)
Theorem create_movement_names_products env db conns md u c diff :
  fst (create_movement env md u (open_session db conns))
  = Raise (HTTPException c (ProductosNoExisten diff)) ->
  (forall linea, In linea (MovementCreate.lineas md) ->
                 almacen_activo db (MovementLineCreate.codigo_almacen linea))
  /\ diff <> []
  /\ NoDup diff
  /\ forall x,
       In x diff
       <-> ((exists linea, In linea (MovementCreate.lineas md)
                           /\ MovementLineCreate.codigo_producto linea = x)
            /\ ~ producto_activo db x).
Proof.
  destruct (create_movement_traza env db conns md u) as (r & w & -> & H).
  simpl. intros Hr. subst r.
  pose proof (veredicto_autorizado env md u) as Hva.
  pose proof (veredicto_no_autorizado env md u) as Hvn.
  destruct H as [(e & Hv & He & Hc) | [(_ & Hc & H) | (_ & _ & _ & _ & _ & H)]].
  - exfalso. injection He as <-.
    destruct (autorizado md u).
    + specialize (Hva eq_refl). rewrite Hv in Hva.
      destruct Hva as [[_ E] | [(l & d & _ & _ & _ & _ & E) | (_ & _ & E)]];
        discriminate E.
    + rewrite (Hvn eq_refl) in Hv. discriminate Hv.
  - destruct H as [[E _] | [(E & Hne & HdA) | [[msg E] | E]]]; try discriminate E.
    injection E as -> ->.
    split.
    { intros linea Hl. apply (set_diff_nil_almacenes _ _ HdA).
      apply in_map. exact Hl. }
    split; [exact Hne|].
    split; [apply set_diff_NoDup|].
    intros x. rewrite set_diff_In, in_map_iff. split.
    + intros [(linea & E & Hl) Hm]. split; [eauto|].
      intros Hact.
      assert (Ht : Py.mem x (select_productos_activos
                               (map MovementLineCreate.codigo_producto
                                    (MovementCreate.lineas md)) db) = true).
      { apply productos_activos_mem. split; [|exact Hact].
        apply in_map_iff. eauto. }
      congruence.
    + intros [(linea & Hl & E) Hna]. split; [eauto|].
      destruct (Py.mem x _) eqn:Em; [|reflexivity].
      apply productos_activos_mem in Em. destruct Em as [_ Hact]. contradiction.
  - destruct H as [(e & E & Hl) | E]; [|discriminate E].
    injection E as <-. inversion Hl.
Qed.

(** The line on the inactive product 300 of the demo store. *)
Lemma create_movement_names_products_witness :
  fst (create_movement Demo.env0 Demo.salida_inactivo Demo.luis
         (open_session Demo.db0 []))
  = Raise (HTTPException 400 (ProductosNoExisten [300]))
  /\ forall linea, In linea (MovementCreate.lineas Demo.salida_inactivo) ->
       almacen_activo Demo.db0 (MovementLineCreate.codigo_almacen linea).
Proof.
  split; [reflexivity|].
  apply (@create_movement_names_products Demo.env0 Demo.db0 []
           Demo.salida_inactivo Demo.luis 400 [300] eq_refl).
Defined.

Lemma enumerate_In {A} (l : list A) start i x :
  In (i, x) (Py.enumerate l start) -> In x l.
Proof.
  revert start. induction l as [|y l IH]; intros start; simpl; [auto|].
  intros [E | H]; [injection E as _ ->; auto | right; apply (IH _ H)].
Qed.

(** What the schema guarantees on a validated line, carried to the row. *)
Lemma new_line_validado b line id_mov i :
  MovementLineCreate.validate b = Some line ->
  1 <= MovementLine.cantidad (new_line id_mov i line)
  /\ MovementLine.lote (new_line id_mov i line) <> EmptyString
  /\ (Py.len (MovementLine.lote (new_line id_mov i line)) <= 50)%nat.
Proof.
  unfold MovementLineCreate.validate. intros H.
  destruct (MovementLineCreate.lote_of_field (MovementLineCreate.b_lote b))
    as [s|] eqn:El.
  - destruct (Nat.ltb 50 (Py.len s)) eqn:E50; [discriminate H|].
    destruct (MovementLineCreate.b_cantidad b <? 1) eqn:Ec; [discriminate H|].
    simpl in H. injection H as <-.
    apply Z.ltb_ge in Ec. apply Nat.ltb_ge in E50.
    split; [simpl; lia|].
    destruct s as [|ch s'].
    + split; [discriminate | vm_compute; lia].
    + split; [discriminate | exact E50].
  - destruct (MovementLineCreate.b_cantidad b <? 1) eqn:Ec; [discriminate H|].
    simpl in H. injection H as <-.
    apply Z.ltb_ge in Ec.
    split; [simpl; lia|]. split; [discriminate | vm_compute; lia].
Qed.

(** X6. Every row [create_movement] adds to the lines table, from lines
    that passed the validation of the request schema, has a quantity of at
    least 1 and a lot that is not empty and has at most 50 characters,
    whatever the number of bytes of each (the sentinel stands for a missing
    or empty lot), and carries the identifier of the new movement. *)
Theorem create_movement_lines_within_schema env db conns md u bodies :
  map MovementLineCreate.validate bodies = map Some (MovementCreate.lineas md) ->
  forall p,
    In p (movimientos_lineas
            (store_after (create_movement env md u (open_session db conns)))) ->
    In p (movimientos_lineas db)
    \/ (MovementLine.id_mov p = generated_id env
        /\ 1 <= MovementLine.cantidad p
        /\ MovementLine.lote p <> EmptyString
        /\ (Py.len (MovementLine.lote p) <= 50)%nat).
Proof.
  intros Hb p. unfold store_after.
  destruct (create_movement_traza env db conns md u) as (r & w & -> & H).
  simpl.
  destruct H as [(e & _ & _ & ->) | [(_ & -> & _) | (_ & -> & _)]]; auto.
  simpl. intros Hp. apply in_app_or in Hp. destruct Hp as [Hp | Hp]; [auto|].
  right. split; [apply (nuevas_lineas_id_mov env md p Hp)|].
  unfold nuevas_lineas in Hp. apply in_map_iff in Hp.
  destruct Hp as ([i line] & <- & Hil). simpl.
  apply enumerate_In in Hil.
  assert (Hv : exists b, MovementLineCreate.validate b = Some line).
  { assert (Hs : In (Some line) (map MovementLineCreate.validate bodies)).
    { rewrite Hb. apply in_map. exact Hil. }
    apply in_map_iff in Hs. destruct Hs as (b & E & _). eauto. }
  destruct Hv as (b & Hv).
  apply (new_line_validado b (generated_id env) i Hv).
Qed.

(** A lot of fifty characters of two bytes each is within the schema, one
    of fifty-one is not. *)
Lemma validate_counts_characters :
  String.length Ejemplos.lote_50 = 100%nat
  /\ map MovementLineCreate.validate Ejemplos.cuerpo_lote_50
     = map Some (MovementCreate.lineas Ejemplos.salida_lote_50)
  /\ MovementLineCreate.validate
       (MovementLineCreate.mkBody 1 100 (Given (Ejemplos.lote_50 ++ "ñ")%string) Omitted 2)
     = None.
Proof. repeat split. Qed.

(** A line with a lot of fifty characters of two bytes each. *)
Lemma create_movement_lines_within_schema_witness :
  map MovementLineCreate.validate Ejemplos.cuerpo_lote_50
  = map Some (MovementCreate.lineas Ejemplos.salida_lote_50)
  /\ forall p,
       In p (movimientos_lineas
               (store_after (create_movement Demo.env0 Ejemplos.salida_lote_50
                               Demo.luis (open_session Demo.db0 [])))) ->
       In p (movimientos_lineas Demo.db0)
       \/ (MovementLine.id_mov p = generated_id Demo.env0
           /\ 1 <= MovementLine.cantidad p
           /\ MovementLine.lote p <> EmptyString
           /\ (Py.len (MovementLine.lote p) <= 50)%nat).
Proof.
  split; [reflexivity|].
  apply (@create_movement_lines_within_schema Demo.env0 Demo.db0 []
           Ejemplos.salida_lote_50 Demo.luis Ejemplos.cuerpo_lote_50 eq_refl).
Defined.

(** ** The connection manager *)

Lemma send_all_connected message conns :
  forallb WebSocket.connected conns = true ->
  ConnectionManager.send_all conns message
  = (map (entregado message) conns, None).
Proof.
  induction conns as [|c conns IH]; simpl; [reflexivity|].
  intros H. apply andb_true_iff in H. destruct H as [Hc Hr].
  unfold WebSocket.send_text. rewrite Hc. rewrite (IH Hr). reflexivity.
Qed.

(** X7. With every registered observer connected, [broadcast] returns and
    each observer has received the message, after what it had received
    before; the registration order is kept. *)
Theorem broadcast_all_connected message w :
  forallb WebSocket.connected (active_connections w) = true ->
  fst (ConnectionManager.broadcast message w) = Return tt
  /\ active_connections (snd (ConnectionManager.broadcast message w))
     = map (entregado message) (active_connections w).
Proof.
  intros H. unfold ConnectionManager.broadcast.
  rewrite (send_all_connected message _ H). split; reflexivity.
Qed.

Lemma broadcast_all_connected_witness :
  active_connections
    (snd (ConnectionManager.broadcast "hola"
            (open_session Demo.db0 [WebSocket.mk 1 true []; WebSocket.mk 2 true ["a"]])))
  = [WebSocket.mk 1 true ["hola"]; WebSocket.mk 2 true ["a"; "hola"]].
Proof.
  apply (@broadcast_all_connected "hola"
           (open_session Demo.db0 [WebSocket.mk 1 true []; WebSocket.mk 2 true ["a"]])
           eq_refl).
Defined.

(** What [send_all] leaves: the same observers, in the same state of
    connection, and an exception exactly when one of them is closed. *)
Lemma send_all_connections message conns :
  map WebSocket.client (fst (ConnectionManager.send_all conns message))
  = map WebSocket.client conns
  /\ map WebSocket.connected (fst (ConnectionManager.send_all conns message))
     = map WebSocket.connected conns
  /\ snd (ConnectionManager.send_all conns message)
     = if forallb WebSocket.connected conns then None
       else Some (OtherError "WebSocketDisconnect").
Proof.
  induction conns as [|c conns IH]; simpl; [auto|].
  unfold WebSocket.send_text.
  destruct (WebSocket.connected c) eqn:Hc; simpl.
  - destruct (ConnectionManager.send_all conns message) as [rest r]. simpl in *.
    destruct IH as (H1 & H2 & H3). rewrite H1, H2, H3. auto.
  - rewrite Hc. auto.
Qed.

Lemma forallb_false_In {A} (p : A -> bool) l :
  forallb p l = false -> exists x, In x l /\ p x = false.
Proof.
  induction l as [|a l IH]; simpl; [discriminate|].
  destruct (p a) eqn:Ea; simpl.
  - intros H. destruct (IH H) as (x & Hx & Hp). exists x. auto.
  - intros _. exists a. auto.
Qed.

(** X8. [broadcast] never unregisters an observer: whatever its outcome,
    the registered clients are the same after it, in the same order; when
    it fails, a connection that was closed before the call is among
    them. *)
Theorem broadcast_never_unregisters message w :
  map WebSocket.client
      (active_connections (snd (ConnectionManager.broadcast message w)))
  = map WebSocket.client (active_connections w)
  /\ (forall e,
        fst (ConnectionManager.broadcast message w) = Raise e ->
        exists c,
          In c (active_connections w)
          /\ WebSocket.connected c = false
          /\ In (WebSocket.client c)
                (map WebSocket.client
                   (active_connections
                      (snd (ConnectionManager.broadcast message w))))).
Proof.
  unfold ConnectionManager.broadcast.
  pose proof (send_all_connections message (active_connections w)) as (H1 & _ & H3).
  destruct (ConnectionManager.send_all (active_connections w) message)
    as [conns r] eqn:E1.
  simpl in *. subst r.
  destruct (forallb WebSocket.connected (active_connections w)) eqn:Ef; simpl.
  - split; [exact H1|]. intros e E. discriminate E.
  - split; [exact H1|]. intros e _.
    destruct (forallb_false_In _ _ Ef) as (c & Hc & Hn).
    exists c. split; [exact Hc|]. split; [exact Hn|].
    rewrite H1. apply in_map. exact Hc.
Qed.

(** The two observers of the demo store, the first one closed, are both
    registered after the broadcast that fails on the first. *)
Lemma broadcast_failed_observer_stays :
  fst (ConnectionManager.broadcast "uno" (open_session Demo.db0 Demo.observadores))
  = Raise (Raised (OtherError "WebSocketDisconnect"))
  /\ map WebSocket.client
       (active_connections
          (snd (ConnectionManager.broadcast "uno"
                  (open_session Demo.db0 Demo.observadores))))
     = [1; 2].
Proof. split; reflexivity. Qed.

Lemma remove_absent c conns :
  (forall x, In x conns -> WebSocket.client x <> c) ->
  ConnectionManager.remove c conns = None.
Proof.
  induction conns as [|x conns IH]; simpl; intros H; [reflexivity|].
  destruct (WebSocket.client x =? c) eqn:E.
  - apply Z.eqb_eq in E. exfalso. apply (H x (or_introl eq_refl) E).
  - rewrite IH; [reflexivity|]. intros y Hy. apply H. right. exact Hy.
Qed.

Lemma remove_last ws conns :
  (forall x, In x conns -> WebSocket.client x <> WebSocket.client ws) ->
  ConnectionManager.remove (WebSocket.client ws) (conns ++ [ws]) = Some conns.
Proof.
  induction conns as [|x conns IH]; simpl; intros H.
  - rewrite Z.eqb_refl. reflexivity.
  - destruct (WebSocket.client x =? WebSocket.client ws) eqn:E.
    + apply Z.eqb_eq in E. exfalso. apply (H x (or_introl eq_refl) E).
    + rewrite IH; [reflexivity|]. intros y Hy. apply H. right. exact Hy.
Qed.

(** X9. Registration round trip: for a connection that is not registered
    yet, [connect] followed by [disconnect] leaves the manager as it was,
    and [disconnect] alone raises ([list.remove] on a missing element) and
    changes nothing. *)
Theorem connect_disconnect ws w :
  (forall x, In x (active_connections w) -> WebSocket.client x <> WebSocket.client ws) ->
  bind (ConnectionManager.connect ws) (fun _ => ConnectionManager.disconnect ws) w
  = (Return tt, w)
  /\ ConnectionManager.disconnect ws w = (Raise (Raised (OtherError "ValueError")), w).
Proof.
  intros H. split.
  - unfold bind, ConnectionManager.connect, ConnectionManager.disconnect,
      get_world, put_world. simpl. unfold bind. simpl.
    rewrite (remove_last ws _ H). destruct w; reflexivity.
  - unfold ConnectionManager.disconnect, bind, get_world. 
    rewrite (@remove_absent _ _ H). reflexivity.
Qed.

Lemma connect_disconnect_witness :
  ConnectionManager.disconnect (WebSocket.mk 3 true [])
    (open_session Demo.db0 Demo.observadores)
  = (Raise (Raised (OtherError "ValueError")),
     open_session Demo.db0 Demo.observadores).
Proof.
  apply (@connect_disconnect (WebSocket.mk 3 true [])
           (open_session Demo.db0 Demo.observadores)).
  intros x [<- | [<- | []]]; discriminate.
Defined.

(** Two observers behind a closed one, one observer before it. *)
Lemma send_all_stops_witness :
  ConnectionManager.send_all
    ([WebSocket.mk 1 true []]
       ++ WebSocket.mk 2 false [] :: [WebSocket.mk 3 true []; WebSocket.mk 4 true []])
    "hola"
  = (map (entregado "hola") [WebSocket.mk 1 true []]
       ++ WebSocket.mk 2 false [] :: [WebSocket.mk 3 true []; WebSocket.mk 4 true []],
     Some (OtherError "WebSocketDisconnect")).
Proof.
  apply (@send_all_stops "hola" [WebSocket.mk 1 true []] (WebSocket.mk 2 false [])
           [WebSocket.mk 3 true []; WebSocket.mk 4 true []] eq_refl eq_refl).
Defined.

(** ** The listing and the detail of the movements *)

(** A query under [except SQLAlchemyError]: answered, or turned into a 500,
    or left to an exception of another family. *)
Lemma try_exec_cases {A} env c (q : Db -> A) detail w :
  try_except (db_exec env c q) (except_sqlalchemy detail) w
  = match fault_at env c with
    | None => (Return (q (working w)), w)
    | Some (SQLAlchemyError _ _) =>
        (Raise (HTTPException HTTP_500_INTERNAL_SERVER_ERROR detail), w)
    | Some (OtherError msg) => (Raise (Raised (OtherError msg)), w)
    end.
Proof.
  destruct (fault_at env c) as [[cls orig|msg]|] eqn:E.
  - rewrite (try_Raise _ _ _ (db_exec_fault env _ _ _ E)). reflexivity.
  - rewrite (try_Raise _ _ _ (db_exec_fault env _ _ _ E)). reflexivity.
  - rewrite (try_Return _ _ _ (db_exec_ok env _ _ _ E)). reflexivity.
Qed.

(** The answers of the loop of [get_movements], row by row. *)
Lemma movements_response_shape env results w l w' :
  movements_response env results w = (Return l, w') ->
  w' = w
  /\ l = map (fun row =>
                movement_response (fst row) (User.nombre (snd row))
                  (select_lineas_ordered (Movement.id_mov (fst row)) (working w)))
             results.
Proof.
  revert l w'. induction results as [|[m u'] rest IH]; intros l w' H; simpl in H.
  - injection H as <- <-. auto.
  - unfold bind at 1 in H. rewrite try_exec_cases in H.
    destruct (fault_at env (SelectLineas (Movement.id_mov m))) as [[cls orig|msg]|];
      try discriminate H.
    unfold bind at 1 in H.
    destruct (movements_response env rest w) as [[others|e] w2] eqn:E; [|discriminate H].
    destruct (IH _ _ eq_refl) as [-> ->].
    unfold ret in H. injection H as <- <-. auto.
Qed.

(** The page and the total of a successful [get_movements]. *)
Lemma get_movements_shape env ilike q u w page w' :
  get_movements env ilike q u w = (Return page, w') ->
  let statement := movements_statement ilike q u (working w) in
  w' = w
  /\ page
     = mkPaginated
         (map (fun row =>
                 movement_response (fst row) (User.nombre (snd row))
                   (select_lineas_ordered (Movement.id_mov (fst row)) (working w)))
              (limit_offset (q_limit q) (q_offset q) (order_by fecha_desc statement)))
         (Z.of_nat (List.length statement)) (q_limit q) (q_offset q).
Proof.
  intros H statement. unfold get_movements in H.
  unfold bind at 1 in H.
  assert (E : try_except
                (results <-
                   db_exec env SelectMovements
                     (fun d => limit_offset (q_limit q) (q_offset q)
                                 (order_by fecha_desc (movements_statement ilike q u d))) ;;
                 total_records <-
                   db_exec env CountMovements
                     (fun d => Z.of_nat (List.length (movements_statement ilike q u d))) ;;
                 ret (results, total_records))
                (except_sqlalchemy ErrorDeConexion) w
              = match fault_at env SelectMovements, fault_at env CountMovements with
                | None, None =>
                    (Return (limit_offset (q_limit q) (q_offset q)
                               (order_by fecha_desc statement),
                             Z.of_nat (List.length statement)), w)
                | Some f, _ | None, Some f =>
                    except_sqlalchemy ErrorDeConexion (Raised f) w
                end).
  { unfold try_except, db_exec, db_call_point, bind, get_world, ret, raise.
    destruct (fault_at env SelectMovements); [reflexivity|].
    destruct (fault_at env CountMovements); reflexivity. }
  rewrite E in H. clear E.
  destruct (fault_at env SelectMovements) as [[cls orig|msg]|]; try discriminate H.
  destruct (fault_at env CountMovements) as [[cls orig|msg]|]; try discriminate H.
  unfold bind at 1 in H. simpl fst in H. simpl snd in H.
  destruct (movements_response env _ w) as [[l|e] w2] eqn:E2; [|discriminate H].
  apply movements_response_shape in E2. destruct E2 as [-> ->].
  unfold ret in H. injection H as <- <-. auto.
Qed.

(** Plain user 7 lists the movements of the store with movement 1. *)
Lemma get_movements_owned_witness :
  exists page,
    fst (get_movements Demo.env0 Demo.ilike_any Demo.todos Demo.eva
           (open_session Demo.db1 []))
    = Return page
    /\ forall r, In r (data page) -> MovementResponse.id_usuario r = 7.
Proof.
  eexists. split; [reflexivity|].
  apply (@get_movements_owned Demo.env0 Demo.ilike_any Demo.todos Demo.eva
           (open_session Demo.db1 []) _ (open_session Demo.db1 []) eq_refl eq_refl).
Defined.

(** X12. An admin who gives [usuario_id] (not 0) to [get_movements] is
    answered with movements of that user only. *)
Theorem get_movements_usuario_id env ilike q u w page w' i :
  is_admin_user u = true ->
  q_usuario_id q = Some i ->
  i <> 0 ->
  get_movements env ilike q u w = (Return page, w') ->
  forall r, In r (data page) -> MovementResponse.id_usuario r = i.
Proof.
  intros Hu Hq Hi H r Hr.
  apply get_movements_shape in H. destruct H as [_ ->]. simpl in Hr.
  apply in_map_iff in Hr. destruct Hr as (row & <- & Hin). simpl.
  apply limit_offset_In in Hin. apply order_by_In in Hin.
  unfold movements_statement in Hin. apply filter_In in Hin.
  destruct Hin as [_ Hw]. unfold movements_where in Hw.
  rewrite Hq, Hu in Hw. apply Z.eqb_neq in Hi. rewrite Hi in Hw. simpl in Hw.
  rewrite andb_true_r in Hw.
  apply andb_true_iff in Hw. destruct Hw as [_ Hw].
  apply Z.eqb_eq. exact Hw.
Qed.

Lemma get_movements_usuario_id_witness :
  exists page,
    fst (get_movements Demo.env0 Demo.ilike_any
           (mkMovementsQuery 10 0 None None None None (Some 7)) Demo.luis
           (open_session Demo.db1 []))
    = Return page
    /\ forall r, In r (data page) -> MovementResponse.id_usuario r = 7.
Proof.
  eexists. split; [reflexivity|].
  apply (@get_movements_usuario_id Demo.env0 Demo.ilike_any
           (mkMovementsQuery 10 0 None None None None (Some 7)) Demo.luis
           (open_session Demo.db1 []) _ (open_session Demo.db1 []) 7 eq_refl eq_refl).
  - discriminate.
  - reflexivity.
Defined.

Lemma insert_by_length {A} (before : A -> A -> bool) x l :
  List.length (insert_by before x l) = S (List.length l).
Proof.
  induction l as [|y l IH]; simpl; [reflexivity|].
  destruct (before x y); simpl; [reflexivity | rewrite IH; reflexivity].
Qed.

Lemma order_by_length {A} (before : A -> A -> bool) l :
  List.length (order_by before l) = List.length l.
Proof.
  induction l as [|x l IH]; simpl; [reflexivity|].
  rewrite insert_by_length, IH. reflexivity.
Qed.

Lemma limit_offset_length {A} limit offset (l : list A) :
  (List.length (limit_offset limit offset l) <= Z.to_nat limit)%nat
  /\ (List.length (limit_offset limit offset l) <= List.length l)%nat.
Proof.
  unfold limit_offset. rewrite length_firstn, length_skipn. lia.
Qed.

(** X13. The page of a successful [get_movements] holds at most [limit]
    movements, and [total] is the number of movements that pass the
    filters, whatever [limit] and [offset] are: it is never below the size
    of the page. *)
Theorem get_movements_page env ilike q u w page w' :
  get_movements env ilike q u w = (Return page, w') ->
  (List.length (data page) <= Z.to_nat (q_limit q))%nat
  /\ total page
     = Z.of_nat (List.length (movements_statement ilike q u (working w)))
  /\ Z.of_nat (List.length (data page)) <= total page.
Proof.
  intros H. apply get_movements_shape in H. destruct H as [_ ->]. simpl.
  rewrite length_map.
  pose proof (limit_offset_length (q_limit q) (q_offset q)
                (order_by fecha_desc (movements_statement ilike q u (working w))))
    as [H1 H2].
  rewrite order_by_length in H2.
  split; [exact H1|]. split; [reflexivity | lia].
Qed.

Lemma get_movements_page_witness :
  exists page,
    fst (get_movements Demo.env0 Demo.ilike_any Demo.todos Demo.luis
           (open_session Demo.db1 []))
    = Return page
    /\ (List.length (data page) <= Z.to_nat (q_limit Demo.todos))%nat.
Proof.
  eexists. split; [reflexivity|].
  apply (@get_movements_page Demo.env0 Demo.ilike_any Demo.todos Demo.luis
           (open_session Demo.db1 []) _ (open_session Demo.db1 []) eq_refl).
Defined.

(** X14. A [tipo] filter that is neither "entrada" nor "salida" is ignored
    by [get_movements]: the request runs as if no [tipo] had been given. *)
Theorem get_movements_unknown_tipo env ilike q u w t :
  q_tipo q = Some t ->
  t <> "entrada" ->
  t <> "salida" ->
  get_movements env ilike q u w
  = get_movements env ilike
      (mkMovementsQuery (q_limit q) (q_offset q) (q_search q) None
                        (q_fecha_desde q) (q_fecha_hasta q) (q_usuario_id q))
      u w.
Proof.
  intros Hq He Hs.
  assert (Hst : forall d,
             movements_statement ilike q u d
             = movements_statement ilike
                 (mkMovementsQuery (q_limit q) (q_offset q) (q_search q) None
                                   (q_fecha_desde q) (q_fecha_hasta q) (q_usuario_id q))
                 u d).
  { intros d. unfold movements_statement. apply filter_ext. intros r.
    unfold movements_where. simpl. rewrite Hq.
    apply String.eqb_neq in He. apply String.eqb_neq in Hs.
    rewrite He, Hs. reflexivity. }
  unfold get_movements, db_exec, db_call_point, try_except, bind, get_world, ret.
  simpl.
  destruct (fault_at env SelectMovements); [reflexivity|].
  destruct (fault_at env CountMovements); [reflexivity|].
  rewrite <- Hst. reflexivity.
Qed.

Lemma get_movements_unknown_tipo_witness :
  get_movements Demo.env0 Demo.ilike_any
    (mkMovementsQuery 10 0 None (Some "Entrada") None None None) Demo.luis
    (open_session Demo.db1 [])
  = get_movements Demo.env0 Demo.ilike_any Demo.todos Demo.luis
      (open_session Demo.db1 []).
Proof.
  apply (@get_movements_unknown_tipo Demo.env0 Demo.ilike_any
           (mkMovementsQuery 10 0 None (Some "Entrada") None None None) Demo.luis
           (open_session Demo.db1 []) "Entrada" eq_refl); discriminate.
Defined.

(** X15. The answer of a successful [get_movement] is the movement asked
    for: it carries the identifier of the request, each of its lines
    carries that identifier, and for a plain user it is a movement of
    their own. *)
Theorem get_movement_answer env id_mov u w r w' :
  get_movement env id_mov u w = (Return r, w') ->
  MovementResponse.id_mov r = id_mov
  /\ (forall l, In l (MovementResponse.lineas r) ->
                MovementLineResponse.id_mov l = id_mov)
  /\ (is_admin_user u = false -> MovementResponse.id_usuario r = User.id u).
Proof.
  intros H. unfold get_movement in H.
  unfold bind at 1 in H. rewrite try_exec_cases in H.
  destruct (fault_at env SelectMovement) as [[cls orig|msg]|]; try discriminate H.
  destruct (select_movement id_mov (working w)) as [m|] eqn:Em; [|discriminate H].
  unfold select_movement in Em. apply find_some in Em. destruct Em as [_ Em].
  apply Z.eqb_eq in Em.
  unfold bind at 1 in H.
  destruct (negb (is_admin_user u) && negb (Movement.id_usuario m =? User.id u))
    eqn:Eo; [discriminate H|].
  unfold ret at 1 in H. unfold bind at 1 in H. rewrite try_exec_cases in H.
  destruct (fault_at env SelectNombreUsuario) as [[cls orig|msg]|]; try discriminate H.
  unfold bind at 1 in H. rewrite try_exec_cases in H.
  destruct (fault_at env (SelectLineas (Movement.id_mov m))) as [[cls orig|msg]|];
    try discriminate H.
  unfold ret in H. injection H as <- <-. simpl.
  split; [exact Em|]. split.
  - intros l Hl. apply in_map_iff in Hl. destruct Hl as (x & <- & Hx). simpl.
    unfold select_lineas in Hx. apply filter_In in Hx. destruct Hx as [_ Hx].
    apply Z.eqb_eq in Hx. congruence.
  - intros Hu. rewrite Hu in Eo. simpl in Eo.
    apply negb_false_iff in Eo. apply Z.eqb_eq. exact Eo.
Qed.

Lemma get_movement_answer_witness :
  exists r,
    fst (get_movement Demo.env0 1 Demo.eva (open_session Demo.db1 [])) = Return r
    /\ MovementResponse.id_mov r = 1.
Proof.
  eexists. split; [reflexivity|].
  apply (@get_movement_answer Demo.env0 1 Demo.eva (open_session Demo.db1 []) _
           (open_session Demo.db1 []) eq_refl).
Defined.

(** ** The count of the movements by type *)

Lemma count_occ_map_filter {A} (f : A -> string) (t : string) (l : list A) :
  count_occ string_dec (map f l) t
  = List.length (filter (fun x => String.eqb (f x) t) l).
Proof.
  induction l as [|x l IH]; simpl; [reflexivity|].
  destruct (string_dec (f x) t) as [E | E].
  - apply String.eqb_eq in E. rewrite E. simpl. rewrite IH. reflexivity.
  - apply String.eqb_neq in E. rewrite E. exact IH.
Qed.

(** The dictionary after the loop over the groups: the count of each of the
    two keys, or what it held when the key has no group. *)
Lemma conteo_set_groups (f : string -> Z) (l : list string) e0 s0 :
  fold_left conteo_set (map (fun k => (k, f k)) l) (e0, s0)
  = (if in_dec string_dec "entrada" l then f "entrada" else e0,
     if in_dec string_dec "salida" l then f "salida" else s0).
Proof.
  revert e0 s0. induction l as [|k l IH]; intros e0 s0; simpl; [reflexivity|].
  unfold conteo_set at 2. simpl.
  destruct (String.eqb k "entrada") eqn:Ee.
  - apply String.eqb_eq in Ee. subst k. rewrite IH.
    destruct (string_dec "entrada" "entrada") as [Y|N]; [|contradiction].
    destruct (string_dec "entrada" "salida") as [D|Y']; [discriminate D|].
    destruct (in_dec string_dec "entrada" l); destruct (in_dec string_dec "salida" l);
      reflexivity.
  - apply String.eqb_neq in Ee.
    destruct (String.eqb k "salida") eqn:Es.
    + apply String.eqb_eq in Es. subst k. rewrite IH.
      destruct (string_dec "salida" "salida") as [Y|N]; [|contradiction].
      destruct (string_dec "salida" "entrada") as [D|Y']; [discriminate D|].
      destruct (in_dec string_dec "entrada" l); destruct (in_dec string_dec "salida" l);
        reflexivity.
    + apply String.eqb_neq in Es. rewrite IH.
      destruct (string_dec k "entrada") as [D|Y]; [contradiction|].
      destruct (string_dec k "salida") as [D|Y']; [contradiction|].
      destruct (in_dec string_dec "entrada" l); destruct (in_dec string_dec "salida" l);
        reflexivity.
Qed.

Lemma conteo_group_by_count keys :
  fold_left conteo_set (group_by_count keys) (0, 0)
  = (Z.of_nat (count_occ string_dec keys "entrada"),
     Z.of_nat (count_occ string_dec keys "salida")).
Proof.
  unfold group_by_count.
  rewrite (conteo_set_groups (fun k => Z.of_nat (count_occ string_dec keys k))).
  f_equal.
  - destruct (in_dec string_dec "entrada" (nodup string_dec keys)) as [_|N];
      [reflexivity|].
    rewrite nodup_In in N. apply (count_occ_not_In string_dec) in N.
    rewrite N. reflexivity.
  - destruct (in_dec string_dec "salida" (nodup string_dec keys)) as [_|N];
      [reflexivity|].
    rewrite nodup_In in N. apply (count_occ_not_In string_dec) in N.
    rewrite N. reflexivity.
Qed.

(** With one user per movement the join keeps the movements as they are. *)
Lemma join_users_movements d :
  cada_movimiento_un_usuario d = true ->
  map fst (movements_join_users d) = movimientos d.
Proof.
  unfold cada_movimiento_un_usuario, movements_join_users.
  induction (movimientos d) as [|m ms IH]; simpl; [reflexivity|].
  intros H. apply andb_true_iff in H. destruct H as [H1 H2].
  rewrite map_app, (IH H2).
  destruct (filter (fun u => Movement.id_usuario m =? User.id u) (usuario d))
    as [|u0 [|u1 us]]; try discriminate H1.
  reflexivity.
Qed.

Lemma filter_map_fst {A B} (p : A -> bool) (l : list (A * B)) :
  map fst (filter (fun r => p (fst r)) l) = filter p (map fst l).
Proof.
  induction l as [|x l IH]; simpl; [reflexivity|].
  destruct (p (fst x)); simpl; rewrite IH; reflexivity.
Qed.

Lemma filter_twice {A} (p q : A -> bool) (l : list A) :
  filter p (filter q l) = filter (fun x => q x && p x) l.
Proof.
  induction l as [|x l IH]; simpl; [reflexivity|].
  destruct (q x); simpl; [destruct (p x); rewrite IH; reflexivity | exact IH].
Qed.

(** X16. [contar_movimientos_por_tipo] answers, when its query is answered
    and every movement has its one user, with the number of inbound and of
    outbound movements the caller may see: all of them for an admin, their
    own for a plain user; movements of another type are not counted. *)
Theorem contar_movimientos_por_tipo_counts fallo u w :
  fallo QContarPorTipo = None ->
  cada_movimiento_un_usuario (working w) = true ->
  contar_movimientos_por_tipo fallo u w
  = (Return [("Entrada", movimientos_visibles u "entrada" (working w));
             ("Salida", movimientos_visibles u "salida" (working w))], w).
Proof.
  intros Hf Hu. unfold contar_movimientos_por_tipo, try_except, bind, db_exec_or.
  rewrite Hf. unfold bind, get_world, ret.
  rewrite conteo_group_by_count. simpl.
  assert (E : forall t,
             Z.of_nat (count_occ string_dec (tipos_visibles u (working w)) t)
             = movimientos_visibles u t (working w)).
  { intros t. unfold tipos_visibles, movimientos_visibles.
    rewrite <- (map_map fst Movement.tipo), count_occ_map_filter.
    rewrite filter_map_fst, (join_users_movements _ Hu).
    rewrite filter_twice. reflexivity. }
  rewrite !E. reflexivity.
Qed.

Lemma contar_movimientos_por_tipo_counts_witness :
  contar_movimientos_por_tipo Ejemplos.sin_fallos Demo.eva (open_session Demo.db1 [])
  = (Return [("Entrada", 0); ("Salida", 1)], open_session Demo.db1 []).
Proof.
  apply (@contar_movimientos_por_tipo_counts Ejemplos.sin_fallos Demo.eva
           (open_session Demo.db1 []) eq_refl eq_refl).
Defined.

(** ** The movements of the last year *)

Lemma insert_by_In_iff {A} (before : A -> A -> bool) x y l :
  In y (insert_by before x l) <-> y = x \/ In y l.
Proof.
  split; [apply insert_by_In|].
  induction l as [|z l IH]; simpl.
  - intros [-> | []]. left. reflexivity.
  - destruct (before x z); simpl.
    + intros [-> | [-> | H]]; auto.
    + intros [-> | [-> | H]]; auto.
Qed.

Lemma order_by_In_iff {A} (before : A -> A -> bool) y l :
  In y (order_by before l) <-> In y l.
Proof.
  induction l as [|x l IH]; simpl; [tauto|].
  rewrite insert_by_In_iff, IH. split; intros [H | H]; auto.
Qed.

(** X17. [get_movements_last_year] answers, without paging, with exactly
    the movements dated from one year before the end of today up to the
    end of today that the caller may see: all of them for an admin, their
    own for a plain user. *)
Theorem get_movements_last_year_rows env fallo fin_del_dia menos_un_ano u w rows w' :
  get_movements_last_year env fallo fin_del_dia menos_un_ano u w = (Return rows, w') ->
  forall g,
    In g rows
    <-> exists m,
          In m (movimientos (working w))
          /\ g = mkMovementLastyearGraph (Movement.id_mov m) (Movement.id_usuario m)
                   (Movement.fecha m) (Movement.tipo m)
          /\ menos_un_ano (fin_del_dia (today env)) <= Movement.fecha m
             <= fin_del_dia (today env)
          /\ (is_admin_user u = false -> Movement.id_usuario m = User.id u).
Proof.
  intros H g. unfold get_movements_last_year in H.
  unfold bind, try_except, db_exec_or in H.
  destruct (fallo QUltimoAno) as [[cls orig|msg]|]; try discriminate H.
  unfold bind, get_world, ret in H. injection H as <- _.
  rewrite in_map_iff. split.
  - intros (m & <- & Hm). apply order_by_In_iff in Hm. apply filter_In in Hm.
    destruct Hm as [Hin Hp]. exists m.
    apply andb_true_iff in Hp. destruct Hp as [Hp Hv].
    apply andb_true_iff in Hp. destruct Hp as [H1 H2].
    apply Z.leb_le in H1, H2.
    split; [exact Hin|]. split; [reflexivity|]. split; [lia|].
    intros Hu. unfold visible in Hv. rewrite Hu in Hv. simpl in Hv.
    apply Z.eqb_eq. exact Hv.
  - intros (m & Hin & -> & [H1 H2] & Hu). exists m. split; [reflexivity|].
    apply order_by_In_iff. apply filter_In. split; [exact Hin|].
    apply Z.leb_le in H1, H2. rewrite H1, H2. simpl.
    unfold visible. destruct (is_admin_user u); simpl; [reflexivity|].
    apply Z.eqb_eq. apply Hu. reflexivity.
Qed.

Lemma get_movements_last_year_rows_witness :
  get_movements_last_year Demo.env0 Ejemplos.sin_fallos Ejemplos.fin_del_dia
    Ejemplos.menos_un_ano Demo.eva (open_session Demo.db1 [])
  = (Return [mkMovementLastyearGraph 1 7 1728000000 "salida"],
     open_session Demo.db1 [])
  /\ forall g,
       In g [mkMovementLastyearGraph 1 7 1728000000 "salida"]
       <-> exists m,
             In m (movimientos Demo.db1)
             /\ g = mkMovementLastyearGraph (Movement.id_mov m) (Movement.id_usuario m)
                      (Movement.fecha m) (Movement.tipo m)
             /\ Ejemplos.menos_un_ano (Ejemplos.fin_del_dia (today Demo.env0))
                <= Movement.fecha m <= Ejemplos.fin_del_dia (today Demo.env0)
             /\ (is_admin_user Demo.eva = false
                 -> Movement.id_usuario m = User.id Demo.eva).
Proof.
  split; [reflexivity|].
  apply (@get_movements_last_year_rows Demo.env0 Ejemplos.sin_fallos
           Ejemplos.fin_del_dia Ejemplos.menos_un_ano Demo.eva
           (open_session Demo.db1 []) _ (open_session Demo.db1 []) eq_refl).
Defined.

(** ** The expiration semaphore *)

(** The three tests of the semaphore split the stock that is not past its
    date. *)
Lemma semaforo_split hoy en_1_mes en_6_meses (l : list Stock.t) :
  hoy <= en_1_mes -> en_1_mes <= en_6_meses ->
  fold_right Z.add 0
    (map Stock.cantidad
       (filter (fun s => match Stock.fecha_cad s with
                         | Some f => (hoy <? f) && (f <=? en_1_mes)
                         | None => false
                         end) l))
  + fold_right Z.add 0
      (map Stock.cantidad
         (filter (fun s => match Stock.fecha_cad s with
                           | Some f => (en_1_mes <? f) && (f <=? en_6_meses)
                           | None => false
                           end) l))
  + fold_right Z.add 0
      (map Stock.cantidad
         (filter (fun s => match Stock.fecha_cad s with
                           | Some f => en_6_meses <? f
                           | None => true
                           end) l))
  = fold_right Z.add 0 (map Stock.cantidad (filter (no_caducado hoy) l)).
Proof.
  intros H1 H6. induction l as [|s l IH]; simpl; [reflexivity|].
  unfold no_caducado at 1.
  destruct (Stock.fecha_cad s) as [f|]; simpl.
  - destruct (Z.ltb_spec hoy f), (Z.leb_spec f en_1_mes), (Z.ltb_spec en_1_mes f),
      (Z.leb_spec f en_6_meses), (Z.ltb_spec en_6_meses f);
      simpl; try lia.
  - lia.
Qed.

(** X18. The three numbers of [get_stock_status_semaforo] add up to the
    units of the stock rows that are undated or dated after today: a row
    dated today or before is in none of the three, and every other row is
    in exactly one (the month offsets being on or after the day they are
    taken from, in order). *)
Theorem semaforo_partition env fallo mas_meses w s w' :
  today env <= mas_meses (today env) 1 ->
  mas_meses (today env) 1 <= mas_meses (today env) 6 ->
  get_stock_status_semaforo env fallo mas_meses w = (Return s, w') ->
  caduca_ya s + caduca_proximamente s + no_caduca s
  = unidades (no_caducado (today env)) (working w).
Proof.
  intros H1 H6 H. unfold get_stock_status_semaforo in H.
  unfold try_except, bind, db_exec_or in H.
  destruct (fallo QCaducaYa) as [[cls orig|msg]|]; try discriminate H.
  unfold bind, get_world, ret in H.
  destruct (fallo QCaducaProximamente) as [[cls orig|msg]|]; try discriminate H.
  destruct (fallo QNoCaduca) as [[cls orig|msg]|]; try discriminate H.
  injection H as <- _. simpl. unfold suma_stock, unidades.
  apply semaforo_split; assumption.
Qed.

(** Four expired units, six due within the month and nine undated. *)
Lemma semaforo_partition_witness :
  6 + 0 + 9 = unidades (no_caducado (today Demo.env0)) Ejemplos.db_lotes.
Proof.
  apply (@semaforo_partition Demo.env0 Ejemplos.sin_fallos Ejemplos.mas_meses
           (open_session Ejemplos.db_lotes []) (mkSemaforo 6 0 9)
           (open_session Ejemplos.db_lotes [])).
  - simpl. unfold Ejemplos.mas_meses. lia.
  - simpl. unfold Ejemplos.mas_meses. lia.
  - reflexivity.
Defined.

(** ** The stock of a warehouse *)

(** X19. A successful [get_stock_by_warehouse] answers with rows of the
    warehouse asked for, at most [limit] of them, and its [total] is the
    number of rows of the page, not of the warehouse: the count is taken
    over the statement that already carries the limit and the offset. *)
Theorem get_stock_by_warehouse_page fallo lote_le codigo limit offset w page w' :
  get_stock_by_warehouse fallo lote_le codigo limit offset w = (Return page, w') ->
  total page = Z.of_nat (List.length (data page))
  /\ (List.length (data page) <= Z.to_nat limit)%nat
  /\ forall r, In r (data page) ->
               r_codigo_almacen r = codigo /\ stock_response_valido r = true.
Proof.
  intros H. unfold get_stock_by_warehouse in H.
  unfold bind at 1 in H. unfold try_except, bind, db_exec_or in H.
  destruct (fallo QStockAlmacen) as [[cls orig|msg]|]; try discriminate H.
  unfold bind, get_world, ret in H.
  destruct (fallo QContarStockAlmacen) as [[cls orig|msg]|]; try discriminate H.
  simpl in H.
  destruct (forallb stock_response_valido
              (stock_almacen_statement lote_le codigo limit offset (working w)))
    eqn:Ev; [|discriminate H].
  injection H as <- _. simpl.
  split; [reflexivity|]. split.
  - apply limit_offset_length.
  - intros r Hr. split.
    + unfold stock_almacen_statement in Hr.
      apply limit_offset_In in Hr. apply order_by_In in Hr.
      apply filter_In in Hr. destruct Hr as [_ Hr]. apply Z.eqb_eq. exact Hr.
    + rewrite forallb_forall in Ev. apply Ev. exact Hr.
Qed.

(** Three lots in warehouse 1, asked two at a time: the total is 2. *)
Lemma get_stock_by_warehouse_page_witness :
  exists page,
    fst (get_stock_by_warehouse Ejemplos.sin_fallos Ejemplos.lote_le 1 2 0
           (open_session Ejemplos.db_lotes []))
    = Return page
    /\ List.length (stock Ejemplos.db_lotes) = 3%nat
    /\ total page = 2.
Proof.
  eexists. split; [reflexivity|]. split; [reflexivity|].
  apply (@get_stock_by_warehouse_page Ejemplos.sin_fallos Ejemplos.lote_le 1 2 0
           (open_session Ejemplos.db_lotes []) _ (open_session Ejemplos.db_lotes [])
           eq_refl).
Defined.

(** ** Updating and deactivating warehouses *)

(** The test made before a warehouse is deactivated returns, or raises,
    and leaves the session alone. *)
Lemma stock_guard env codigo w :
  let guard :=
    try_except
      (stock <- db_exec env SelectStock (select_stock_first codigo) ;;
       match stock with
       | Some _ => raise (HTTPException HTTP_403_FORBIDDEN (AlmacenNoVacio codigo))
       | None => ret tt
       end)
      (except_sqlalchemy ErrorDeConexion) in
  guard w = (Return tt, w) \/ exists e, guard w = (Raise e, w).
Proof.
  intros guard. subst guard.
  unfold try_except, bind, db_exec, db_call_point, get_world, ret, raise.
  destruct (fault_at env SelectStock) as [[cls orig|msg]|]; simpl;
    try (right; eexists; reflexivity).
  destruct (select_stock_first codigo (working w));
    [right; eexists; reflexivity | left; reflexivity].
Qed.

(** What a successful [update_warehouse] has done. *)
Lemma update_warehouse_Return env codigo upd db conns r w' :
  update_warehouse env codigo upd (open_session db conns) = (Return r, w') ->
  exists a,
    get_warehouse_row codigo db = Some a
    /\ r = Warehouse.mk (Warehouse.codigo a)
             (if Py.truthy_str (u_descripcion upd)
              then Py.or_str (u_descripcion upd) "" else Warehouse.descripcion a)
             (match u_activo upd with
              | Some b => b
              | None => Warehouse.activo a
              end)
    /\ committed w' = write_warehouse db r.
Proof.
  unfold update_warehouse, open_session. intros H.
  unfold bind at 1 in H. rewrite try_exec_cases in H. simpl working in H.
  destruct (fault_at env GetWarehouse) as [[cls orig|msg]|]; try discriminate H.
  destruct (get_warehouse_row codigo db) as [a|]; [|discriminate H].
  exists a. split; [reflexivity|].
  unfold bind at 1 in H.
  destruct (u_activo upd) as [[|]|] eqn:Hu.
  - unfold ret at 1 in H.
    unfold bind, db_add_warehouse, db_commit, db_call_point, get_world, put_world,
      ret, raise in H. simpl in H.
    destruct (fault_at env Commit); [discriminate H|]. simpl in H.
    destruct (fault_at env Refresh); [discriminate H|].
    injection H as <- <-. simpl.
    destruct (Py.truthy_str (u_descripcion upd)); destruct a; split; reflexivity.
  - destruct (stock_guard env codigo (mkWorld db db [] conns [] []))
      as [Hg | (e & Hg)]; cbv zeta in Hg; rewrite Hg in H; [|discriminate H].
    unfold bind, db_add_warehouse, db_commit, db_call_point, get_world, put_world,
      ret, raise in H. simpl in H.
    destruct (fault_at env Commit); [discriminate H|]. simpl in H.
    destruct (fault_at env Refresh); [discriminate H|].
    injection H as <- <-. simpl.
    destruct (Py.truthy_str (u_descripcion upd)); destruct a; split; reflexivity.
  - unfold ret at 1 in H.
    unfold bind, db_add_warehouse, db_commit, db_call_point, get_world, put_world,
      ret, raise in H. simpl in H.
    destruct (fault_at env Commit); [discriminate H|]. simpl in H.
    destruct (fault_at env Refresh); [discriminate H|].
    injection H as <- <-. simpl.
    destruct (Py.truthy_str (u_descripcion upd)); destruct a; split; reflexivity.
Qed.

Lemma find_write_warehouse codigo a r l :
  find (fun x => Warehouse.codigo x =? codigo) l = Some a ->
  Warehouse.codigo r = codigo ->
  find (fun x => Warehouse.codigo x =? codigo)
       (map (fun x => if Warehouse.codigo x =? Warehouse.codigo r then r else x) l)
  = Some r.
Proof.
  intros Hf Hr. subst codigo.
  induction l as [|x l IH]; simpl in *; [discriminate Hf|].
  destruct (Warehouse.codigo x =? Warehouse.codigo r) eqn:E.
  - rewrite Z.eqb_refl. reflexivity.
  - rewrite E. apply IH. exact Hf.
Qed.

(** X20. After a successful [update_warehouse], [db.get] on the same code
    finds the row that was answered; that row carries the code and the
    [activo] value of the request; the other warehouses and the other
    tables are as they were. *)
Theorem update_warehouse_round_trip env codigo upd db conns r w' :
  update_warehouse env codigo upd (open_session db conns) = (Return r, w') ->
  get_warehouse_row codigo (committed w') = Some r
  /\ Warehouse.codigo r = codigo
  /\ (forall b, u_activo upd = Some b -> Warehouse.activo r = b)
  /\ (forall x, Warehouse.codigo x <> codigo ->
                (In x (almacen (committed w')) <-> In x (almacen db)))
  /\ usuario (committed w') = usuario db
  /\ producto (committed w') = producto db
  /\ stock (committed w') = stock db
  /\ movimientos (committed w') = movimientos db
  /\ movimientos_lineas (committed w') = movimientos_lineas db.
Proof.
  intros H. apply update_warehouse_Return in H.
  destruct H as (a & Ha & Hr & ->).
  assert (Hc : Warehouse.codigo r = codigo).
  { rewrite Hr. simpl. unfold get_warehouse_row in Ha.
    apply find_some in Ha. destruct Ha as [_ Ha]. apply Z.eqb_eq. exact Ha. }
  split.
  { unfold get_warehouse_row, write_warehouse. simpl.
    apply (find_write_warehouse _ _ Ha Hc). }
  split; [exact Hc|].
  split.
  { intros b Hb. rewrite Hr, Hb. reflexivity. }
  split; [|repeat split].
  intros x Hx. unfold write_warehouse. simpl. rewrite in_map_iff. split.
  - intros (y & Hy & Hin).
    destruct (Warehouse.codigo y =? Warehouse.codigo r) eqn:E.
    + subst x. contradiction.
    + subst y. exact Hin.
  - intros Hin. exists x. split; [|exact Hin].
    destruct (Warehouse.codigo x =? Warehouse.codigo r) eqn:E; [|reflexivity].
    apply Z.eqb_eq in E. congruence.
Qed.

(** Warehouse 1 of the demo store gets a new description. *)
Lemma update_warehouse_round_trip_witness :
  get_warehouse_row 1
    (committed (snd (update_warehouse Demo.env0 1
                       (mkWarehouseUpdate (Some "Principal") None)
                       (open_session Demo.db0 []))))
  = Some (Warehouse.mk 1 "Principal" true).
Proof.
  apply (@update_warehouse_round_trip Demo.env0 1
           (mkWarehouseUpdate (Some "Principal") None) Demo.db0 []
           (Warehouse.mk 1 "Principal" true) _ eq_refl).
Defined.

(** X21. Once [update_warehouse] has deactivated a warehouse, no movement
    with a line on that warehouse can be recorded: [create_movement] on the
    resulting store, by anyone and whatever the rest of the submission,
    ends in an error and writes nothing. *)
Theorem deactivated_warehouse_rejected
        env codigo upd db conns r w' env2 md u conns2 linea :
  update_warehouse env codigo upd (open_session db conns) = (Return r, w') ->
  u_activo upd = Some false ->
  In linea (MovementCreate.lineas md) ->
  MovementLineCreate.codigo_almacen linea = codigo ->
  store_after (create_movement env2 md u (open_session (committed w') conns2))
  = committed w'
  /\ exists e,
       fst (create_movement env2 md u (open_session (committed w') conns2)) = Raise e.
Proof.
  intros H Hu Hl Hc.
  apply update_warehouse_Return in H. destruct H as (a & Ha & Hr & Hw).
  assert (Hrc : Warehouse.codigo r = codigo).
  { rewrite Hr. simpl. unfold get_warehouse_row in Ha.
    apply find_some in Ha. destruct Ha as [_ Ha]. apply Z.eqb_eq. exact Ha. }
  assert (Hra : Warehouse.activo r = false).
  { rewrite Hr, Hu. reflexivity. }
  unfold store_after.
  destruct (create_movement_traza env2 (committed w') conns2 md u)
    as (res & w2 & -> & T).
  simpl.
  destruct T as [(e & _ & -> & E) | [(_ & E & T) | (_ & _ & _ & HdA & _)]].
  - split; [exact E | eauto].
  - split; [exact E|].
    destruct T as [[-> _] | [[-> _] | [[msg ->] | ->]]]; eauto.
  - exfalso.
    pose proof (set_diff_nil_almacenes _ _ HdA codigo) as Hact.
    assert (Hin : In codigo (map MovementLineCreate.codigo_almacen
                                 (MovementCreate.lineas md))).
    { rewrite <- Hc. apply in_map. exact Hl. }
    destruct (Hact Hin) as (x & Hx & Hxc & Hxa).
    rewrite Hw in Hx. unfold write_warehouse in Hx. simpl in Hx.
    apply in_map_iff in Hx. destruct Hx as (y & Hy & _).
    destruct (Warehouse.codigo y =? Warehouse.codigo r) eqn:E.
    + subst x. congruence.
    + subst y. apply Z.eqb_neq in E. congruence.
Qed.

(** Warehouse 1 of the store without stock is deactivated, then asked for. *)
Lemma deactivated_warehouse_rejected_witness :
  store_after
    (create_movement Demo.env0 Demo.salida7 Demo.luis
       (open_session
          (write_warehouse Demo.db1 (Warehouse.mk 1 "Central" false)) []))
  = write_warehouse Demo.db1 (Warehouse.mk 1 "Central" false).
Proof.
  apply (@deactivated_warehouse_rejected Demo.env0 1 Demo.inactivar Demo.db1 []
           (Warehouse.mk 1 "Central" false)
           (mkWorld (write_warehouse Demo.db1 (Warehouse.mk 1 "Central" false))
                    (write_warehouse Demo.db1 (Warehouse.mk 1 "Central" false))
                    [] [] [] [])
           Demo.env0 Demo.salida7 Demo.luis []
           (Demo.linea 1 100 None None 5) eq_refl eq_refl (or_introl eq_refl) eq_refl).
Defined.

(** ** The bulk change of state *)

Lemma write_warehouse_keeps d a' x :
  Warehouse.codigo x <> Warehouse.codigo a' ->
  In x (almacen d) -> In x (almacen (write_warehouse d a')).
Proof.
  intros Hne Hin. unfold write_warehouse. simpl. apply in_map_iff.
  exists x. split; [|exact Hin].
  destruct (Warehouse.codigo x =? Warehouse.codigo a') eqn:E; [|reflexivity].
  apply Z.eqb_eq in E. contradiction.
Qed.

(** The loop of the bulk deactivation: it publishes nothing, leaves the
    stock and the pending lines alone, and keeps the row of every
    warehouse whose stock adds up to more than zero. *)
Lemma cambiar_estados_keeps env ls w :
  let out := cambiar_estados env ls false w in
  committed (snd out) = committed w
  /\ session_new (snd out) = session_new w
  /\ stock (working (snd out)) = stock (working w)
  /\ forall a, In a (almacen (working w)) ->
               0 < sum_stock (Warehouse.codigo a) (working w) ->
               In a (almacen (working (snd out))).
Proof.
  revert w. induction ls as [|alm ls IH]; intros w; simpl.
  - auto.
  - destruct (Bool.eqb (Warehouse.activo alm) false); [apply IH|].
    unfold bind at 1. unfold bind at 1.
    unfold db_exec, db_call_point, bind, get_world, ret, raise.
    destruct (fault_at env (SumStock (Warehouse.codigo alm))) as [f|]; simpl.
    { auto. }
    destruct (0 <? sum_stock (Warehouse.codigo alm) (working w)) eqn:Es.
    { apply IH. }
    apply Z.ltb_ge in Es.
    unfold db_add_warehouse, bind, get_world, put_world. simpl.
    set (a' := Warehouse.mk (Warehouse.codigo alm)
                            (Warehouse.descripcion alm) false).
    set (w1 := set_working w (write_warehouse (working w) a')).
    specialize (IH w1). cbv zeta in IH.
    destruct (cambiar_estados env ls false w1) as [[others|e] w2]; simpl in *;
      destruct IH as (H1 & H2 & H3 & H4); (split; [exact H1|]);
      (split; [exact H2|]); (split; [exact H3|]);
      intros a Ha Hs;
      (apply H4;
       [ change (In a (almacen (write_warehouse (working w) a')));
         apply write_warehouse_keeps; [|exact Ha];
         intros E; simpl in E; rewrite E in Hs; lia
       | exact Hs ]).
Qed.

(** X22. The bulk deactivation never touches a warehouse whose stock adds
    up to more than zero: whatever the codes asked for and whatever the
    outcome of the request, the row of such a warehouse is in the store
    afterwards as it was before. *)
Theorem bulk_keeps_stocked env data db conns a :
  b_activo data = false ->
  In a (almacen db) ->
  0 < sum_stock (Warehouse.codigo a) db ->
  In a (almacen (store_after (cambiar_estado_masivo_almacenes env data
                                (open_session db conns)))).
Proof.
  intros Hb Ha Hs. unfold store_after, cambiar_estado_masivo_almacenes, open_session.
  rewrite Hb.
  unfold bind at 1. unfold try_except. unfold bind at 1.
  unfold db_exec, db_call_point, bind at 1, get_world, ret.
  destruct (fault_at env SelectWarehouses) as [[cls orig|msg]|]; simpl;
    try exact Ha.
  unfold bind at 1. simpl.
  pose proof (cambiar_estados_keeps env
                (filter (fun x => Py.mem (Warehouse.codigo x) (codigos data)) (almacen db))
                (mkWorld db db [] conns [] [])) as K.
  cbv zeta in K.
  destruct (cambiar_estados env _ false (mkWorld db db [] conns [] []))
    as [[actualizados|e] w1]; simpl in K; destruct K as (K1 & K2 & K3 & K4).
  - unfold bind, db_commit, db_call_point, get_world, put_world, ret, raise.
    destruct (fault_at env Commit) as [f|]; simpl; [rewrite K1; exact Ha|].
    unfold bind. simpl. rewrite K2. simpl. apply K4; assumption.
  - destruct e as [c d|[cls orig|msg]]; simpl;
      unfold bind, db_rollback, get_world, put_world, raise; simpl;
      rewrite ?K1; exact Ha.
Qed.

(** Warehouse 3 holds twelve units and is asked to be deactivated. *)
Lemma bulk_keeps_stocked_witness :
  In (Warehouse.mk 3 "Sur" true)
     (almacen (store_after (cambiar_estado_masivo_almacenes Demo.env0
                              (mkBulkEstadoUpdate [1; 3] false)
                              (open_session Ejemplos.db_con_unidades [])))).
Proof.
  apply (@bulk_keeps_stocked Demo.env0 (mkBulkEstadoUpdate [1; 3] false)
           Ejemplos.db_con_unidades [] (Warehouse.mk 3 "Sur" true) eq_refl).
  - right. left. reflexivity.
  - reflexivity.
Defined.

(** ** Deleting a warehouse *)

(** X23. [deactivate_warehouse] never deletes a warehouse that a movement
    line refers to: the request ends without an answer and leaves the
    session as it was, and once its two reads are answered and the
    warehouse exists the error is the 400 that says it has movements. *)
Theorem deactivate_warehouse_referenced fallo codigo w l :
  In l (movimientos_lineas (working w)) ->
  MovementLine.codigo_almacen l = codigo ->
  snd (deactivate_warehouse fallo codigo w) = w
  /\ (forall r, fst (deactivate_warehouse fallo codigo w) <> Answer r)
  /\ (fallo TGetWarehouse = None ->
      fallo TSelectMovementLine = None ->
      get_warehouse_row codigo (working w) <> None ->
      fst (deactivate_warehouse fallo codigo w)
      = HTTPError HTTP_400_BAD_REQUEST
          "No se puede eliminar este almacén ya que tiene movimientos registrados.").
Proof.
  intros Hl Hc.
  assert (Hm : exists l', select_movement_line codigo (working w) = Some l').
  { unfold select_movement_line. apply (find_In_some _ _ l Hl).
    apply Z.eqb_eq. exact Hc. }
  destruct Hm as (l' & Hm).
  unfold deactivate_warehouse, and_then, query_or, http_error, answer.
  destruct (fallo TGetWarehouse) as [[cls orig|msg]|]; simpl;
    try (repeat split; [discriminate | intros E; discriminate E]).
  destruct (get_warehouse_row codigo (working w)) as [a|]; simpl.
  2:{ repeat split; [discriminate | intros _ _ E; contradiction]. }
  destruct (fallo TSelectMovementLine) as [[cls orig|msg]|]; simpl;
    try (repeat split; [discriminate | intros _ E; discriminate E]).
  rewrite Hm. simpl. repeat split. discriminate.
Qed.

(** Warehouse 1 of the store that holds movement 1. *)
Lemma deactivate_warehouse_referenced_witness :
  snd (deactivate_warehouse (fun _ => None) 1 (open_session Demo.db1 []))
  = open_session Demo.db1 [].
Proof.
  apply (@deactivate_warehouse_referenced (fun _ => None) 1
           (open_session Demo.db1 [])
           (MovementLine.mk 1 1 1 100 "SIN_LOTE" None 5)
           (or_introl eq_refl) eq_refl).
Defined.

(** X24. A [deactivate_warehouse] that answers has deleted the warehouse
    it answers with: no row of that code is left, no movement line and no
    stock row referred to it, and every other warehouse is kept. *)
Theorem deactivate_warehouse_deleted fallo codigo db conns r w' :
  deactivate_warehouse fallo codigo (open_session db conns) = (Answer r, w') ->
  get_warehouse_row codigo db = Some r
  /\ get_warehouse_row codigo (committed w') = None
  /\ (forall l, In l (movimientos_lineas db) ->
                MovementLine.codigo_almacen l <> codigo)
  /\ (forall s, In s (stock db) -> Stock.codigo_almacen s <> codigo)
  /\ (forall x, Warehouse.codigo x <> codigo ->
                (In x (almacen (committed w')) <-> In x (almacen db)))
  /\ stock (committed w') = stock db
  /\ movimientos_lineas (committed w') = movimientos_lineas db.
Proof.
  unfold deactivate_warehouse, and_then, query_or, http_error, answer,
    delete_commit, open_session.
  destruct (fallo TGetWarehouse) as [[cls orig|msg]|]; simpl; try discriminate.
  destruct (get_warehouse_row codigo db) as [a|]; simpl; [|discriminate].
  destruct (fallo TSelectMovementLine) as [[cls orig|msg]|]; simpl; try discriminate.
  destruct (select_movement_line codigo db) as [l0|] eqn:El; simpl; [discriminate|].
  destruct (fallo TCommit) as [f|]; simpl; [discriminate|].
  destruct (existsb (fun s => Stock.codigo_almacen s =? codigo) (stock db)) eqn:Es;
    simpl; [discriminate|].
  destruct (existsb (fun l => MovementLine.codigo_almacen l =? codigo)
                    (movimientos_lineas db)) eqn:Em; simpl; [discriminate|].
  intros E. injection E as <- <-. simpl.
  split; [reflexivity|]. split.
  { unfold get_warehouse_row, delete_warehouse. simpl.
    destruct (find _ (filter _ (almacen db))) as [x|] eqn:Ef; [|reflexivity].
    apply find_some in Ef. destruct Ef as [Hin Hx].
    apply filter_In in Hin. destruct Hin as [_ Hn].
    rewrite Hx in Hn. discriminate Hn. }
  split.
  { intros l Hl Hc.
    assert (Ht : existsb (fun l => MovementLine.codigo_almacen l =? codigo)
                         (movimientos_lineas db) = true).
    { apply existsb_exists. exists l. split; [exact Hl | apply Z.eqb_eq; exact Hc]. }
    congruence. }
  split.
  { intros s Hs Hc.
    assert (Ht : existsb (fun s => Stock.codigo_almacen s =? codigo) (stock db) = true).
    { apply existsb_exists. exists s. split; [exact Hs | apply Z.eqb_eq; exact Hc]. }
    congruence. }
  split; [|split; reflexivity].
  intros x Hx. rewrite filter_In. split; [tauto|].
  intros Hin. split; [exact Hin|].
  apply Z.eqb_neq in Hx. rewrite Hx. reflexivity.
Qed.

(** Warehouse 2 of the demo store: no stock, no movement. *)
Lemma deactivate_warehouse_deleted_witness :
  get_warehouse_row 2
    (committed (snd (deactivate_warehouse (fun _ => None) 2
                       (open_session Demo.db0 []))))
  = None.
Proof.
  apply (@deactivate_warehouse_deleted (fun _ => None) 2 Demo.db0 []
           (Warehouse.mk 2 "Norte" false) _ eq_refl).
Defined.

(** X25. Once [update_warehouse] has deactivated a warehouse,
    [get_warehouse] never answers a plain user with it (it answers 403, or
    500 when its read fails). *)
Theorem deactivated_warehouse_hidden
        env codigo upd db conns r w' fallo u conns2 :
  update_warehouse env codigo upd (open_session db conns) = (Return r, w') ->
  u_activo upd = Some false ->
  is_admin_user u = false ->
  forall a,
    fst (get_warehouse fallo codigo u (open_session (committed w') conns2))
    <> Answer a.
Proof.
  intros H Hu Hadm a.
  apply update_warehouse_Return in H. destruct H as (a0 & Ha & Hr & Hw).
  assert (Hrc : Warehouse.codigo r = codigo).
  { rewrite Hr. simpl. unfold get_warehouse_row in Ha.
    apply find_some in Ha. destruct Ha as [_ Ha]. apply Z.eqb_eq. exact Ha. }
  assert (Hg : get_warehouse_row codigo (committed w') = Some r).
  { rewrite Hw. unfold get_warehouse_row, write_warehouse. simpl.
    apply (find_write_warehouse _ _ Ha Hrc). }
  unfold get_warehouse, and_then, query_or, http_error, answer, open_session.
  destruct (fallo TGetWarehouse) as [[cls orig|msg]|]; simpl; try discriminate.
  rewrite Hg, Hadm. rewrite Hr, Hu. simpl. discriminate.
Qed.

Lemma deactivated_warehouse_hidden_witness :
  fst (update_warehouse Demo.env0 1 Demo.inactivar (open_session Demo.db1 []))
  = Return (Warehouse.mk 1 "Central" false)
  /\ forall a,
       fst (get_warehouse (fun _ => None) 1 Demo.ana
              (open_session (write_warehouse Demo.db1 (Warehouse.mk 1 "Central" false)) []))
       <> Answer a.
Proof.
  split; [reflexivity|].
  apply (@deactivated_warehouse_hidden Demo.env0 1 Demo.inactivar Demo.db1 []
           (Warehouse.mk 1 "Central" false)
           (mkWorld (write_warehouse Demo.db1 (Warehouse.mk 1 "Central" false))
                    (write_warehouse Demo.db1 (Warehouse.mk 1 "Central" false))
                    [] [] [] [])
           (fun _ => None) Demo.ana [] eq_refl eq_refl eq_refl).
Defined.

(** ** The lines of a movement *)

(** X26. A successful [get_movement_lines] is answered to an admin or to
    the owner of the movement, with lines of the movement asked for only,
    at most [limit] of them, and a [total] that counts all the lines of
    the statement. *)
Theorem get_movement_lines_answer fallo id_mov limit offset u w page w' :
  get_movement_lines fallo id_mov limit offset u w = (Answer page, w') ->
  (exists m, select_movement id_mov (working w) = Some m
             /\ (is_admin_user u = false -> Movement.id_usuario m = User.id u))
  /\ (forall r, In r (data page) -> n_id_mov r = id_mov)
  /\ (List.length (data page) <= Z.to_nat limit)%nat
  /\ total page = Z.of_nat (List.length (lineas_statement id_mov (working w)))
  /\ Z.of_nat (List.length (data page)) <= total page.
Proof.
  unfold get_movement_lines, and_then, query_or, http_error, answer.
  destruct (fallo TSelectMovement) as [[cls orig|msg]|]; simpl; try discriminate.
  destruct (select_movement id_mov (working w)) as [m|]; simpl; [|discriminate].
  destruct (negb (is_admin_user u) && negb (Movement.id_usuario m =? User.id u))
    eqn:Eo; simpl; [discriminate|].
  destruct (fallo TSelectLineas) as [[cls orig|msg]|]; simpl; try discriminate.
  destruct (fallo TCountLineas) as [[cls orig|msg]|]; simpl; try discriminate.
  intros E. injection E as <- _. simpl.
  pose proof (limit_offset_length limit offset (lineas_statement id_mov (working w)))
    as [L1 L2].
  split.
  { exists m. split; [reflexivity|]. intros Hu. rewrite Hu in Eo. simpl in Eo.
    apply negb_false_iff in Eo. apply Z.eqb_eq. exact Eo. }
  split.
  { intros r Hr. apply limit_offset_In in Hr. unfold lineas_statement in Hr.
    apply order_by_In in Hr. apply in_flat_map in Hr.
    destruct Hr as (l & Hl & Hr). apply filter_In in Hl. destruct Hl as [_ Hl].
    apply in_flat_map in Hr. destruct Hr as (p & _ & Hr).
    apply in_map_iff in Hr. destruct Hr as (a & <- & _). simpl.
    apply Z.eqb_eq. exact Hl. }
  split; [exact L1|]. split; [reflexivity | lia].
Qed.

Lemma get_movement_lines_answer_witness :
  exists page,
    fst (get_movement_lines (fun _ => None) 1 10 0 Demo.eva (open_session Demo.db1 []))
    = Answer page
    /\ forall r, In r (data page) -> n_id_mov r = 1.
Proof.
  eexists. split; [reflexivity|].
  apply (@get_movement_lines_answer (fun _ => None) 1 10 0 Demo.eva
           (open_session Demo.db1 []) _ (open_session Demo.db1 []) eq_refl).
Defined.

(** ** The listing of the warehouses *)

(** X27. A successful [get_warehouses] with [estado] given lists only
    warehouses in that state, at most [limit] of them, and its [total]
    counts every warehouse that passes the filters. *)
Theorem get_warehouses_estado
        fallo descripcion_le ilike sql_lower str_lower limit offset search e w page w' :
  get_warehouses fallo descripcion_le ilike sql_lower str_lower
                 limit offset search (Some e) w
  = (Answer page, w') ->
  (forall a, In a (data page) -> In a (almacen (working w)) /\ Warehouse.activo a = e)
  /\ (List.length (data page) <= Z.to_nat limit)%nat
  /\ total page
     = Z.of_nat (List.length (warehouses_statement ilike sql_lower str_lower
                                                   search (Some e) (working w)))
  /\ Z.of_nat (List.length (data page)) <= total page.
Proof.
  unfold get_warehouses, and_then, query_or, answer.
  destruct (fallo TSelectWarehouses) as [[cls orig|msg]|]; simpl; try discriminate.
  destruct (fallo TCountWarehouses) as [[cls orig|msg]|]; simpl; try discriminate.
  intros E. injection E as <- _. simpl.
  match goal with
  | |- context [limit_offset limit offset ?l] =>
      pose proof (limit_offset_length limit offset l) as [L1 L2]
  end.
  rewrite order_by_length in L2.
  split.
  { intros a Ha. apply limit_offset_In in Ha. apply order_by_In in Ha.
    unfold warehouses_statement in Ha. apply filter_In in Ha.
    destruct Ha as [Hin Hp]. split; [exact Hin|].
    apply andb_true_iff in Hp. destruct Hp as [_ Hp].
    apply Bool.eqb_prop. exact Hp. }
  split; [exact L1|]. split; [reflexivity | lia].
Qed.

Lemma get_warehouses_estado_witness :
  exists page,
    fst (get_warehouses (fun _ => None) Ejemplos.lote_le Demo.ilike_any
           Py.lower Py.lower 10 0 None (Some false) (open_session Demo.db0 []))
    = Answer page
    /\ forall a, In a (data page) ->
                 In a (almacen Demo.db0) /\ Warehouse.activo a = false.
Proof.
  eexists. split; [reflexivity|].
  apply (@get_warehouses_estado (fun _ => None) Ejemplos.lote_le Demo.ilike_any
           Py.lower Py.lower 10 0 None false (open_session Demo.db0 []) _
           (open_session Demo.db0 []) eq_refl).
Defined.

(** ** Who reads what *)




